(** * ACL bootstrap and server-token provisioning (server-acl-init)

    A shallow embedding of
    [control-plane/subcommand/server-acl-init/servers.go]:
    [bootstrapServers], [bootstrapACLs], [setServerTokens],
    [setServerPolicy] and [isNoLeaderErr], together with the properties the
    specification states about them.

    The Go code talks to two outside systems, the Consul HTTP API and the
    Kubernetes API.  Both are represented by a [World]: an arbitrary
    deterministic backend (a state machine answering each request) and the
    Kubernetes secret store.  Every request the code issues is recorded,
    with its reply, in the list of [Event]s of the run. *)

From Stdlib Require Import ZArith DecimalString.
From stdpp Require Import base option list strings gmap.

Local Open Scope string_scope.
Local Open Scope list_scope.

(** ** Go values *)

(** A Go [error]: [None] is [nil], [Some msg] an error whose [Error()] is
    [msg]. *)
Definition error : Type := option string.

(** The [(value, error)] pair returned by an API call. *)
Inductive Result (A : Type) : Type :=
| Ok (a : A)
| Err (msg : string).
Arguments Ok {A} a.
Arguments Err {A} msg.

(** [time.Duration]: a count of nanoseconds. *)
Definition Duration : Type := Z.
Definition time_Second : Duration := 1000000000%Z.
Definition time_Minute : Duration := (60 * time_Second)%Z.

(** [net.IPAddr]; [IP] stands for the text [IP.String()] renders. *)
Record IPAddr : Type := { IP : string; Zone : string }.

(** [%d] of a Go [int]. *)
Definition itoa (n : Z) : string := NilZero.string_of_int (Z.to_int n).

(** [%q] of a string that needs no escaping: the string in double quotes. *)
Definition fmt_q (s : string) : string :=
  let quote := Ascii.ascii_of_nat 34 in
  String quote s +:+ String quote EmptyString.

(** [strings.Contains]. *)
Fixpoint strings_Contains (s substr : string) : bool :=
  String.prefix substr s ||
  match s with
  | EmptyString => false
  | String _ s' => strings_Contains s' substr
  end.

(** ** The Consul API client ([github.com/hashicorp/consul/api]) *)

Record http_Client : Type := { Timeout : Duration }.

Record Config : Type := {
  Address : string;
  Token : string;
  HttpClient : option http_Client
}.

Record ACLTokenPolicyLink : Type := { link_ID : string; link_Name : string }.

Record ACLToken : Type := {
  AccessorID : string;
  SecretID : string;
  Description : string;
  Policies : list ACLTokenPolicyLink
}.

Record ACLTokenListEntry : Type := {
  entry_AccessorID : string;
  entry_SecretID : string;
  entry_Description : string;
  entry_Policies : list ACLTokenPolicyLink
}.

Record ACLPolicy : Type := {
  policy_Name : string;
  policy_Description : string;
  policy_Rules : string
}.

(** A client handle remembers the configuration and the API timeout it was
    built from; requests made through it use that address, token and HTTP
    client. *)
Record Client : Type := { client_config : Config; client_apiTimeout : Duration }.

(** ** Kubernetes secrets ([k8s.io/api/core/v1]) *)

Record Secret : Type := {
  secret_Name : string;
  secret_Labels : gmap string string;
  secret_Data : gmap string (list Byte.byte)
}.

(** The constants [common.CLILabelKey], [common.CLILabelValue] and
    [common.ACLTokenSecretKey]: package [subcommand/common] is not among the
    sources, so their values are parameters of the command. *)
Record Common : Type := {
  CLILabelKey : string;
  CLILabelValue : string;
  ACLTokenSecretKey : string
}.

(** ** The command *)

Record Command : Type := {
  common : Common;
  (** [c.consulFlags.HTTPPort] *)
  HTTPPort : Z;
  (** [c.consulFlags.APITimeout] *)
  APITimeout : Duration;
  (** [c.consulFlags.ConsulClientConfig().APIClientConfig] *)
  APIClientConfig : Config;
  flagSetServerTokens : bool;
  flagK8sNamespace : string;
  (** what [c.agentRules()] returns: the rendered rule body, or the
      templating error *)
  agentRules : Result string
}.

(** ** Runs: events, outcomes and the monad *)

(** One request issued by the code, with the reply it got. *)
Inductive Event : Type :=
| EvNewClient (config : Config) (apiTimeout : Duration) (reply : error)
| EvBootstrap (client : Client) (reply : Result ACLToken)
| EvSecretCreate (namespace : string) (secret : Secret) (reply : error)
| EvPolicyUpsert (policy : ACLPolicy) (client : Client) (reply : error)
| EvTokenList (client : Client) (reply : Result (list ACLTokenListEntry))
| EvTokenCreate (client : Client) (req : ACLToken) (reply : Result ACLToken)
| EvUpdateAgentACLToken (client : Client) (token : string) (reply : error).

(** How a computation ends: it returns, it is still retrying when the fuel
    of a retry loop is used up, or it panics (index out of range). *)
Inductive res (A : Type) : Type :=
| Ret (a : A)
| OutOfFuel
| Panics.
Arguments Ret {A} a.
Arguments OutOfFuel {A}.
Arguments Panics {A}.

(** The outside world, as a deterministic state machine: each field answers
    one kind of request in backend state [B] and gives the next state. *)
Class Backend (B : Type) : Type := {
  (** does building a client from this configuration fail? *)
  newClient_reply : Config -> Duration -> B -> error * B;
  (** [PUT /v1/acl/bootstrap] *)
  bootstrap_reply : Client -> B -> Result ACLToken * B;
  (** a failure of the Kubernetes API that keeps a create request from
      reaching the secret store *)
  secretCreate_fault : string -> Secret -> B -> error * B;
  (** [c.createOrUpdateACLPolicy] *)
  policyUpsert_reply : ACLPolicy -> Client -> B -> error * B;
  (** [GET /v1/acl/tokens] *)
  tokenList_reply : Client -> B -> Result (list ACLTokenListEntry) * B;
  (** [PUT /v1/acl/token] *)
  tokenCreate_reply : Client -> ACLToken -> B -> Result ACLToken * B;
  (** [PUT /v1/agent/token/agent] *)
  updateAgentACLToken_reply : Client -> string -> B -> error * B
}.

Section Run.
Context {B : Type} `{Backend B}.

Record World : Type := {
  backend : B;
  (** the Kubernetes secret store, by namespace and name *)
  secrets : gmap (string * string) Secret
}.

Definition M (A : Type) : Type := World -> World * list Event * res A.

Definition ret {A : Type} (a : A) : M A := fun w => (w, [], Ret a).

Definition bind {A C : Type} (m : M A) (f : A -> M C) : M C := fun w =>
  let '(w1, t1, r) := m w in
  match r with
  | Ret a => let '(w2, t2, r2) := f a w1 in (w2, t1 ++ t2, r2)
  | OutOfFuel => (w1, t1, OutOfFuel)
  | Panics => (w1, t1, Panics)
  end.

Definition panic {A : Type} : M A := fun w => (w, [], Panics).

(** A request answered by the backend alone. *)
Definition request {A : Type} (reply : B -> A * B) (ev : A -> Event) : M A :=
  fun w =>
    let '(a, b') := reply (backend w) in
    ({| backend := b'; secrets := secrets w |}, [ev a], Ret a).

End Run.

Arguments World B : clear implicits.
Arguments M B A : clear implicits.

(** [M B] with stdpp's monad notation: [x ← m; k]. *)
#[global] Instance M_ret {B : Type} : MRet (M B) := fun A a => ret a.
#[global] Instance M_bind {B : Type} : MBind (M B) := fun A C f m => bind m f.

(** ** Requests *)

Section Requests.
Context {B : Type} `{Backend B}.

(** Modelled from the spec: [consul.NewClient] (package [control-plane/consul],
    not among the sources) is the external client construction; whether it
    fails is up to the outside world, and the handle it returns is the
    configuration and API timeout it was given. *)
Definition consul_NewClient (config : Config) (apiTimeout : Duration)
  : M B (Result Client) :=
  err ← request (newClient_reply config apiTimeout) (EvNewClient config apiTimeout);
  match err with
  | Some e => mret (Err e)
  | None => mret (Ok {| client_config := config; client_apiTimeout := apiTimeout |})
  end.

(** [consulClient.ACL().Bootstrap()] *)
Definition ACL_Bootstrap (client : Client) : M B (Result ACLToken) :=
  request (bootstrap_reply client) (EvBootstrap client).

(** Modelled from the spec: [c.createOrUpdateACLPolicy] (not among the
    sources) upserts the policy by name; here it is one request whose
    outcome the backend decides. *)
Definition createOrUpdateACLPolicy (policy : ACLPolicy) (client : Client)
  : M B error :=
  request (policyUpsert_reply policy client) (EvPolicyUpsert policy client).

(** [serverClient.ACL().TokenList(nil)] *)
Definition ACL_TokenList (client : Client)
  : M B (Result (list ACLTokenListEntry)) :=
  request (tokenList_reply client) (EvTokenList client).

(** [serverClient.ACL().TokenCreate(&tokenReq, nil)] *)
Definition ACL_TokenCreate (client : Client) (req : ACLToken)
  : M B (Result ACLToken) :=
  request (tokenCreate_reply client req) (EvTokenCreate client req).

(** [serverClient.Agent().UpdateAgentACLToken(token, nil)] *)
Definition Agent_UpdateAgentACLToken (client : Client) (token : string)
  : M B error :=
  request (updateAgentACLToken_reply client token)
          (EvUpdateAgentACLToken client token).

(** The text of the AlreadyExists error. *)
Definition already_exists (name : string) : string :=
  "secrets " +:+ fmt_q name +:+ " already exists".

(** [c.clientset.CoreV1().Secrets(namespace).Create(ctx, secret, opts)]:
    the Kubernetes API creates an object only under a name that is free in
    the namespace, and answers AlreadyExists otherwise, leaving the stored
    object as it is. *)
Definition Secrets_Create (namespace : string) (secret : Secret) : M B error :=
  fun w =>
    let '(fault, b') := secretCreate_fault namespace secret (backend w) in
    let key := (namespace, secret_Name secret) in
    let '(reply, store) :=
      match fault with
      | Some e => (Some e, secrets w)
      | None =>
          match secrets w !! key with
          | Some _ => (Some (already_exists (secret_Name secret)), secrets w)
          | None => (None, <[key := secret]> (secrets w))
          end
      end in
    ({| backend := b'; secrets := store |},
     [EvSecretCreate namespace secret reply], Ret reply).

(** ** The retry driver *)

(** Modelled from the spec: [c.untilSucceeds] (defined in [command.go], not
    among the sources) is the spec's RetryDriver: it invokes the attempt
    again and again, returns as soon as one attempt returns [nil], and has no
    other way out.  [fuel] bounds the attempts a run of the model follows;
    [vars] are the variables of the enclosing function that the closure
    [op] assigns to. *)
Fixpoint untilSucceeds {L : Type} (fuel : nat) (opName : string)
    (op : L -> M B (L * error)) (vars : L) : M B (L * error) :=
  match fuel with
  | O => fun w => (w, [], OutOfFuel)
  | S fuel' =>
      '(vars', err) ← op vars;
      match err with
      | None => mret (vars', None)
      | Some _ => untilSucceeds fuel' opName op vars'
      end
  end.

(** ** servers.go *)

(** [isNoLeaderErr] *)
Definition isNoLeaderErr (err : error) : bool :=
  match err with
  | None => false
  | Some msg =>
      strings_Contains msg "Unexpected response code: 500" &&
      strings_Contains msg "The ACL system is currently in legacy mode."
  end.

Definition errRootCredentialLost : string :=
  "ACLs already bootstrapped but the ACL token was not written to a Kubernetes secret." +:+
  " We can't proceed because the bootstrap token is lost." +:+
  " You must reset ACLs.".

Definition errCannotReach : string :=
  "Cannot reach consul server via DNS, restarting".

(** The closure of the first retry loop of [bootstrapACLs]; it assigns to
    [bootstrapToken] and [unrecoverableErr]. *)
Definition bootstrapAttempt (consulClient : Client) (vars : string * error)
  : M B ((string * error) * error) :=
  let '(bootstrapToken, unrecoverableErr) := vars in
  r ← ACL_Bootstrap consulClient;
  match r with
  | Ok bootstrapResp => mret ((SecretID bootstrapResp, unrecoverableErr), None)
  | Err err =>
      (* Check if already bootstrapped. *)
      if strings_Contains err "Unexpected response code: 403" then
        mret ((bootstrapToken, Some errRootCredentialLost), None)
      (* Check if we need to re-attempt DNS lookup. *)
      else if strings_Contains err "connection refused" then
        mret ((bootstrapToken, Some errCannotReach), None)
      else if isNoLeaderErr (Some err) then
        mret ((bootstrapToken, unrecoverableErr), Some ("no leader elected: " +:+ err))
      else
        mret ((bootstrapToken, unrecoverableErr), Some err)
  end.

(** The secret that [bootstrapACLs] writes. *)
Definition bootstrapSecret (c : Command)
    (bootTokenSecretName bootstrapToken : string) : Secret :=
  {| secret_Name := bootTokenSecretName;
     secret_Labels := {[ CLILabelKey (common c) := CLILabelValue (common c) ]};
     secret_Data :=
       {[ ACLTokenSecretKey (common c) :=
            String.list_byte_of_string bootstrapToken ]} |}.

(** The closure of the second retry loop of [bootstrapACLs]. *)
Definition writeSecretAttempt (c : Command) (bootTokenSecretName bootstrapToken : string)
    (vars : unit) : M B (unit * error) :=
  err ← Secrets_Create (flagK8sNamespace c)
                       (bootstrapSecret c bootTokenSecretName bootstrapToken);
  mret (vars, err).

(** The configuration [bootstrapACLs] connects with. *)
Definition bootstrapConfig (c : Command) (firstServerAddr : string) : Config :=
  {| Address := firstServerAddr;
     Token := Token (APIClientConfig c);
     HttpClient := Some {| Timeout := (5 * time_Minute)%Z |} |}.

(** [bootstrapACLs] *)
Definition bootstrapACLs (fuel : nat) (c : Command)
    (firstServerAddr bootTokenSecretName : string) : M B (string * error) :=
  let config := bootstrapConfig c firstServerAddr in
  r ← consul_NewClient config (APITimeout c);
  match r with
  | Err err =>
      mret ("", Some ("creating Consul client for address " +:+ firstServerAddr
                      +:+ ": " +:+ err))
  | Ok consulClient =>
      (* Call bootstrap ACLs API. *)
      '((bootstrapToken, unrecoverableErr), err) ←
        untilSucceeds fuel "bootstrapping ACLs - PUT /v1/acl/bootstrap"
          (bootstrapAttempt consulClient) ("", None);
      match unrecoverableErr with
      | Some e => mret ("", Some e)
      | None =>
          match err with
          | Some e => mret ("", Some e)
          | None =>
              (* Write bootstrap token to a Kubernetes secret. *)
              '(_, err) ←
                untilSucceeds fuel ("writing bootstrap Secret " +:+ fmt_q bootTokenSecretName)
                  (writeSecretAttempt c bootTokenSecretName bootstrapToken) tt;
              mret (bootstrapToken, err)
          end
      end
  end.

(** The inner loop of [setServerTokens]: the secret of the first listed
    token whose only policy is the agent policy and whose description is
    [tokenDescription]; the empty string when there is none. *)
Fixpoint findExistingToken (existingTokens : list ACLTokenListEntry)
    (agentPolicy : ACLPolicy) (tokenDescription : string) : string :=
  match existingTokens with
  | [] => ""
  | t :: rest =>
      if match entry_Policies t with
         | [p] => String.eqb (link_Name p) (policy_Name agentPolicy)
         | _ => false
         end
         && String.eqb (entry_Description t) tokenDescription
      then entry_SecretID t
      else findExistingToken rest agentPolicy tokenDescription
  end.

(** [%s] of a [net.IPAddr] value. *)
Definition fmt_IPAddr (host : IPAddr) : string :=
  "{" +:+ IP host +:+ " " +:+ Zone host +:+ "}".

(** The configuration of a client for one server. *)
Definition serverConfig (c : Command) (host : IPAddr) (bootstrapToken : string)
  : Config :=
  {| Address := IP host +:+ ":" +:+ itoa (HTTPPort c);
     Token := bootstrapToken;
     HttpClient := HttpClient (APIClientConfig c) |}.

Definition tokenDescriptionFor (host : IPAddr) : string :=
  "Server Token for " +:+ IP host.

(** The closure that creates a server token; it assigns to
    [tokenSecretID]. *)
Definition createTokenAttempt (serverClient : Client) (tokenDescription : string)
    (agentPolicy : ACLPolicy) (tokenSecretID : string) : M B (string * error) :=
  let tokenReq :=
    {| AccessorID := ""; SecretID := ""; Description := tokenDescription;
       Policies := [ {| link_ID := ""; link_Name := policy_Name agentPolicy |} ] |} in
  r ← ACL_TokenCreate serverClient tokenReq;
  match r with
  | Err err => mret (tokenSecretID, Some err)
  | Ok token => mret (SecretID token, None)
  end.

(** The closure that hands a token to a server's agent. *)
Definition updateTokenAttempt (serverClient : Client) (tokenSecretID : string)
    (vars : unit) : M B (unit * error) :=
  err ← Agent_UpdateAgentACLToken serverClient tokenSecretID;
  mret (vars, err).

(** The body of the [for _, host := range serverAddresses] loop of
    [setServerTokens]; [Some e] stands for [return e]. *)
Definition serverTokenStep (fuel : nat) (c : Command) (bootstrapToken : string)
    (agentPolicy : ACLPolicy) (existingTokens : list ACLTokenListEntry)
    (host : IPAddr) : M B error :=
  r ← consul_NewClient (serverConfig c host bootstrapToken) (APITimeout c);
  match r with
  | Err err => mret (Some err)
  | Ok serverClient =>
      let tokenDescription := tokenDescriptionFor host in
      (* Check if the token was already created. *)
      let tokenSecretID :=
        findExistingToken existingTokens agentPolicy tokenDescription in
      (* Create token for the server if it doesn't already exist. *)
      '(tokenSecretID, err) ←
        (if String.eqb tokenSecretID "" then
           untilSucceeds fuel
             ("creating server token for " +:+ fmt_IPAddr host +:+ " - PUT /v1/acl/token")
             (createTokenAttempt serverClient tokenDescription agentPolicy)
             tokenSecretID
         else mret (tokenSecretID, None));
      match err with
      | Some e => mret (Some e)
      | None =>
          (* Pass out agent tokens to servers. *)
          '(_, err) ←
            untilSucceeds fuel
              ("updating server token for " +:+ fmt_IPAddr host
               +:+ " - PUT /v1/agent/token/agent")
              (updateTokenAttempt serverClient tokenSecretID) tt;
          mret err
      end
  end.

(** A [for ... range] loop whose body may return an error from the
    enclosing function. *)
Fixpoint forRange {A : Type} (body : A -> M B error) (l : list A) : M B error :=
  match l with
  | [] => mret None
  | x :: rest =>
      err ← body x;
      match err with
      | Some e => mret (Some e)
      | None => forRange body rest
      end
  end.

Definition zeroACLPolicy : ACLPolicy :=
  {| policy_Name := ""; policy_Description := ""; policy_Rules := "" |}.

(** [setServerPolicy] *)
Definition setServerPolicy (fuel : nat) (c : Command) (consulClient : Client)
  : M B (ACLPolicy * error) :=
  match agentRules c with
  | Err err => mret (zeroACLPolicy, Some err)
  | Ok agentRules =>
      (* Create agent policy. *)
      let agentPolicy :=
        {| policy_Name := "agent-token";
           policy_Description := "Agent Token Policy";
           policy_Rules := agentRules |} in
      '(_, err) ←
        untilSucceeds fuel "creating agent policy - PUT /v1/acl/policy"
          (fun vars : unit =>
             err ← createOrUpdateACLPolicy agentPolicy consulClient;
             mret (vars, err)) tt;
      match err with
      | Some e => mret (zeroACLPolicy, Some e)
      | None => mret (agentPolicy, None)
      end
  end.

(** [setServerTokens] *)
Definition setServerTokens (fuel : nat) (c : Command)
    (serverAddresses : list IPAddr) (bootstrapToken : string) : M B error :=
  match serverAddresses with
  | [] => panic
  | addr0 :: _ =>
      r ← consul_NewClient (serverConfig c addr0 bootstrapToken) (APITimeout c);
      match r with
      | Err err => mret (Some err)
      | Ok serverClient =>
          '(agentPolicy, err) ← setServerPolicy fuel c serverClient;
          match err with
          | Some e => mret (Some e)
          | None =>
              r ← ACL_TokenList serverClient;
              match r with
              | Err err => mret (Some err)
              | Ok existingTokens =>
                  (* Create agent token for each server agent. *)
                  forRange
                    (serverTokenStep fuel c bootstrapToken agentPolicy existingTokens)
                    serverAddresses
              end
          end
      end
  end.

(** [bootstrapServers] *)
Definition bootstrapServers (fuel : nat) (c : Command)
    (serverAddresses : list IPAddr)
    (bootstrapToken bootTokenSecretName : string) : M B (string * error) :=
  (* Pick the first server address to connect to for bootstrapping. *)
  match serverAddresses with
  | [] => panic
  | addr0 :: _ =>
      let firstServerAddr := IP addr0 +:+ ":" +:+ itoa (HTTPPort c) in
      '(bootstrapToken, err) ←
        (if String.eqb bootstrapToken "" then
           bootstrapACLs fuel c firstServerAddr bootTokenSecretName
         else mret (bootstrapToken, None));
      match err with
      | Some e => mret ("", Some e)
      | None =>
          (* We should only create and set server tokens when servers are
             running within this cluster. *)
          if flagSetServerTokens c then
            err ← setServerTokens fuel c serverAddresses bootstrapToken;
            match err with
            | Some e => mret ("", Some e)
            | None => mret (bootstrapToken, None)
            end
          else mret (bootstrapToken, None)
      end
  end.

End Requests.

(** Projections of a run. *)
Definition final {B A : Type} (run : World B * list Event * res A) : World B := run.1.1.
Definition events {B A : Type} (run : World B * list Event * res A) : list Event := run.1.2.
Definition outcome {B A : Type} (run : World B * list Event * res A) : res A := run.2.

(** ** How a bootstrap attempt is classified

    The pure part of the closure [bootstrapAttempt], read off its branches:
    the markers it looks for in the error text, the verdict, and what it
    hands back to the retry driver. *)

Definition is403 (e : string) : bool :=
  strings_Contains e "Unexpected response code: 403".

Definition isRefused (e : string) : bool :=
  strings_Contains e "connection refused".

(** The attempt sets [unrecoverableErr] and returns [nil]. *)
Definition terminal (e : string) : bool := is403 e || isRefused e.

Definition unrecoverable (e : string) : string :=
  if is403 e then errRootCredentialLost else errCannotReach.

(** The error a non-terminal attempt returns to the retry driver. *)
Definition retryError (e : string) : string :=
  if isNoLeaderErr (Some e) then "no leader elected: " +:+ e else e.

Definition classify (vars : string * error) (r : Result ACLToken)
  : (string * error) * error :=
  match r with
  | Ok bootstrapResp => ((SecretID bootstrapResp, vars.2), None)
  | Err e =>
      if terminal e then ((vars.1, Some (unrecoverable e)), None)
      else (vars, Some (retryError e))
  end.

(** ** The shapes of a run of [bootstrapACLs] *)

Inductive BootRun : Type :=
| ClientFailed (e : string)
  (** the client could not be built *)
| Bootstrapping (errs : list string)
  (** every attempt so far failed with a retryable error *)
| GaveUp (errs : list string) (e : string)
  (** retryable errors, then the terminal error [e] *)
| Writing (errs : list string) (resp : ACLToken) (fails : list string)
  (** bootstrapped; every write of the secret so far failed *)
| Written (errs : list string) (resp : ACLToken) (fails : list string)
  (** bootstrapped, and the secret written after [fails] failed writes *).

Definition bootClient (c : Command) (firstServerAddr : string) : Client :=
  {| client_config := bootstrapConfig c firstServerAddr;
     client_apiTimeout := APITimeout c |}.

Definition failedBootstraps (cl : Client) (errs : list string) : list Event :=
  map (fun e => EvBootstrap cl (Err e)) errs.

Definition failedWrites (ns : string) (sec : Secret) (fails : list string)
  : list Event :=
  map (fun e => EvSecretCreate ns sec (Some e)) fails.

Definition bootRunEvents (c : Command) (firstServerAddr name : string)
    (br : BootRun) : list Event :=
  let cfg := bootstrapConfig c firstServerAddr in
  let cl := bootClient c firstServerAddr in
  let ns := flagK8sNamespace c in
  match br with
  | ClientFailed e => [EvNewClient cfg (APITimeout c) (Some e)]
  | Bootstrapping errs =>
      EvNewClient cfg (APITimeout c) None :: failedBootstraps cl errs
  | GaveUp errs e =>
      EvNewClient cfg (APITimeout c) None ::
        failedBootstraps cl errs ++ [EvBootstrap cl (Err e)]
  | Writing errs resp fails =>
      EvNewClient cfg (APITimeout c) None ::
        failedBootstraps cl errs ++ EvBootstrap cl (Ok resp) ::
        failedWrites ns (bootstrapSecret c name (SecretID resp)) fails
  | Written errs resp fails =>
      EvNewClient cfg (APITimeout c) None ::
        failedBootstraps cl errs ++ EvBootstrap cl (Ok resp) ::
        failedWrites ns (bootstrapSecret c name (SecretID resp)) fails ++
        [EvSecretCreate ns (bootstrapSecret c name (SecretID resp)) None]
  end.

Definition bootRunOutcome (firstServerAddr : string) (br : BootRun)
  : res (string * error) :=
  match br with
  | ClientFailed e =>
      Ret ("", Some ("creating Consul client for address " +:+ firstServerAddr
                     +:+ ": " +:+ e))
  | Bootstrapping _ => OutOfFuel
  | GaveUp _ e => Ret ("", Some (unrecoverable e))
  | Writing _ _ _ => OutOfFuel
  | Written _ resp _ => Ret (SecretID resp, None)
  end.

(** Side conditions of a shape for a run with [fuel] attempts per loop. *)
Definition bootRunOk (fuel : nat) (br : BootRun) : Prop :=
  match br with
  | ClientFailed _ => True
  | Bootstrapping errs =>
      Forall (fun e => terminal e = false) errs /\ length errs = fuel
  | GaveUp errs e =>
      Forall (fun e => terminal e = false) errs /\ terminal e = true
  | Writing errs _ fails =>
      Forall (fun e => terminal e = false) errs /\ length fails = fuel
  | Written errs _ fails =>
      Forall (fun e => terminal e = false) errs
  end.

(** Requests of the bootstrap phase, as opposed to provisioning. *)
Definition bootstrapStep (ev : Event) : bool :=
  match ev with
  | EvBootstrap _ _ | EvSecretCreate _ _ _ => true
  | _ => false
  end.

(** ** Provisioning

    [provisions P m]: every request [m] issues satisfies [P], and [m]
    leaves the Kubernetes secret store as it found it. *)
Definition provisions {B : Type} `{Backend B} {A : Type}
    (P : Event -> Prop) (m : M B A) : Prop :=
  forall w, Forall P (events (m w)) /\ secrets (final (m w)) = secrets w.

(** Requests made before the token list is fetched. *)
Definition setupStep (ev : Event) : bool :=
  match ev with
  | EvNewClient _ _ _ | EvPolicyUpsert _ _ _ => true
  | _ => false
  end.

(** Requests made for one server inside the loop of [setServerTokens]. *)
Definition perServerStep (ev : Event) : bool :=
  match ev with
  | EvNewClient _ _ _ | EvTokenCreate _ _ _ | EvUpdateAgentACLToken _ _ _ => true
  | _ => false
  end.

Definition isTokenList (ev : Event) : bool :=
  match ev with
  | EvTokenList _ _ => true
  | _ => false
  end.

Definition isTokenCreate (ev : Event) : bool :=
  match ev with
  | EvTokenCreate _ _ _ => true
  | _ => false
  end.

(** The client [setServerTokens] builds for a server. *)
Definition serverClient (c : Command) (host : IPAddr) (bootstrapToken : string)
  : Client :=
  {| client_config := serverConfig c host bootstrapToken;
     client_apiTimeout := APITimeout c |}.

(** The policy [setServerPolicy] upserts. *)
Definition agentPolicyOf (rules : string) : ACLPolicy :=
  {| policy_Name := "agent-token";
     policy_Description := "Agent Token Policy";
     policy_Rules := rules |}.

(** What [bootstrapServers] returns once the root credential [tok] is in
    hand, from the way the server-token step ended. *)
Definition afterProvisioning (tok : string) (r : res error)
  : res (string * error) :=
  match r with
  | Ret None => Ret (tok, None)
  | Ret (Some e) => Ret ("", Some e)
  | OutOfFuel => OutOfFuel
  | Panics => Panics
  end.

(** The address [bootstrapServers] picks for bootstrapping. *)
Definition firstServerAddrOf (c : Command) (addr0 : IPAddr) : string :=
  IP addr0 +:+ ":" +:+ itoa (HTTPPort c).

(** The retryable errors a run of [bootstrapACLs] went through. *)
Definition retried (br : BootRun) : list string :=
  match br with
  | ClientFailed _ => []
  | Bootstrapping errs | GaveUp errs _
  | Writing errs _ _ | Written errs _ _ => errs
  end.

(** Requests of the provisioning phase: policy upsert, token list, token
    creation, token push. *)
Definition provisioningStep (ev : Event) : bool :=
  match ev with
  | EvPolicyUpsert _ _ _ | EvTokenList _ _
  | EvTokenCreate _ _ _ | EvUpdateAgentACLToken _ _ _ => true
  | _ => false
  end.

(** [m] never panics. *)
Definition safe {B : Type} `{Backend B} {A : Type} (m : M B A) : Prop :=
  forall w, outcome (m w) <> Panics.


(** ** The shapes of one iteration of the server loop *)

(** The condition of the inner loop: the token's only policy is the agent
    policy and its description is the one looked for. *)
Definition matchesToken (agentPolicy : ACLPolicy) (tokenDescription : string)
    (t : ACLTokenListEntry) : bool :=
  match entry_Policies t with
  | [p] => String.eqb (link_Name p) (policy_Name agentPolicy)
  | _ => false
  end
  && String.eqb (entry_Description t) tokenDescription.

(** The request [createTokenAttempt] sends. *)
Definition tokenRequest (tokenDescription : string) (agentPolicy : ACLPolicy)
  : ACLToken :=
  {| AccessorID := ""; SecretID := ""; Description := tokenDescription;
     Policies := [ {| link_ID := ""; link_Name := policy_Name agentPolicy |} ] |}.

Definition failedCreates (cl : Client) (req : ACLToken) (fails : list string)
  : list Event :=
  map (fun e => EvTokenCreate cl req (Err e)) fails.

Definition failedPushes (cl : Client) (secret : string) (fails : list string)
  : list Event :=
  map (fun e => EvUpdateAgentACLToken cl secret (Some e)) fails.

(** Where the secret pushed to a server comes from: the token list, or a
    token created after some failed attempts. *)
Inductive TokenSource : Type :=
| Reused
| Created (cfails : list string) (token : ACLToken).

Inductive StepRun : Type :=
| StepClientFailed (e : string)
  (** the client for the server could not be built *)
| Creating (cfails : list string)
  (** every create so far failed *)
| Pushing (src : TokenSource) (pfails : list string)
  (** the secret is known; every push so far failed *)
| Pushed (src : TokenSource) (pfails : list string)
  (** the secret was pushed after [pfails] failed pushes *).

Definition createEvents (cl : Client) (req : ACLToken) (src : TokenSource)
  : list Event :=
  match src with
  | Reused => []
  | Created cfails token =>
      failedCreates cl req cfails ++ [EvTokenCreate cl req (Ok token)]
  end.

Definition secretOf (found : string) (src : TokenSource) : string :=
  match src with
  | Reused => found
  | Created _ token => SecretID token
  end.

Definition stepEvents (c : Command) (bootstrapToken : string)
    (agentPolicy : ACLPolicy) (host : IPAddr) (found : string) (sr : StepRun)
  : list Event :=
  let cfg := serverConfig c host bootstrapToken in
  let cl := serverClient c host bootstrapToken in
  let req := tokenRequest (tokenDescriptionFor host) agentPolicy in
  match sr with
  | StepClientFailed e => [EvNewClient cfg (APITimeout c) (Some e)]
  | Creating cfails =>
      EvNewClient cfg (APITimeout c) None :: failedCreates cl req cfails
  | Pushing src pfails =>
      EvNewClient cfg (APITimeout c) None ::
        createEvents cl req src ++ failedPushes cl (secretOf found src) pfails
  | Pushed src pfails =>
      EvNewClient cfg (APITimeout c) None ::
        createEvents cl req src ++ failedPushes cl (secretOf found src) pfails
        ++ [EvUpdateAgentACLToken cl (secretOf found src) None]
  end.

Definition stepOutcome (sr : StepRun) : res error :=
  match sr with
  | StepClientFailed e => Ret (Some e)
  | Creating _ | Pushing _ _ => OutOfFuel
  | Pushed _ _ => Ret None
  end.

(** A token is created exactly when none was found. *)
Definition sourceOk (found : string) (src : TokenSource) : Prop :=
  match src with
  | Reused => found <> ""
  | Created _ _ => found = ""
  end.

Definition stepOk (fuel : nat) (found : string) (sr : StepRun) : Prop :=
  match sr with
  | StepClientFailed _ => True
  | Creating cfails => found = "" /\ length cfails = fuel
  | Pushing src pfails => sourceOk found src /\ length pfails = fuel
  | Pushed src _ => sourceOk found src
  end.

(** ** The claims that do not hold as they are stated *)

(** C1 as stated: whenever a bootstrap call of the run succeeded, the
    credential [bootstrapServers] returns is the SecretID of the response. *)
Definition C1_as_stated : Prop :=
  forall (B : Type) (HB : Backend B) fuel c addrs name (w : World B) cl resp tok err,
    In (EvBootstrap cl (Ok resp)) (events (bootstrapServers fuel c addrs "" name w)) ->
    outcome (bootstrapServers fuel c addrs "" name w) = Ret (tok, err) ->
    tok = SecretID resp.

(** C3 as stated: with a non-empty stored token, what [bootstrapServers]
    returns is that token. *)
Definition C3_as_stated : Prop :=
  forall (B : Type) (HB : Backend B) fuel c addrs tok name (w : World B) tok' err,
    tok <> "" ->
    outcome (bootstrapServers fuel c addrs tok name w) = Ret (tok', err) ->
    tok' = tok.

(** C4 as stated: when the token list has a token with the agent policy as
    its only policy and the description of the server, the iteration for
    the server issues no token-create request. *)
Definition C4_as_stated : Prop :=
  forall (B : Type) (HB : Backend B) fuel c tok policy existing host (w : World B) t,
    In t existing ->
    matchesToken policy (tokenDescriptionFor host) t = true ->
    Forall (fun ev => isTokenCreate ev = false)
           (events (serverTokenStep fuel c tok policy existing host w)).


(** C7 as stated: every run of [setServerTokens] fetches the token list
    exactly once. *)
Definition C7_as_stated : Prop :=
  forall (B : Type) (HB : Backend B) fuel c addrs tok (w : World B),
    length (filter (fun ev => isTokenList ev = true)
                   (events (setServerTokens fuel c addrs tok w))) = 1%nat.

(** ** A scripted backend

    A concrete outside world for examples: every kind of request has a
    script of replies that are handed out in order; when a script is used
    up the request succeeds with a default reply. *)
Module Scripted.

Record State : Type := {
  newClient_script : list error;
  bootstrap_script : list (Result ACLToken);
  secretCreate_script : list error;
  policyUpsert_script : list error;
  tokenList_script : list (Result (list ACLTokenListEntry));
  tokenCreate_script : list (Result ACLToken);
  updateAgentACLToken_script : list error
}.

Definition quiet : State :=
  {| newClient_script := []; bootstrap_script := []; secretCreate_script := [];
     policyUpsert_script := []; tokenList_script := [];
     tokenCreate_script := []; updateAgentACLToken_script := [] |}.

Definition defaultToken : ACLToken :=
  {| AccessorID := "accessor"; SecretID := "secret";
     Description := ""; Policies := [] |}.

Definition next {A : Type} (default : A) (script : list A) : A * list A :=
  match script with
  | [] => (default, [])
  | a :: rest => (a, rest)
  end.

#[global] Instance scripted : Backend State := {|
  newClient_reply _ _ s :=
    let '(a, rest) := next None (newClient_script s) in
    (a, {| newClient_script := rest; bootstrap_script := bootstrap_script s;
           secretCreate_script := secretCreate_script s;
           policyUpsert_script := policyUpsert_script s;
           tokenList_script := tokenList_script s;
           tokenCreate_script := tokenCreate_script s;
           updateAgentACLToken_script := updateAgentACLToken_script s |});
  bootstrap_reply _ s :=
    let '(a, rest) := next (Ok defaultToken) (bootstrap_script s) in
    (a, {| newClient_script := newClient_script s; bootstrap_script := rest;
           secretCreate_script := secretCreate_script s;
           policyUpsert_script := policyUpsert_script s;
           tokenList_script := tokenList_script s;
           tokenCreate_script := tokenCreate_script s;
           updateAgentACLToken_script := updateAgentACLToken_script s |});
  secretCreate_fault _ _ s :=
    let '(a, rest) := next None (secretCreate_script s) in
    (a, {| newClient_script := newClient_script s;
           bootstrap_script := bootstrap_script s;
           secretCreate_script := rest;
           policyUpsert_script := policyUpsert_script s;
           tokenList_script := tokenList_script s;
           tokenCreate_script := tokenCreate_script s;
           updateAgentACLToken_script := updateAgentACLToken_script s |});
  policyUpsert_reply _ _ s :=
    let '(a, rest) := next None (policyUpsert_script s) in
    (a, {| newClient_script := newClient_script s;
           bootstrap_script := bootstrap_script s;
           secretCreate_script := secretCreate_script s;
           policyUpsert_script := rest;
           tokenList_script := tokenList_script s;
           tokenCreate_script := tokenCreate_script s;
           updateAgentACLToken_script := updateAgentACLToken_script s |});
  tokenList_reply _ s :=
    let '(a, rest) := next (Ok []) (tokenList_script s) in
    (a, {| newClient_script := newClient_script s;
           bootstrap_script := bootstrap_script s;
           secretCreate_script := secretCreate_script s;
           policyUpsert_script := policyUpsert_script s;
           tokenList_script := rest;
           tokenCreate_script := tokenCreate_script s;
           updateAgentACLToken_script := updateAgentACLToken_script s |});
  tokenCreate_reply _ _ s :=
    let '(a, rest) := next (Ok defaultToken) (tokenCreate_script s) in
    (a, {| newClient_script := newClient_script s;
           bootstrap_script := bootstrap_script s;
           secretCreate_script := secretCreate_script s;
           policyUpsert_script := policyUpsert_script s;
           tokenList_script := tokenList_script s;
           tokenCreate_script := rest;
           updateAgentACLToken_script := updateAgentACLToken_script s |});
  updateAgentACLToken_reply _ _ s :=
    let '(a, rest) := next None (updateAgentACLToken_script s) in
    (a, {| newClient_script := newClient_script s;
           bootstrap_script := bootstrap_script s;
           secretCreate_script := secretCreate_script s;
           policyUpsert_script := policyUpsert_script s;
           tokenList_script := tokenList_script s;
           tokenCreate_script := tokenCreate_script s;
           updateAgentACLToken_script := rest |})
|}.

(** A world with this backend and an empty secret store. *)
Definition world (s : State) : World State := {| backend := s; secrets := ∅ |}.

Definition constants : Common :=
  {| CLILabelKey := "managed-by"; CLILabelValue := "consul-k8s";
     ACLTokenSecretKey := "token" |}.

Definition cmd (setTokens : bool) : Command :=
  {| common := constants; HTTPPort := 8500; APITimeout := (5 * time_Second)%Z;
     APIClientConfig := {| Address := ""; Token := ""; HttpClient := None |};
     flagSetServerTokens := setTokens; flagK8sNamespace := "consul";
     agentRules := Ok "node_prefix {policy = write}" |}.

Definition addrs : list IPAddr :=
  [ {| IP := "10.0.0.1"; Zone := "" |}; {| IP := "10.0.0.2"; Zone := "" |} ].

Definition withBootstrap (script : list (Result ACLToken)) : State :=
  {| newClient_script := []; bootstrap_script := script;
     secretCreate_script := []; policyUpsert_script := [];
     tokenList_script := []; tokenCreate_script := [];
     updateAgentACLToken_script := [] |}.

(** The error texts of the scenarios. *)
Definition errNoLeader : string :=
  "Unexpected response code: 500 (The ACL system is currently in legacy mode.)".

Definition errForbidden : string :=
  "Unexpected response code: 403 (Permission denied: ACL bootstrap no longer allowed (reset index: 13))".

Definition errRefused : string :=
  "dial tcp 10.0.0.1:8500: connect: connection refused".


Definition errListFailed : string :=
  "Unexpected response code: 500 (rpc error making call: EOF)".

(** No leader at first, then the bootstrap is forbidden. *)
Definition forbidden : State := withBootstrap [Err errNoLeader; Err errForbidden].

(** The first server refuses the connection. *)
Definition refused : State := withBootstrap [Err errRefused].

(** No leader at first, then the bootstrap succeeds. *)
Definition noLeader : State := withBootstrap [Err errNoLeader; Ok defaultToken].

(** Everything succeeds but the token list. *)
Definition listFails : State :=
  {| newClient_script := []; bootstrap_script := [];
     secretCreate_script := []; policyUpsert_script := [];
     tokenList_script := [Err errListFailed]; tokenCreate_script := [];
     updateAgentACLToken_script := [] |}.

(** A world in which the secret "boot" exists already. *)
Definition oldSecret : Secret :=
  {| secret_Name := "boot"; secret_Labels := ∅; secret_Data := ∅ |}.

Definition taken : World State :=
  {| backend := quiet; secrets := {[ ("consul", "boot") := oldSecret ]} |}.

(** A command whose rule template does not render. *)
Definition cmdNoRules : Command :=
  {| common := constants; HTTPPort := 8500; APITimeout := (5 * time_Second)%Z;
     APIClientConfig := {| Address := ""; Token := ""; HttpClient := None |};
     flagSetServerTokens := true; flagK8sNamespace := "consul";
     agentRules := Err "template: agent rules: unexpected EOF" |}.

Definition host1 : IPAddr := {| IP := "10.0.0.1"; Zone := "" |}.

(** The client [bootstrapACLs] uses in the scenarios. *)
Definition bootClient1 : Client := bootClient (cmd true) "10.0.0.1:8500".

(** A listed token for [host1] with the agent policy, and no SecretID. *)
Definition blankToken : ACLTokenListEntry :=
  {| entry_AccessorID := "7c9e";
     entry_SecretID := "";
     entry_Description := "Server Token for 10.0.0.1";
     entry_Policies := [ {| link_ID := "1f0a"; link_Name := "agent-token" |} ] |}.

End Scripted.


(** ** Vocabulary of the further properties *)

Definition failedUpserts (policy : ACLPolicy) (cl : Client) (fails : list string)
  : list Event :=
  map (fun e => EvPolicyUpsert policy cl (Some e)) fails.

Definition isBootstrap (ev : Event) : bool :=
  match ev with
  | EvBootstrap _ _ => true
  | _ => false
  end.

(** What is read back from the store: the bytes under the ACL token key of
    the secret [name], as a string; [None] when the secret or the key is
    missing. *)
Definition storedToken {B : Type} (c : Command) (name : string) (w : World B)
  : option string :=
  sec ← secrets w !! (flagK8sNamespace c, name);
  data ← secret_Data sec !! ACLTokenSecretKey (common c);
  Some (String.string_of_list_byte data).

(** A configuration of the provisioning phase: it carries the root token
    and the HTTP client of the command's own configuration. *)
Definition rootConfig (c : Command) (tok : string) (cfg : Config) : Prop :=
  Token cfg = tok /\ HttpClient cfg = HttpClient (APIClientConfig c).

Definition usesRootToken (c : Command) (tok : string) (ev : Event) : Prop :=
  match ev with
  | EvNewClient cfg _ _ => rootConfig c tok cfg
  | EvPolicyUpsert _ cl _ | EvTokenList cl _
  | EvTokenCreate cl _ _ | EvUpdateAgentACLToken cl _ _ =>
      rootConfig c tok (client_config cl)
  | EvBootstrap _ _ | EvSecretCreate _ _ _ => False
  end.

(** The configurations of the clients built in a run, in order. *)
Definition newClientConfigs (evs : list Event) : list Config :=
  omap (fun ev => match ev with
                  | EvNewClient cfg _ _ => Some cfg
                  | _ => None
                  end) evs.

Definition isNewClient (ev : Event) : bool :=
  match ev with
  | EvNewClient _ _ _ => true
  | _ => false
  end.

(** Further scenarios for the scripted backend. *)
Module Cases.

(** The policy upsert fails twice before it goes through. *)
Definition policyFlaky : Scripted.State :=
  {| Scripted.newClient_script := []; Scripted.bootstrap_script := [];
     Scripted.secretCreate_script := [];
     Scripted.policyUpsert_script :=
       [Some "Unexpected response code: 500 (No cluster leader)";
        Some "Unexpected response code: 500 (No cluster leader)"];
     Scripted.tokenList_script := []; Scripted.tokenCreate_script := [];
     Scripted.updateAgentACLToken_script := [] |}.

(** No client can be built. *)
Definition noClient : Scripted.State :=
  {| Scripted.newClient_script := [Some "invalid CA file"];
     Scripted.bootstrap_script := []; Scripted.secretCreate_script := [];
     Scripted.policyUpsert_script := []; Scripted.tokenList_script := [];
     Scripted.tokenCreate_script := [];
     Scripted.updateAgentACLToken_script := [] |}.

(** Listed tokens for the two servers of [Scripted.addrs]. *)
Definition token1 : ACLTokenListEntry :=
  {| entry_AccessorID := "a1"; entry_SecretID := "s1";
     entry_Description := "Server Token for 10.0.0.1";
     entry_Policies := [ {| link_ID := "p"; link_Name := "agent-token" |} ] |}.

Definition token2 : ACLTokenListEntry :=
  {| entry_AccessorID := "a2"; entry_SecretID := "s2";
     entry_Description := "Server Token for 10.0.0.2";
     entry_Policies := [ {| link_ID := "p"; link_Name := "agent-token" |} ] |}.

(** The token list holds a token for every server. *)
Definition allListed : Scripted.State :=
  {| Scripted.newClient_script := []; Scripted.bootstrap_script := [];
     Scripted.secretCreate_script := []; Scripted.policyUpsert_script := [];
     Scripted.tokenList_script := [Ok [token1; token2]];
     Scripted.tokenCreate_script := [];
     Scripted.updateAgentACLToken_script := [] |}.

Definition host2 : IPAddr := {| IP := "10.0.0.2"; Zone := "" |}.

(** No leader at first, then the server refuses the connection. *)
Definition noLeaderThenRefused : Scripted.State :=
  Scripted.withBootstrap [Err Scripted.errNoLeader; Err Scripted.errRefused].

(** In the loop over the servers, the client of the second server cannot
    be built. *)
Definition secondServerDown : Scripted.State :=
  {| Scripted.newClient_script := [None; Some "invalid address"];
     Scripted.bootstrap_script := []; Scripted.secretCreate_script := [];
     Scripted.policyUpsert_script := []; Scripted.tokenList_script := [];
     Scripted.tokenCreate_script := [];
     Scripted.updateAgentACLToken_script := [] |}.

End Cases.

(** * Properties *)

(** ** The monad and the retry driver *)

Section Laws.
Context {B : Type} `{Backend B}.

Lemma run_eta {A : Type} (run : World B * list Event * res A) :
  run = (final run, events run, outcome run).
Proof. by destruct run as [[? ?] ?]. Qed.

Lemma bind_Ret {A C : Type} (m : M B A) (f : A -> M B C) w w1 t1 a :
  m w = (w1, t1, Ret a) ->
  (m ≫= f) w = (final (f a w1), t1 ++ events (f a w1), outcome (f a w1)).
Proof.
  intros Hm. unfold mbind, M_bind, bind. rewrite Hm.
  by destruct (f a w1) as [[? ?] ?].
Qed.

Lemma bind_OutOfFuel {A C : Type} (m : M B A) (f : A -> M B C) w w1 t1 :
  m w = (w1, t1, OutOfFuel) -> (m ≫= f) w = (w1, t1, OutOfFuel).
Proof. intros Hm. unfold mbind, M_bind, bind. by rewrite Hm. Qed.

Lemma bind_Panics {A C : Type} (m : M B A) (f : A -> M B C) w w1 t1 :
  m w = (w1, t1, Panics) -> (m ≫= f) w = (w1, t1, Panics).
Proof. intros Hm. unfold mbind, M_bind, bind. by rewrite Hm. Qed.

Lemma mret_run {A : Type} (a : A) (w : World B) :
  (mret a : M B A) w = (w, [], Ret a).
Proof. reflexivity. Qed.

Lemma final_triple {A : Type} (w : World B) t (r : res A) : final (w, t, r) = w.
Proof. reflexivity. Qed.

Lemma events_triple {A : Type} (w : World B) t (r : res A) : events (w, t, r) = t.
Proof. reflexivity. Qed.

Lemma outcome_triple {A : Type} (w : World B) t (r : res A) : outcome (w, t, r) = r.
Proof. reflexivity. Qed.

Lemma request_run {A : Type} (reply : B -> A * B) (ev : A -> Event) (w : World B) :
  request reply ev w =
    ({| backend := (reply (backend w)).2; secrets := secrets w |},
     [ev (reply (backend w)).1], Ret (reply (backend w)).1).
Proof. unfold request. by destruct (reply (backend w)). Qed.

(** One attempt that succeeds ends the loop. *)
Lemma untilSucceeds_done {L : Type} fuel name (op : L -> M B (L * error)) vars w w1 t1 vars' :
  op vars w = (w1, t1, Ret (vars', None)) ->
  untilSucceeds (S fuel) name op vars w = (w1, t1, Ret (vars', None)).
Proof.
  intros Hop. cbn [untilSucceeds]. rewrite (bind_Ret _ _ _ _ _ _ Hop).
  cbn. by rewrite app_nil_r.
Qed.

(** One attempt that fails is followed by the rest of the loop. *)
Lemma untilSucceeds_retry {L : Type} fuel name (op : L -> M B (L * error)) vars w w1 t1 vars' e :
  op vars w = (w1, t1, Ret (vars', Some e)) ->
  untilSucceeds (S fuel) name op vars w =
    (final (untilSucceeds fuel name op vars' w1),
     t1 ++ events (untilSucceeds fuel name op vars' w1),
     outcome (untilSucceeds fuel name op vars' w1)).
Proof.
  intros Hop. cbn [untilSucceeds]. by rewrite (bind_Ret _ _ _ _ _ _ Hop).
Qed.

End Laws.

(** ** Retry loops around a single request *)

Section Loops.
Context {B : Type} `{Backend B}.

(** A loop whose attempt issues one request and then decides, without
    changing the variables when it asks for a retry: the run is a series of
    replies that ask for a retry, ended by the fuel or by a reply that is
    accepted. *)
Lemma request_loop {L A : Type} (reply : B -> A * B) (ev : A -> Event)
    (k : L -> A -> L * error) name (op : L -> M B (L * error)) :
  (forall v w, op v w =
     ({| backend := (reply (backend w)).2; secrets := secrets w |},
      [ev (reply (backend w)).1], Ret (k v (reply (backend w)).1))) ->
  (forall v a v' e, k v a = (v', Some e) -> v' = v) ->
  forall fuel v w,
    secrets (final (untilSucceeds fuel name op v w)) = secrets w /\
    exists pre,
      Forall (fun a => exists e, k v a = (v, Some e)) pre /\
      ((events (untilSucceeds fuel name op v w) = map ev pre /\
        outcome (untilSucceeds fuel name op v w) = OutOfFuel /\
        length pre = fuel) \/
       (exists a v', k v a = (v', None) /\
          events (untilSucceeds fuel name op v w) = map ev pre ++ [ev a] /\
          outcome (untilSucceeds fuel name op v w) = Ret (v', None))).
Proof.
  intros Hop Hkeep fuel. induction fuel as [|fuel IH]; intros v w.
  - split; [done|]. exists []. split; [constructor|]. by left.
  - specialize (Hop v w).
    destruct (k v (reply (backend w)).1) as [v' [e|]] eqn:Hk.
    + assert (v' = v) as -> by eauto.
      rewrite (untilSucceeds_retry _ _ _ _ _ _ _ _ _ Hop).
      destruct (IH v {| backend := (reply (backend w)).2; secrets := secrets w |})
        as [Hsec [pre [Hpre Hrun]]].
      split; [exact Hsec|].
      exists ((reply (backend w)).1 :: pre). split.
      { constructor; eauto. }
      destruct Hrun as [(Hev & Hout & Hlen) | (a & v' & Ha & Hev & Hout)].
      * left. cbn. rewrite Hev. cbn. by rewrite Hlen.
      * right. exists a, v'. cbn. by rewrite Hev.
    + rewrite (untilSucceeds_done _ _ _ _ _ _ _ _ Hop).
      split; [done|]. exists []. split; [constructor|].
      right. by exists (reply (backend w)).1, v'.
Qed.

(** The closure of the bootstrap loop is one request followed by
    [classify]. *)
Lemma bootstrapAttempt_run (cl : Client) (vars : string * error) (w : World B) :
  bootstrapAttempt cl vars w =
    ({| backend := (bootstrap_reply cl (backend w)).2; secrets := secrets w |},
     [EvBootstrap cl (bootstrap_reply cl (backend w)).1],
     Ret (classify vars (bootstrap_reply cl (backend w)).1)).
Proof.
  destruct vars as [tok unrec].
  unfold bootstrapAttempt, ACL_Bootstrap, request, mbind, M_bind, bind.
  destruct (bootstrap_reply cl (backend w)) as [[resp|e] b']; cbn; [done|].
  unfold classify, terminal, unrecoverable, retryError, is403, isRefused. cbn.
  destruct (strings_Contains e "Unexpected response code: 403"); cbn; [done|].
  destruct (strings_Contains e "connection refused"); cbn; [done|].
  by destruct (_ && _).
Qed.

Lemma classify_retry_keeps vars r vars' e :
  classify vars r = (vars', Some e) -> vars' = vars.
Proof.
  unfold classify. destruct r as [resp|msg]; [done|].
  destruct (terminal msg); [done|]. by intros [= <- _].
Qed.

Lemma classify_retry vars msg e :
  classify vars (Err msg) = (vars, Some e) -> terminal msg = false.
Proof. unfold classify. by destruct (terminal msg). Qed.

(** The bootstrap loop: retryable errors, then the fuel ends, or the
    bootstrap succeeds, or a terminal error stops the loop. *)
Lemma bootstrap_loop fuel name (cl : Client) (w : World B) :
  secrets (final (untilSucceeds fuel name (bootstrapAttempt cl) ("", None) w))
    = secrets w /\
  exists errs,
    Forall (fun e => terminal e = false) errs /\
    ((events (untilSucceeds fuel name (bootstrapAttempt cl) ("", None) w)
        = failedBootstraps cl errs /\
      outcome (untilSucceeds fuel name (bootstrapAttempt cl) ("", None) w)
        = OutOfFuel /\
      length errs = fuel) \/
     (exists resp,
        events (untilSucceeds fuel name (bootstrapAttempt cl) ("", None) w)
          = failedBootstraps cl errs ++ [EvBootstrap cl (Ok resp)] /\
        outcome (untilSucceeds fuel name (bootstrapAttempt cl) ("", None) w)
          = Ret ((SecretID resp, None), None)) \/
     (exists e,
        terminal e = true /\
        events (untilSucceeds fuel name (bootstrapAttempt cl) ("", None) w)
          = failedBootstraps cl errs ++ [EvBootstrap cl (Err e)] /\
        outcome (untilSucceeds fuel name (bootstrapAttempt cl) ("", None) w)
          = Ret (("", Some (unrecoverable e)), None))).
Proof.
  destruct (request_loop (bootstrap_reply cl) (EvBootstrap cl) classify name
              (bootstrapAttempt cl) (bootstrapAttempt_run cl)
              classify_retry_keeps fuel ("", None) w)
    as [Hsec [pre [Hpre Hrun]]].
  split; [exact Hsec|].
  (* the replies that asked for a retry are retryable errors *)
  assert (exists errs, pre = map Err errs /\
                       Forall (fun e => terminal e = false) errs)
    as (errs & -> & Herrs).
  { clear Hrun. induction Hpre as [|a pre [e Ha] _ (errs & -> & Herrs)].
    - by exists [].
    - destruct a as [resp|msg]; [done|].
      exists (msg :: errs). split; [done|].
      constructor; [by eapply classify_retry|done]. }
  exists errs. split; [done|].
  unfold failedBootstraps.
  rewrite map_map in Hrun. rewrite length_map in Hrun.
  destruct Hrun as [Hfuel | (a & v' & Ha & Hev & Hout)]; [by left|].
  right. destruct a as [resp|msg].
  - left. exists resp. injection Ha as <-. done.
  - right. exists msg. unfold classify in Ha.
    destruct (terminal msg) eqn:Hterm; [|done].
    injection Ha as <-. done.
Qed.

End Loops.

(** ** The runs of [bootstrapACLs] *)

Section Bootstrap.
Context {B : Type} `{Backend B}.

(** One write attempt: what it answers and what it does to the store. *)
Lemma writeSecretAttempt_run c name tok (w : World B) :
  let ns := flagK8sNamespace c in
  let sec := bootstrapSecret c name tok in
  (exists e b',
     writeSecretAttempt c name tok tt w =
       ({| backend := b'; secrets := secrets w |},
        [EvSecretCreate ns sec (Some e)], Ret (tt, Some e))) \/
  (exists b',
     secrets w !! (ns, name) = None /\
     writeSecretAttempt c name tok tt w =
       ({| backend := b'; secrets := <[(ns, name) := sec]> (secrets w) |},
        [EvSecretCreate ns sec None], Ret (tt, None))).
Proof.
  cbn. unfold writeSecretAttempt, Secrets_Create, mbind, M_bind, bind. cbn.
  destruct (secretCreate_fault _ _ (backend w)) as [[e|] b'].
  - left. by exists e, b'.
  - destruct (secrets w !! (flagK8sNamespace c, name)) as [old|] eqn:Hold.
    + left. by exists (already_exists name), b'.
    + right. by exists b'.
Qed.

(** The write loop: failed writes, then the fuel ends or the write goes
    through, which needs the name to be free. *)
Lemma write_loop fuel opName c name tok (w : World B) :
  let ns := flagK8sNamespace c in
  let sec := bootstrapSecret c name tok in
  let run := untilSucceeds fuel opName (writeSecretAttempt c name tok) tt w in
  exists fails,
    (events run = failedWrites ns sec fails /\ outcome run = OutOfFuel /\
     length fails = fuel /\ secrets (final run) = secrets w) \/
    (events run = failedWrites ns sec fails ++ [EvSecretCreate ns sec None] /\
     outcome run = Ret (tt, None) /\
     secrets w !! (ns, name) = None /\
     secrets (final run) = <[(ns, name) := sec]> (secrets w)).
Proof.
  cbn. revert w. induction fuel as [|fuel IH]; intros w.
  - exists []. by left.
  - destruct (writeSecretAttempt_run c name tok w)
      as [(e & b' & Hop) | (b' & Hfree & Hop)].
    + rewrite (untilSucceeds_retry _ _ _ _ _ _ _ _ _ Hop).
      destruct (IH {| backend := b'; secrets := secrets w |})
        as [fails [(Hev & Hout & Hlen & Hsec) | (Hev & Hout & Hfree & Hsec)]].
      * exists (e :: fails). left. cbn. rewrite Hev. cbn. by rewrite Hlen.
      * exists (e :: fails). right. cbn. by rewrite Hev.
    + rewrite (untilSucceeds_done _ _ _ _ _ _ _ _ Hop).
      exists []. by right.
Qed.

Lemma consul_NewClient_run cfg apiTimeout (w : World B) :
  consul_NewClient cfg apiTimeout w =
    ({| backend := (newClient_reply cfg apiTimeout (backend w)).2;
        secrets := secrets w |},
     [EvNewClient cfg apiTimeout (newClient_reply cfg apiTimeout (backend w)).1],
     Ret (match (newClient_reply cfg apiTimeout (backend w)).1 with
          | Some e => Err e
          | None => Ok {| client_config := cfg; client_apiTimeout := apiTimeout |}
          end)).
Proof.
  unfold consul_NewClient, request, mbind, M_bind, bind.
  by destruct (newClient_reply cfg apiTimeout (backend w)) as [[e|] b'].
Qed.

(** Every run of [bootstrapACLs] has one of the five shapes. *)
Lemma bootstrapACLs_run fuel c addr name (w : World B) :
  let ns := flagK8sNamespace c in
  let run := bootstrapACLs fuel c addr name w in
  exists br,
    bootRunOk fuel br /\
    events run = bootRunEvents c addr name br /\
    outcome run = bootRunOutcome addr br /\
    match br with
    | Written _ resp _ =>
        secrets w !! (ns, name) = None /\
        secrets (final run) =
          <[(ns, name) := bootstrapSecret c name (SecretID resp)]> (secrets w)
    | _ => secrets (final run) = secrets w
    end.
Proof.
  cbn. unfold bootstrapACLs.
  rewrite (bind_Ret _ _ _ _ _ _ (consul_NewClient_run _ _ w)).
  destruct (newClient_reply (bootstrapConfig c addr) (APITimeout c) (backend w))
    as [[e|] b1]; cbn [fst snd].
  - (* the client could not be built *)
    by exists (ClientFailed e).
  - set (w1 := {| backend := b1; secrets := secrets w |}).
    fold (bootClient c addr).
    set (opName := "bootstrapping ACLs - PUT /v1/acl/bootstrap").
    pose proof (run_eta (untilSucceeds fuel opName
                           (bootstrapAttempt (bootClient c addr)) ("", None) w1))
      as Hloop.
    destruct (bootstrap_loop fuel opName (bootClient c addr) w1)
      as [Hsec [errs [Herrs [(Hev & Hout & Hlen) |
            [(resp & Hev & Hout) | (e & Hterm & Hev & Hout)]]]]];
      rewrite Hev, Hout in Hloop.
    + (* still bootstrapping *)
      exists (Bootstrapping errs).
      rewrite (bind_OutOfFuel _ _ _ _ _ Hloop).
      by repeat split.
    + (* bootstrapped: the write loop *)
      rewrite (bind_Ret _ _ _ _ _ _ Hloop). cbn beta iota.
      set (w2 := final _) in *.
      set (wname := "writing bootstrap Secret " +:+ fmt_q name).
      pose proof (run_eta (untilSucceeds fuel wname
                             (writeSecretAttempt c name (SecretID resp)) tt w2))
        as Hwrite.
      destruct (write_loop fuel wname c name (SecretID resp) w2)
        as [fails [(Hev2 & Hout2 & Hlen2 & Hsec2) |
                   (Hev2 & Hout2 & Hfree & Hsec2)]];
        cbn zeta in Hev2, Hout2, Hsec2; rewrite Hev2, Hout2 in Hwrite.
      * exists (Writing errs resp fails).
        rewrite (bind_OutOfFuel _ _ _ _ _ Hwrite).
        repeat split; try done.
        -- unfold events. cbn. by rewrite <- app_assoc.
        -- etrans; [exact Hsec2|exact Hsec].
      * exists (Written errs resp fails).
        rewrite (bind_Ret _ _ _ _ _ _ Hwrite).
        rewrite Hsec in Hfree, Hsec2.
        repeat split; try done.
        unfold events. cbn. by rewrite app_nil_r, <- app_assoc.
    + (* a terminal error *)
      exists (GaveUp errs e).
      rewrite (bind_Ret _ _ _ _ _ _ Hloop).
      repeat split; try done.
      unfold events. cbn. by rewrite app_nil_r.
Qed.

End Bootstrap.

(** ** Provisioning leaves the bootstrap alone *)

Section Provisioning.
Context {B : Type} `{Backend B}.

Lemma provisions_ret {A : Type} P (a : A) : provisions P (mret a : M B A).
Proof. intros w. split; [constructor|done]. Qed.

Lemma provisions_panic {A : Type} P : provisions P (panic : M B A).
Proof. intros w. split; [constructor|done]. Qed.

Lemma provisions_bind {A C : Type} P (m : M B A) (f : A -> M B C) :
  provisions P m -> (forall a, provisions P (f a)) -> provisions P (m ≫= f).
Proof.
  intros Hm Hf w. destruct (Hm w) as [Hev Hsec].
  destruct (m w) as [[w1 t1] [a| |]] eqn:Hrun.
  - rewrite (bind_Ret _ _ _ _ _ _ Hrun). destruct (Hf a w1) as [Hev' Hsec'].
    split.
    + apply Forall_app. by split.
    + etrans; [exact Hsec'|exact Hsec].
  - by rewrite (bind_OutOfFuel _ _ _ _ _ Hrun).
  - by rewrite (bind_Panics _ _ _ _ _ Hrun).
Qed.

Lemma provisions_request {A : Type} (P : Event -> Prop) (reply : B -> A * B) ev :
  (forall a, P (ev a)) -> provisions P (request reply ev).
Proof.
  intros Hev w. unfold request. destruct (reply (backend w)) as [a b'].
  split; [by repeat constructor|done].
Qed.

Lemma provisions_untilSucceeds {L : Type} P fuel name (op : L -> M B (L * error)) :
  (forall v, provisions P (op v)) ->
  forall v, provisions P (untilSucceeds fuel name op v).
Proof.
  intros Hop. induction fuel as [|fuel IH]; intros v.
  - intros w. split; [constructor|done].
  - cbn [untilSucceeds]. apply provisions_bind; [done|].
    intros [v' [e|]]; [apply IH|apply provisions_ret].
Qed.

Lemma provisions_forRange {A : Type} P (body : A -> M B error) l :
  (forall x, provisions P (body x)) -> provisions P (forRange body l).
Proof.
  intros Hbody. induction l as [|x l IH]; cbn [forRange].
  - apply provisions_ret.
  - apply provisions_bind; [done|]. intros [e|]; [apply provisions_ret|done].
Qed.

Lemma provisions_impl {A : Type} (P Q : Event -> Prop) (m : M B A) :
  (forall ev, P ev -> Q ev) -> provisions P m -> provisions Q m.
Proof.
  intros HPQ Hm w. destruct (Hm w) as [Hev Hsec]. split; [|done].
  by eapply Forall_impl.
Qed.

Lemma provisions_NewClient (P : Event -> Prop) cfg apiTimeout :
  (forall r, P (EvNewClient cfg apiTimeout r)) ->
  provisions P (consul_NewClient cfg apiTimeout).
Proof.
  intros HP. unfold consul_NewClient.
  apply provisions_bind; [by apply provisions_request|].
  intros [e|]; apply provisions_ret.
Qed.

(** One iteration of the loop only builds a client, creates a token and
    hands a token to the agent. *)
Lemma serverTokenStep_provisions fuel c tok policy existing host :
  provisions (fun ev => perServerStep ev = true)
    (serverTokenStep fuel c tok policy existing host).
Proof.
  unfold serverTokenStep.
  apply provisions_bind; [by apply provisions_NewClient|].
  intros [cl|e]; [|apply provisions_ret].
  apply provisions_bind.
  - destruct (String.eqb _ ""); [|apply provisions_ret].
    apply provisions_untilSucceeds. intros v. unfold createTokenAttempt.
    apply provisions_bind; [by apply provisions_request|].
    intros [tk|e]; apply provisions_ret.
  - intros [secret [e|]]; [apply provisions_ret|].
    apply provisions_bind; [|intros [[] ?]; apply provisions_ret].
    apply provisions_untilSucceeds. intros v. unfold updateTokenAttempt.
    apply provisions_bind; [by apply provisions_request|].
    intros ?; apply provisions_ret.
Qed.

Lemma setServerPolicy_provisions fuel c cl :
  provisions (fun ev => setupStep ev = true) (setServerPolicy fuel c cl).
Proof.
  unfold setServerPolicy. destruct (agentRules c) as [rules|e];
    [|apply provisions_ret].
  apply provisions_bind; [|intros [[] [e|]]; apply provisions_ret].
  apply provisions_untilSucceeds. intros v.
  apply provisions_bind; [by apply provisions_request|].
  intros ?; apply provisions_ret.
Qed.

(** [setServerTokens] issues no bootstrap call and writes no secret. *)
Lemma setServerTokens_provisions fuel c addrs tok :
  provisions (fun ev => bootstrapStep ev = false)
    (setServerTokens fuel c addrs tok).
Proof.
  unfold setServerTokens. destruct addrs as [|a0 rest];
    [apply provisions_panic|].
  apply provisions_bind; [by apply provisions_NewClient|].
  intros [cl|e]; [|apply provisions_ret].
  apply provisions_bind.
  { eapply provisions_impl; [|apply setServerPolicy_provisions].
    by intros []. }
  intros [policy [e|]]; [apply provisions_ret|].
  apply provisions_bind; [by apply provisions_request|].
  intros [existing|e]; [|apply provisions_ret].
  apply provisions_forRange. intros host.
  eapply provisions_impl; [|apply serverTokenStep_provisions].
  by intros [].
Qed.

End Provisioning.

(** ** The runs of [bootstrapServers] *)

Section Servers.
Context {B : Type} `{Backend B}.

(** With a stored token the run is that of the server-token step, if it is
    switched on, and nothing otherwise. *)
Lemma bootstrapServers_stored fuel c a0 rest tok name (w : World B) :
  tok <> "" ->
  bootstrapServers fuel c (a0 :: rest) tok name w =
    if flagSetServerTokens c then
      (final (setServerTokens fuel c (a0 :: rest) tok w),
       events (setServerTokens fuel c (a0 :: rest) tok w),
       afterProvisioning tok (outcome (setServerTokens fuel c (a0 :: rest) tok w)))
    else (w, [], Ret (tok, None)).
Proof.
  intros Htok. unfold bootstrapServers.
  destruct (String.eqb_spec tok "") as [->|_]; [done|].
  rewrite (bind_Ret _ _ _ _ _ _ (mret_run _ w)). cbn beta iota.
  destruct (flagSetServerTokens c); [|done].
  destruct (setServerTokens fuel c (a0 :: rest) tok w) as [[w1 t1] [[e|]| |]] eqn:Hset.
  - rewrite (bind_Ret _ _ _ _ _ _ Hset). cbn. by rewrite app_nil_r.
  - rewrite (bind_Ret _ _ _ _ _ _ Hset). cbn. by rewrite app_nil_r.
  - by rewrite (bind_OutOfFuel _ _ _ _ _ Hset).
  - by rewrite (bind_Panics _ _ _ _ _ Hset).
Qed.

(** Without a stored token the run is that of [bootstrapACLs], followed by
    the server-token step when the bootstrap returned a token and the step
    is switched on. *)
Lemma bootstrapServers_fresh fuel c a0 rest name (w : World B) :
  let boot := bootstrapACLs fuel c (firstServerAddrOf c a0) name w in
  bootstrapServers fuel c (a0 :: rest) "" name w =
    match outcome boot with
    | Ret (tok, None) =>
        if flagSetServerTokens c then
          let set := setServerTokens fuel c (a0 :: rest) tok (final boot) in
          (final set, events boot ++ events set,
           afterProvisioning tok (outcome set))
        else (final boot, events boot, Ret (tok, None))
    | Ret (_, Some e) => (final boot, events boot, Ret ("", Some e))
    | OutOfFuel => (final boot, events boot, OutOfFuel)
    | Panics => (final boot, events boot, Panics)
    end.
Proof.
  cbn zeta. unfold bootstrapServers. cbn [String.eqb].
  fold (firstServerAddrOf c a0).
  destruct (bootstrapACLs fuel c (firstServerAddrOf c a0) name w)
    as [[w1 t1] [[tok [e|]]| |]] eqn:Hboot.
  - rewrite (bind_Ret _ _ _ _ _ _ Hboot). cbn. by rewrite app_nil_r.
  - rewrite (bind_Ret _ _ _ _ _ _ Hboot). cbn beta iota.
    unfold final, events, outcome; cbn [fst snd].
    destruct (flagSetServerTokens c); [|cbn; by rewrite app_nil_r].
    destruct (setServerTokens fuel c (a0 :: rest) tok w1) as [[w2 t2] [[e|]| |]] eqn:Hset.
    + rewrite (bind_Ret _ _ _ _ _ _ Hset). cbn. by rewrite app_nil_r.
    + rewrite (bind_Ret _ _ _ _ _ _ Hset). cbn. by rewrite app_nil_r.
    + by rewrite (bind_OutOfFuel _ _ _ _ _ Hset).
    + by rewrite (bind_Panics _ _ _ _ _ Hset).
  - by rewrite (bind_OutOfFuel _ _ _ _ _ Hboot).
  - by rewrite (bind_Panics _ _ _ _ _ Hboot).
Qed.

End Servers.

(** ** Where an event sits in a run *)

Section Positions.

(** An event of [map f l ++ tail] is an image of [f], followed by the rest
    of the images and [tail], or it sits in [tail]. *)
Lemma map_app_split {A : Type} (f : A -> Event) l tail t1 y t2 :
  map f l ++ tail = t1 ++ y :: t2 ->
  (exists l1 a l2,
     l = l1 ++ a :: l2 /\ t1 = map f l1 /\ y = f a /\ t2 = map f l2 ++ tail) \/
  (exists t1', t1 = map f l ++ t1' /\ tail = t1' ++ y :: t2).
Proof.
  revert t1. induction l as [|a l IH]; intros t1 Heq; cbn in Heq.
  - right. by exists t1.
  - destruct t1 as [|x t1]; cbn in Heq; injection Heq as Hhd Htl.
    + left. exists [], a, l. by subst.
    + destruct (IH _ Htl) as [(l1 & a' & l2 & -> & -> & -> & ->) | (t1' & -> & ->)].
      * left. exists (a :: l1), a', l2. by subst.
      * right. exists t1'. by subst.
Qed.

(** An event that occurs only at the end of a run has nothing after it. *)
Lemma nothing_after (l : list Event) x t1 y t2 :
  l ++ [x] = t1 ++ y :: t2 -> ~ In y l -> t2 = [].
Proof.
  intros Heq Hnot. destruct t2 as [|z t2] using rev_ind; [done|].
  exfalso. apply Hnot.
  change (t1 ++ y :: t2 ++ [z]) with (t1 ++ (y :: t2) ++ [z]) in Heq.
  rewrite app_assoc in Heq. apply app_inj_tail in Heq as [-> _].
  apply in_elt.
Qed.

Lemma In_failedBootstraps cl errs ev :
  In ev (failedBootstraps cl errs) <-> exists e, ev = EvBootstrap cl (Err e) /\ In e errs.
Proof.
  unfold failedBootstraps. rewrite in_map_iff. split.
  - intros (e & <- & He). by exists e.
  - intros (e & -> & He). by exists e.
Qed.

Lemma In_failedWrites ns sec fails ev :
  In ev (failedWrites ns sec fails) <->
  exists e, ev = EvSecretCreate ns sec (Some e) /\ In e fails.
Proof.
  unfold failedWrites. rewrite in_map_iff. split.
  - intros (e & <- & He). by exists e.
  - intros (e & -> & He). by exists e.
Qed.

(** A failed bootstrap call of a run is one of the retried ones or the
    terminal one. *)
Lemma In_bootRun_failed c addr name br cl e :
  In (EvBootstrap cl (Err e)) (bootRunEvents c addr name br) ->
  cl = bootClient c addr /\
  (In e (retried br) \/ exists errs, br = GaveUp errs e).
Proof.
  destruct br as [e0|errs|errs e0|errs resp fails|errs resp fails]; cbn;
    repeat (rewrite ?in_app_iff, ?In_failedBootstraps, ?In_failedWrites; cbn);
    intros Hin.
  - by destruct Hin.
  - destruct Hin as [|(e' & [= -> ->] & He)]; [done|]. by split; [|left].
  - destruct Hin as [|[(e' & [= -> ->] & He) | [[= -> ->] | []]]]; [done|..].
    + by split; [|left].
    + split; [done|]. right. by exists errs.
  - destruct Hin as [|[(e' & [= -> ->] & He) | [|(e' & ? & _)]]]; try done.
    by split; [|left].
  - destruct Hin as [|[(e' & [= -> ->] & He) | [|[(e' & ? & _) | [|[]]]]]];
      try done.
    by split; [|left].
Qed.

(** A successful bootstrap call of a run is followed by the writes. *)
Lemma In_bootRun_ok c addr name br cl resp :
  In (EvBootstrap cl (Ok resp)) (bootRunEvents c addr name br) ->
  cl = bootClient c addr /\
  exists errs fails,
    br = Writing errs resp fails \/ br = Written errs resp fails.
Proof.
  destruct br as [e0|errs|errs e0|errs resp0 fails|errs resp0 fails]; cbn;
    repeat (rewrite ?in_app_iff, ?In_failedBootstraps, ?In_failedWrites; cbn);
    intros Hin.
  - by destruct Hin.
  - by destruct Hin as [|(e' & ? & _)].
  - by destruct Hin as [|[(e' & ? & _) | [|[]]]].
  - destruct Hin as [|[(e' & ? & _) | [[= -> ->]|(e' & ? & _)]]]; try done.
    split; [done|]. exists errs, fails. by left.
  - destruct Hin as [|[(e' & ? & _) | [[= -> ->]|[(e' & ? & _) | [|[]]]]]];
      try done.
    split; [done|]. exists errs, fails. by right.
Qed.

Lemma bootRunOk_retried fuel br :
  bootRunOk fuel br -> Forall (fun e => terminal e = false) (retried br).
Proof.
  destruct br; cbn; [constructor|tauto..].
Qed.

End Positions.

(** ** Nothing but the first index can panic *)

Section Safety.
Context {B : Type} `{Backend B}.

Lemma safe_ret {A : Type} (a : A) : safe (mret a : M B A).
Proof. by intros w. Qed.

Lemma safe_bind {A C : Type} (m : M B A) (f : A -> M B C) :
  safe m -> (forall a, safe (f a)) -> safe (m ≫= f).
Proof.
  intros Hm Hf w. specialize (Hm w).
  destruct (m w) as [[w1 t1] [a| |]] eqn:Hrun.
  - rewrite (bind_Ret _ _ _ _ _ _ Hrun). apply Hf.
  - by rewrite (bind_OutOfFuel _ _ _ _ _ Hrun).
  - done.
Qed.

Lemma safe_request {A : Type} (reply : B -> A * B) ev : safe (request reply ev).
Proof. intros w. unfold request. by destruct (reply (backend w)). Qed.

Lemma safe_untilSucceeds {L : Type} fuel name (op : L -> M B (L * error)) :
  (forall v, safe (op v)) -> forall v, safe (untilSucceeds fuel name op v).
Proof.
  intros Hop. induction fuel as [|fuel IH]; intros v; [by intros w|].
  cbn [untilSucceeds]. apply safe_bind; [done|].
  intros [v' [e|]]; [apply IH|apply safe_ret].
Qed.

Lemma safe_forRange {A : Type} (body : A -> M B error) l :
  (forall x, safe (body x)) -> safe (forRange body l).
Proof.
  intros Hbody. induction l as [|x l IH]; cbn [forRange]; [apply safe_ret|].
  apply safe_bind; [done|]. intros [e|]; [apply safe_ret|done].
Qed.

Lemma safe_NewClient cfg apiTimeout : safe (consul_NewClient cfg apiTimeout).
Proof.
  unfold consul_NewClient. apply safe_bind; [apply safe_request|].
  intros [e|]; apply safe_ret.
Qed.

Lemma safe_serverTokenStep fuel c tok policy existing host :
  safe (serverTokenStep fuel c tok policy existing host).
Proof.
  unfold serverTokenStep. apply safe_bind; [apply safe_NewClient|].
  intros [cl|e]; [|apply safe_ret].
  apply safe_bind.
  - destruct (String.eqb _ ""); [|apply safe_ret].
    apply safe_untilSucceeds. intros v. unfold createTokenAttempt.
    apply safe_bind; [apply safe_request|]. intros [tk|e]; apply safe_ret.
  - intros [secret [e|]]; [apply safe_ret|].
    apply safe_bind; [|intros [[] ?]; apply safe_ret].
    apply safe_untilSucceeds. intros v. unfold updateTokenAttempt.
    apply safe_bind; [apply safe_request|]. intros ?; apply safe_ret.
Qed.

Lemma safe_setServerPolicy fuel c cl : safe (setServerPolicy fuel c cl).
Proof.
  unfold setServerPolicy. destruct (agentRules c) as [rules|e];
    [|apply safe_ret].
  apply safe_bind; [|intros [[] [e|]]; apply safe_ret].
  apply safe_untilSucceeds. intros v.
  apply safe_bind; [apply safe_request|]. intros ?; apply safe_ret.
Qed.

Lemma safe_setServerTokens fuel c a0 rest tok :
  safe (setServerTokens fuel c (a0 :: rest) tok).
Proof.
  unfold setServerTokens. apply safe_bind; [apply safe_NewClient|].
  intros [cl|e]; [|apply safe_ret].
  apply safe_bind.
  { unfold setServerPolicy. destruct (agentRules c) as [rules|e];
      [|apply safe_ret].
    apply safe_bind; [|intros [[] [e|]]; apply safe_ret].
    apply safe_untilSucceeds. intros v.
    apply safe_bind; [apply safe_request|]. intros ?; apply safe_ret. }
  intros [policy [e|]]; [apply safe_ret|].
  apply safe_bind; [apply safe_request|].
  intros [existing|e]; [|apply safe_ret].
  apply safe_forRange. intros host. apply safe_serverTokenStep.
Qed.

Lemma safe_bootstrapACLs fuel c addr name : safe (bootstrapACLs fuel c addr name).
Proof.
  intros w.
  destruct (bootstrapACLs_run fuel c addr name w) as (br & _ & _ & Hout & _).
  cbn zeta in Hout. rewrite Hout. by destruct br.
Qed.

End Safety.

(** ** Runs of the server functions, step by step *)

Section Steps.
Context {B : Type} `{Backend B}.

(** A run of [bootstrapServers] without a stored token: a run of
    [bootstrapACLs], followed by provisioning requests when the secret was
    written and the server-token step is switched on. *)
Lemma bootstrapServers_fresh_run fuel c a0 rest name (w : World B) :
  let ns := flagK8sNamespace c in
  let addr := firstServerAddrOf c a0 in
  let run := bootstrapServers fuel c (a0 :: rest) "" name w in
  exists br prov,
    bootRunOk fuel br /\
    events run = bootRunEvents c addr name br ++ prov /\
    Forall (fun ev => bootstrapStep ev = false) prov /\
    outcome run <> Panics /\
    match br with
    | Written _ resp _ =>
        secrets w !! (ns, name) = None /\
        secrets (final run) =
          <[(ns, name) := bootstrapSecret c name (SecretID resp)]> (secrets w) /\
        if flagSetServerTokens c then
          exists w1,
            prov = events (setServerTokens fuel c (a0 :: rest) (SecretID resp) w1) /\
            outcome run =
              afterProvisioning (SecretID resp)
                (outcome (setServerTokens fuel c (a0 :: rest) (SecretID resp) w1))
        else prov = [] /\ outcome run = Ret (SecretID resp, None)
    | _ =>
        prov = [] /\ outcome run = bootRunOutcome addr br /\
        secrets (final run) = secrets w
    end.
Proof.
  cbn zeta. rewrite bootstrapServers_fresh. cbn zeta.
  destruct (bootstrapACLs_run fuel c (firstServerAddrOf c a0) name w)
    as (br & Hok & Hev & Hout & Hsec). cbn zeta in *.
  set (boot := bootstrapACLs fuel c (firstServerAddrOf c a0) name w) in *.
  rewrite Hout.
  destruct br as [e0|errs|errs e0|errs resp fails|errs resp fails];
    cbn [bootRunOutcome].
  1-4: eexists _, []; rewrite app_nil_r;
       (split; [exact Hok|]); (split; [exact Hev|]); (split; [constructor|]);
       by repeat split.
  destruct Hsec as [Hfree Hsec].
  destruct (flagSetServerTokens c).
  - set (set := setServerTokens fuel c (a0 :: rest) (SecretID resp) (final boot)).
    destruct (setServerTokens_provisions fuel c (a0 :: rest) (SecretID resp)
                (final boot)) as [Hall Hkeep].
    exists (Written errs resp fails), (events set).
    split; [exact Hok|]. split; [unfold events at 1; cbn; by rewrite Hev|].
    split; [exact Hall|]. split.
    { unfold outcome at 1. cbn [snd].
      pose proof (safe_setServerTokens fuel c a0 rest (SecretID resp) (final boot))
        as Hsafe.
      fold set in Hsafe. by destruct (outcome set) as [[?|]| |]. }
    split; [exact Hfree|]. split.
    { unfold final at 1. cbn [fst]. etrans; [exact Hkeep|exact Hsec]. }
    by exists (final boot).
  - exists (Written errs resp fails), []. rewrite app_nil_r.
    split; [exact Hok|]. split; [exact Hev|]. split; [constructor|].
    by repeat split.
Qed.


Lemma Forall_image {A X : Type} (g : X -> A) (pre : list A) :
  Forall (fun a => exists x, a = g x) pre -> exists l, pre = map g l.
Proof.
  induction 1 as [|a pre [x ->] _ [l ->]]; [by exists []|by exists (x :: l)].
Qed.

(** The inner loop finds the first token that matches. *)
Lemma findExistingToken_find existing policy desc :
  findExistingToken existing policy desc =
    match List.find (matchesToken policy desc) existing with
    | Some t => entry_SecretID t
    | None => ""
    end.
Proof.
  induction existing as [|t rest IH]; [done|]. cbn.
  unfold matchesToken at 1.
  by destruct (_ && _).
Qed.

(** The create loop: failed creates, then the fuel ends or a token is
    created. *)
Lemma create_loop fuel opName cl desc policy found (w : World B) :
  let req := tokenRequest desc policy in
  let run := untilSucceeds fuel opName (createTokenAttempt cl desc policy) found w in
  exists cfails,
    (events run = failedCreates cl req cfails /\ outcome run = OutOfFuel /\
     length cfails = fuel) \/
    (exists token,
       events run = failedCreates cl req cfails ++ [EvTokenCreate cl req (Ok token)] /\
       outcome run = Ret (SecretID token, None)).
Proof.
  cbn zeta.
  destruct (request_loop (tokenCreate_reply cl (tokenRequest desc policy))
              (EvTokenCreate cl (tokenRequest desc policy))
              (fun (v : string) r =>
                 match r with
                 | Err e => (v, Some e)
                 | Ok token => (SecretID token, None)
                 end)
              opName (createTokenAttempt cl desc policy)) with (fuel := fuel)
              (v := found) (w := w) as [_ [pre [Hpre Hrun]]].
  - intros v w0. unfold createTokenAttempt, ACL_TokenCreate, request, mbind, M_bind, bind.
    fold (tokenRequest desc policy).
    by destruct (tokenCreate_reply cl (tokenRequest desc policy) (backend w0))
      as [[token|e] b'].
  - intros v [token|e] v' e'; [done|]. by intros [= <- _].
  - destruct (Forall_image Err pre) as [cfails ->].
    { eapply Forall_impl; [exact Hpre|]. intros [token|e] [e' Ha]; [done|].
      by exists e. }
    exists cfails. unfold failedCreates. rewrite map_map, length_map in Hrun.
    destruct Hrun as [?|(a & v' & Ha & Hev & Hout)]; [by left|].
    right. destruct a as [token|e]; [|done]. injection Ha as <-.
    by exists token.
Qed.

(** The push loop: failed pushes, then the fuel ends or the push goes
    through. *)
Lemma push_loop fuel opName cl secret (w : World B) :
  let run := untilSucceeds fuel opName (updateTokenAttempt cl secret) tt w in
  exists pfails,
    (events run = failedPushes cl secret pfails /\ outcome run = OutOfFuel /\
     length pfails = fuel) \/
    (events run = failedPushes cl secret pfails ++
                  [EvUpdateAgentACLToken cl secret None] /\
     outcome run = Ret (tt, None)).
Proof.
  cbn zeta.
  destruct (request_loop (updateAgentACLToken_reply cl secret)
              (EvUpdateAgentACLToken cl secret)
              (fun (v : unit) (r : error) => (v, r))
              opName (updateTokenAttempt cl secret)) with (fuel := fuel)
              (v := tt) (w := w) as [_ [pre [Hpre Hrun]]].
  - intros v w0. unfold updateTokenAttempt, Agent_UpdateAgentACLToken, request,
      mbind, M_bind, bind.
    by destruct (updateAgentACLToken_reply cl secret (backend w0)) as [r b'].
  - by intros v a v' e [= <- _].
  - destruct (Forall_image Some pre) as [pfails ->].
    { eapply Forall_impl; [exact Hpre|]. intros r [e [= ->]]. by exists e. }
    exists pfails. unfold failedPushes. rewrite map_map, length_map in Hrun.
    destruct Hrun as [?|(a & v' & [= <- ->] & Hev & Hout)]; [by left|].
    by right.
Qed.

(** When [setServerPolicy] returns no error, the policy is the agent
    policy with the rendered rules. *)
Lemma setServerPolicy_ok fuel c cl (w : World B) policy :
  outcome (setServerPolicy fuel c cl w) = Ret (policy, None) ->
  exists rules, agentRules c = Ok rules /\ policy = agentPolicyOf rules.
Proof.
  unfold setServerPolicy. destruct (agentRules c) as [rules|e]; [|done].
  intros Hout. exists rules. split; [done|].
  destruct (untilSucceeds fuel "creating agent policy - PUT /v1/acl/policy"
              (fun vars : unit =>
                 err ← createOrUpdateACLPolicy (agentPolicyOf rules) cl;
                 mret (vars, err)) tt w) as [[w1 t1] [[[] [e|]]| |]] eqn:Hloop;
    unfold agentPolicyOf in Hloop.
  - by rewrite (bind_Ret _ _ _ _ _ _ Hloop) in Hout.
  - rewrite (bind_Ret _ _ _ _ _ _ Hloop) in Hout. by injection Hout as <-.
  - by rewrite (bind_OutOfFuel _ _ _ _ _ Hloop) in Hout.
  - by rewrite (bind_Panics _ _ _ _ _ Hloop) in Hout.
Qed.

Lemma filter_none (P : Event -> bool) (l : list Event) :
  Forall (fun ev => P ev = false) l ->
  filter (fun ev => P ev = true) l = [].
Proof.
  induction 1 as [|ev l Hev _ IH]; [done|].
  rewrite filter_cons. destruct (decide (P ev = true)); [congruence|done].
Qed.

(** The upsert loop: failed upserts, then the fuel ends or the upsert goes
    through. *)
Lemma upsert_loop fuel opName policy cl (w : World B) :
  let op := fun vars : unit =>
              err ← createOrUpdateACLPolicy policy cl; mret (vars, err) in
  let run := untilSucceeds fuel opName op tt w in
  exists fails,
    (events run = failedUpserts policy cl fails /\ outcome run = OutOfFuel /\
     length fails = fuel) \/
    (events run = failedUpserts policy cl fails ++ [EvPolicyUpsert policy cl None] /\
     outcome run = Ret (tt, None)).
Proof.
  cbn zeta.
  destruct (request_loop (policyUpsert_reply policy cl)
              (EvPolicyUpsert policy cl)
              (fun (v : unit) (r : error) => (v, r))
              opName
              (fun vars : unit =>
                 err ← createOrUpdateACLPolicy policy cl; mret (vars, err)))
    with (fuel := fuel) (v := tt) (w := w) as [_ [pre [Hpre Hrun]]].
  - intros v w0. unfold createOrUpdateACLPolicy, request, mbind, M_bind, bind.
    by destruct (policyUpsert_reply policy cl (backend w0)) as [r b'].
  - by intros v a v' e [= <- _].
  - destruct (Forall_image Some pre) as [fails ->].
    { eapply Forall_impl; [exact Hpre|]. intros r [e [= ->]]. by exists e. }
    exists fails. unfold failedUpserts. rewrite map_map, length_map in Hrun.
    destruct Hrun as [?|(a & v' & [= <- ->] & Hev & Hout)]; [by left|].
    by right.
Qed.

(** A successful upsert is in a run of [setServerPolicy] only when the run
    returns the policy with no error. *)
Lemma setServerPolicy_upserted fuel c cl (w : World B) p cl' :
  In (EvPolicyUpsert p cl' None) (events (setServerPolicy fuel c cl w)) ->
  exists policy, outcome (setServerPolicy fuel c cl w) = Ret (policy, None).
Proof.
  unfold setServerPolicy. destruct (agentRules c) as [rules|e]; [|done].
  set (policy := {| policy_Name := "agent-token" |}).
  set (opName := "creating agent policy - PUT /v1/acl/policy").
  pose proof (run_eta (untilSucceeds fuel opName
                (fun vars : unit =>
                   err ← createOrUpdateACLPolicy policy cl; mret (vars, err))
                tt w)) as Hloop.
  destruct (upsert_loop fuel opName policy cl w)
    as [fails [(Hev & Hout & Hlen) | (Hev & Hout)]];
    cbn zeta in Hev, Hout; rewrite Hev, Hout in Hloop.
  - rewrite (bind_OutOfFuel _ _ _ _ _ Hloop), events_triple.
    unfold failedUpserts. rewrite in_map_iff. by intros (e & ? & _).
  - intros _. exists policy.
    by rewrite (bind_Ret _ _ _ _ _ _ Hloop), outcome_triple.
Qed.

(** The run of [setServerTokens] on a non-empty list, step by step: the
    client of the first server, the policy, the token list, the loop. *)
Lemma setServerTokens_unfold fuel c a0 rest tok (w : World B) :
  let cfg0 := serverConfig c a0 tok in
  let cl0 := serverClient c a0 tok in
  let built := newClient_reply cfg0 (APITimeout c) (backend w) in
  let w1 := {| backend := built.2; secrets := secrets w |} in
  let setup := setServerPolicy fuel c cl0 w1 in
  let listed := tokenList_reply cl0 (backend (final setup)) in
  let w3 := {| backend := listed.2; secrets := secrets (final setup) |} in
  setServerTokens fuel c (a0 :: rest) tok w =
    match built.1 with
    | Some e => (w1, [EvNewClient cfg0 (APITimeout c) (Some e)], Ret (Some e))
    | None =>
        match outcome setup with
        | Ret (policy, None) =>
            match listed.1 with
            | Ok existing =>
                let loop :=
                  forRange (serverTokenStep fuel c tok policy existing)
                           (a0 :: rest) w3 in
                (final loop,
                 EvNewClient cfg0 (APITimeout c) None ::
                   events setup ++ EvTokenList cl0 (Ok existing) :: events loop,
                 outcome loop)
            | Err e =>
                (w3,
                 EvNewClient cfg0 (APITimeout c) None ::
                   events setup ++ [EvTokenList cl0 (Err e)],
                 Ret (Some e))
            end
        | Ret (_, Some e) =>
            (final setup, EvNewClient cfg0 (APITimeout c) None :: events setup,
             Ret (Some e))
        | OutOfFuel =>
            (final setup, EvNewClient cfg0 (APITimeout c) None :: events setup,
             OutOfFuel)
        | Panics =>
            (final setup, EvNewClient cfg0 (APITimeout c) None :: events setup,
             Panics)
        end
    end.
Proof.
  cbn zeta. unfold setServerTokens.
  rewrite (bind_Ret _ _ _ _ _ _ (consul_NewClient_run _ _ w)).
  destruct (newClient_reply (serverConfig c a0 tok) (APITimeout c) (backend w))
    as [[e|] b1]; cbn [fst snd]; [done|].
  fold (serverClient c a0 tok).
  set (w1 := {| backend := b1; secrets := secrets w |}).
  destruct (setServerPolicy fuel c (serverClient c a0 tok) w1)
    as [[w2 t2] [[policy [e|]]| |]] eqn:Hrun.
  - rewrite (bind_Ret _ _ _ _ _ _ Hrun).
    rewrite final_triple, events_triple, outcome_triple. cbn.
    by rewrite app_nil_r.
  - rewrite (bind_Ret _ _ _ _ _ _ Hrun). cbn beta iota.
    unfold ACL_TokenList.
    rewrite (bind_Ret _ _ _ _ _ _ (request_run _ _ w2)).
    rewrite !final_triple, !events_triple, !outcome_triple.
    destruct (tokenList_reply (serverClient c a0 tok) (backend w2))
      as [[existing|e] b3]; cbn [fst snd]; [done|].
    cbn. by rewrite ?app_nil_r.
  - by rewrite (bind_OutOfFuel _ _ _ _ _ Hrun).
  - by rewrite (bind_Panics _ _ _ _ _ Hrun).
Qed.

(** A run of [setServerTokens] on a non-empty list: set-up requests, then
    the one fetch of the token list, then the loop over the servers. *)
Lemma setServerTokens_run fuel c a0 rest tok (w : World B) :
  let run := setServerTokens fuel c (a0 :: rest) tok w in
  exists pre,
    Forall (fun ev => setupStep ev = true) pre /\
    ((events run = pre /\ outcome run <> Ret None) \/
     (exists e,
        events run = pre ++ [EvTokenList (serverClient c a0 tok) (Err e)] /\
        outcome run = Ret (Some e)) \/
     (exists rules existing w1,
        agentRules c = Ok rules /\
        events run = pre ++ EvTokenList (serverClient c a0 tok) (Ok existing) ::
          events (forRange (serverTokenStep fuel c tok (agentPolicyOf rules) existing)
                           (a0 :: rest) w1) /\
        outcome run =
          outcome (forRange (serverTokenStep fuel c tok (agentPolicyOf rules) existing)
                            (a0 :: rest) w1) /\
        Forall (fun ev => perServerStep ev = true)
          (events (forRange (serverTokenStep fuel c tok (agentPolicyOf rules) existing)
                            (a0 :: rest) w1)))).
Proof.
  cbn zeta. unfold setServerTokens.
  rewrite (bind_Ret _ _ _ _ _ _ (consul_NewClient_run _ _ w)).
  destruct (newClient_reply (serverConfig c a0 tok) (APITimeout c) (backend w))
    as [[e|] b1]; cbn [fst snd].
  { exists [EvNewClient (serverConfig c a0 tok) (APITimeout c) (Some e)].
    split; [by repeat constructor|]. by left. }
  fold (serverClient c a0 tok).
  set (w1 := {| backend := b1; secrets := secrets w |}).
  destruct (setServerPolicy_provisions fuel c (serverClient c a0 tok) w1)
    as [Hsetup _].
  pose proof (setServerPolicy_ok fuel c (serverClient c a0 tok) w1) as Hpolicy.
  destruct (setServerPolicy fuel c (serverClient c a0 tok) w1)
    as [[w2 t2] [[policy [e|]]| |]] eqn:Hrun;
    unfold events in Hsetup; cbn [fst snd] in Hsetup.
  - rewrite (bind_Ret _ _ _ _ _ _ Hrun).
    exists (EvNewClient (serverConfig c a0 tok) (APITimeout c) None :: t2).
    split; [by constructor|]. left.
    unfold events, outcome; cbn. rewrite app_nil_r. split; [done|discriminate].
  - destruct (Hpolicy policy eq_refl) as (rules & Hrules & ->).
    rewrite (bind_Ret _ _ _ _ _ _ Hrun). cbn beta iota.
    unfold ACL_TokenList.
    rewrite (bind_Ret _ _ _ _ _ _ (request_run _ _ w2)).
    destruct (tokenList_reply (serverClient c a0 tok) (backend w2))
      as [[existing|e] b3]; cbn [fst snd].
    + set (w3 := {| backend := b3; secrets := secrets w2 |}).
      destruct (provisions_forRange (fun ev => perServerStep ev = true)
                  (serverTokenStep fuel c tok (agentPolicyOf rules) existing)
                  (a0 :: rest)
                  (serverTokenStep_provisions fuel c tok (agentPolicyOf rules)
                     existing) w3) as [Hloop _].
      exists (EvNewClient (serverConfig c a0 tok) (APITimeout c) None :: t2).
      split; [by constructor|]. right. right.
      exists rules, existing, w3. split; [done|].
      rewrite !events_triple, !outcome_triple.
      split; [|split; [done|exact Hloop]].
      done.
    + exists (EvNewClient (serverConfig c a0 tok) (APITimeout c) None :: t2).
      split; [by constructor|]. right. left. exists e.
      rewrite !events_triple, !outcome_triple.
      by split.
  - rewrite (bind_OutOfFuel _ _ _ _ _ Hrun).
    exists (EvNewClient (serverConfig c a0 tok) (APITimeout c) None :: t2).
    split; [by constructor|]. left. split; [done|discriminate].
  - rewrite (bind_Panics _ _ _ _ _ Hrun).
    exists (EvNewClient (serverConfig c a0 tok) (APITimeout c) None :: t2).
    split; [by constructor|]. left. split; [done|discriminate].
Qed.

End Steps.

(** * The claims *)

Section Claims.
Context {B : Type} `{Backend B}.

(** C1 (amended).  In a run of [bootstrapServers] without a stored token in
    which a bootstrap call succeeds, the requests that follow the call are
    creates of the secret named [name] whose data holds the SecretID of the
    response under the ACL token key: each failed create is followed by the
    next one, until the fuel ends or a create succeeds.  After the create
    that succeeds the store holds that secret and [bootstrapACLs] has
    returned the SecretID.  With the server-token step switched off nothing
    follows and [bootstrapServers] returns the SecretID with no error.
    With the step switched on, what follows is the run of
    [setServerTokens] on the same addresses, with the SecretID as token,
    from the world the write left: [bootstrapServers] ends in the world
    that run ends in, returns the SecretID with no error when the step
    returns [nil], and the empty string with the step's error when it
    fails. *)
Theorem C1_bootstrap_token_is_persisted
    fuel c addrs name (w : World B) cl resp :
  let ns := flagK8sNamespace c in
  let sec := bootstrapSecret c name (SecretID resp) in
  let run := bootstrapServers fuel c addrs "" name w in
  In (EvBootstrap cl (Ok resp)) (events run) ->
  secret_Name sec = name /\
  secret_Data sec !! ACLTokenSecretKey (common c)
    = Some (String.list_byte_of_string (SecretID resp)) /\
  exists a0 rest0 errs fails rest,
    addrs = a0 :: rest0 /\
    events run =
      EvNewClient (client_config cl) (client_apiTimeout cl) None ::
      failedBootstraps cl errs ++ EvBootstrap cl (Ok resp) ::
      failedWrites ns sec fails ++ rest /\
    ((rest = [] /\ outcome run = OutOfFuel /\ length fails = fuel) \/
     (exists prov,
        let boot :=
          bootstrapACLs fuel c (IP a0 +:+ ":" +:+ itoa (HTTPPort c)) name w in
        let set := setServerTokens fuel c addrs (SecretID resp) (final boot) in
        rest = EvSecretCreate ns sec None :: prov /\
        Forall (fun ev => bootstrapStep ev = false) prov /\
        secrets (final run) !! (ns, name) = Some sec /\
        outcome boot = Ret (SecretID resp, None) /\
        events boot =
          EvNewClient (client_config cl) (client_apiTimeout cl) None ::
          failedBootstraps cl errs ++ EvBootstrap cl (Ok resp) ::
          failedWrites ns sec fails ++ [EvSecretCreate ns sec None] /\
        secrets (final boot) = <[(ns, name) := sec]> (secrets w) /\
        if flagSetServerTokens c then
          prov = events set /\
          final run = final set /\
          outcome run =
            match outcome set with
            | Ret None => Ret (SecretID resp, None)
            | Ret (Some e) => Ret ("", Some e)
            | OutOfFuel => OutOfFuel
            | Panics => Panics
            end
        else
          prov = [] /\ final run = final boot /\
          outcome run = Ret (SecretID resp, None))).
Proof.
  cbn zeta. intros Hin.
  split; [done|]. split; [apply lookup_singleton_eq|].
  destruct addrs as [|a0 rest0]; [done|].
  pose proof (bootstrapServers_fresh fuel c a0 rest0 name w) as Hrun.
  cbn zeta in Hrun. unfold firstServerAddrOf in Hrun.
  destruct (bootstrapACLs_run fuel c (IP a0 +:+ ":" +:+ itoa (HTTPPort c)) name w)
    as (br & Hok & Hev & Hout & Hsec). cbn zeta in Hev, Hout, Hsec.
  set (boot := bootstrapACLs fuel c (IP a0 +:+ ":" +:+ itoa (HTTPPort c)) name w) in *.
  assert (In (EvBootstrap cl (Ok resp)) (events boot)) as Hboot.
  { rewrite Hrun in Hin.
    destruct (outcome boot) as [[tok [e|]]| |]; try exact Hin.
    destruct (flagSetServerTokens c); [|exact Hin].
    rewrite events_triple in Hin. apply in_app_iff in Hin as [Hin|Hin]; [done|].
    destruct (setServerTokens_provisions fuel c (a0 :: rest0) tok (final boot))
      as [Hprov _].
    rewrite List.Forall_forall in Hprov. by apply Hprov in Hin. }
  rewrite Hev in Hboot.
  apply In_bootRun_ok in Hboot as [-> (errs & fails & [->| ->])];
    cbn [bootRunOutcome] in Hout; rewrite Hout in Hrun.
  - destruct Hok as [_ Hlen].
    exists a0, rest0, errs, fails, []. rewrite app_nil_r.
    split; [done|]. split; [by rewrite Hrun, events_triple, Hev|].
    left. by rewrite Hrun.
  - destruct Hsec as [Hfree Hsec].
    set (set := setServerTokens fuel c (a0 :: rest0) (SecretID resp) (final boot)) in *.
    exists a0, rest0, errs, fails,
      (EvSecretCreate (flagK8sNamespace c)
         (bootstrapSecret c name (SecretID resp)) None ::
       if flagSetServerTokens c then events set else []).
    split; [done|]. split.
    { rewrite Hrun.
      destruct (flagSetServerTokens c); rewrite events_triple, Hev; cbn;
        rewrite <- ?app_assoc; cbn; by rewrite <- ?app_assoc, ?app_nil_r. }
    right. exists (if flagSetServerTokens c then events set else []).
    split; [done|].
    destruct (setServerTokens_provisions fuel c (a0 :: rest0) (SecretID resp)
                (final boot)) as [Hprov Hkeep].
    fold set in Hprov, Hkeep.
    split; [by destruct (flagSetServerTokens c)|].
    split.
    { rewrite Hrun. destruct (flagSetServerTokens c); rewrite final_triple.
      - by rewrite Hkeep, Hsec, lookup_insert_eq.
      - by rewrite Hsec, lookup_insert_eq. }
    split; [done|]. split.
    { etrans; [exact Hev|done]. }
    split; [done|].
    rewrite Hrun. destruct (flagSetServerTokens c); [|done].
    split; [done|]. split; [done|].
    rewrite outcome_triple. unfold afterProvisioning. subst set boot.
    by destruct (outcome (setServerTokens _ _ _ _ _)) as [[e|]| |].
Qed.

(** C2.  In a run of [bootstrapServers] without a stored token, a bootstrap
    call that fails with a 403 error ends the run: [bootstrapServers]
    returns the root-credential-lost error, the failed call is the last
    request of the run (it is not retried, and nothing is written), and the
    run contains no provisioning request (no policy upsert, no token list,
    no token creation, no token push). *)
Theorem C2_forbidden_bootstrap_is_fatal
    fuel c addrs name (w : World B) cl e :
  let run := bootstrapServers fuel c addrs "" name w in
  In (EvBootstrap cl (Err e)) (events run) ->
  strings_Contains e "Unexpected response code: 403" = true ->
  outcome run = Ret ("", Some errRootCredentialLost) /\
  (forall t1 t2, events run = t1 ++ EvBootstrap cl (Err e) :: t2 -> t2 = []) /\
  Forall (fun ev => provisioningStep ev = false) (events run) /\
  secrets (final run) = secrets w.
Proof.
  cbn zeta. intros Hin H403.
  destruct addrs as [|a0 rest]; [done|].
  destruct (bootstrapServers_fresh_run fuel c a0 rest name w)
    as (br & prov & Hok & Hev & Hprov & _ & Hrun). cbn zeta in *.
  assert (terminal e = true) as Hterm by (unfold terminal, is403; by rewrite H403).
  rewrite Hev in Hin. apply in_app_iff in Hin as [Hin|Hin].
  2: { rewrite List.Forall_forall in Hprov. by apply Hprov in Hin. }
  apply In_bootRun_failed in Hin as [-> [He|[errs ->]]].
  { pose proof (bootRunOk_retried _ _ Hok) as Hall.
    rewrite List.Forall_forall in Hall. apply Hall in He. congruence. }
  destruct Hrun as (-> & Hout & Hsec). rewrite app_nil_r in Hev.
  rewrite Hev, Hout. cbn [bootRunEvents bootRunOutcome].
  destruct Hok as [Herrs _].
  split; [|split; [|split]].
  - unfold unrecoverable, is403. by rewrite H403.
  - intros t1 t2 Heq. rewrite app_comm_cons in Heq.
    apply nothing_after in Heq; [done|].
    cbn. rewrite In_failedBootstraps. intros [|(e' & [= <-] & He)]; [done|].
    rewrite List.Forall_forall in Herrs. apply Herrs in He. congruence.
  - constructor; [done|]. apply Forall_app. split; [|by repeat constructor].
    rewrite List.Forall_forall. by intros ev (e' & -> & _)%In_failedBootstraps.
  - exact Hsec.
Qed.

(** C3 (amended).  A run of [bootstrapServers] with a non-empty stored
    token issues no bootstrap call and writes no secret.  It is the run of
    the server-token step with that token when the step is switched on, and
    no request at all otherwise.  When it returns, it returns the stored
    token unchanged with no error, unless the server-token step failed: it
    then returns the empty string and that error. *)
Theorem C3_stored_token_skips_bootstrap
    fuel c addrs tok name (w : World B) :
  let run := bootstrapServers fuel c addrs tok name w in
  tok <> "" ->
  Forall (fun ev => bootstrapStep ev = false) (events run) /\
  secrets (final run) = secrets w /\
  (forall tok' err,
     outcome run = Ret (tok', err) ->
     (tok' = tok /\ err = None) \/
     (tok' = "" /\ (exists e, err = Some e) /\ flagSetServerTokens c = true)) /\
  (flagSetServerTokens c = false -> addrs <> [] ->
   run = (w, [], Ret (tok, None))) /\
  (flagSetServerTokens c = true -> addrs <> [] ->
   events run = events (setServerTokens fuel c addrs tok w) /\
   outcome run =
     afterProvisioning tok (outcome (setServerTokens fuel c addrs tok w))).
Proof.
  cbn zeta. intros Htok.
  destruct addrs as [|a0 rest].
  { by repeat split. }
  rewrite bootstrapServers_stored by done.
  destruct (setServerTokens_provisions fuel c (a0 :: rest) tok w)
    as [Hall Hkeep].
  destruct (flagSetServerTokens c).
  - split; [exact Hall|]. split; [exact Hkeep|]. split; [|done].
    intros tok' err. unfold outcome at 1. cbn [snd].
    destruct (outcome (setServerTokens _ _ _ _ w)) as [[e|]| |]; cbn;
      intros [= <- <-]; [right|left]; eauto.
  - split; [constructor|]. split; [done|]. split; [|done].
    intros tok' err [= <- <-]. by left.
Qed.

(** C4 (amended).  One iteration of the server loop, for the server [host].
    Let [found] be the SecretID of the first token of the pre-fetched list
    whose only policy is the agent policy and whose description is
    "Server Token for <ip>", or the empty string when there is none.  The
    iteration first builds a client for the server.  When [found] is not
    empty, no token is created and every push that follows hands [found]
    to the server.  When [found] is empty (no such token, or one with an
    empty SecretID), a token with that description and the agent policy as
    its only policy is created, retrying until it succeeds, and its
    SecretID is pushed.  The push is retried until it succeeds. *)
Theorem C4_server_token_reused_or_created
    fuel c tok policy existing host (w : World B) :
  let desc := tokenDescriptionFor host in
  let found :=
    match List.find (matchesToken policy desc) existing with
    | Some t => entry_SecretID t
    | None => ""
    end in
  let run := serverTokenStep fuel c tok policy existing host w in
  desc = "Server Token for " +:+ IP host /\
  (exists sr,
     stepOk fuel found sr /\
     events run = stepEvents c tok policy host found sr /\
     outcome run = stepOutcome sr) /\
  (found <> "" -> Forall (fun ev => isTokenCreate ev = false) (events run)).
Proof.
  cbn zeta. split; [done|].
  set (desc := tokenDescriptionFor host).
  set (found := match List.find _ _ with Some t => _ | None => "" end).
  assert (exists sr,
     stepOk fuel found sr /\
     events (serverTokenStep fuel c tok policy existing host w)
       = stepEvents c tok policy host found sr /\
     outcome (serverTokenStep fuel c tok policy existing host w)
       = stepOutcome sr) as Hshape.
  { unfold serverTokenStep.
    rewrite (bind_Ret _ _ _ _ _ _ (consul_NewClient_run _ _ w)).
    destruct (newClient_reply (serverConfig c host tok) (APITimeout c) (backend w))
      as [[e|] b1]; cbn [fst snd].
    { by exists (StepClientFailed e). }
    fold (serverClient c host tok). fold desc.
    rewrite findExistingToken_find. fold found.
    set (w1 := {| backend := b1; secrets := secrets w |}).
    set (cl := serverClient c host tok).
    destruct (String.eqb_spec found "") as [Hfound|Hfound].
    - (* no secret found: create a token *)
      set (cname := "creating server token for " +:+ _).
      pose proof (run_eta (untilSucceeds fuel cname
                    (createTokenAttempt cl desc policy) found w1)) as Hloop.
      destruct (create_loop fuel cname cl desc policy found w1)
        as [cfails [(Hev & Hout & Hlen) | (token & Hev & Hout)]];
        cbn zeta in Hev, Hout; rewrite Hev, Hout in Hloop.
      + exists (Creating cfails). by rewrite (bind_OutOfFuel _ _ _ _ _ Hloop).
      + set (w2 := final (untilSucceeds fuel cname
                             (createTokenAttempt cl desc policy) found w1)) in *.
        rewrite (bind_Ret _ _ _ _ _ _ Hloop). cbn beta iota.
        set (pname := "updating server token for " +:+ _).
        pose proof (run_eta (untilSucceeds fuel pname
                      (updateTokenAttempt cl (SecretID token)) tt w2)) as Hpush.
        destruct (push_loop fuel pname cl (SecretID token) w2)
          as [pfails [(Hev2 & Hout2 & Hlen2) | (Hev2 & Hout2)]];
          cbn zeta in Hev2, Hout2; rewrite Hev2, Hout2 in Hpush.
        * exists (Pushing (Created cfails token) pfails).
          rewrite (bind_OutOfFuel _ _ _ _ _ Hpush).
          repeat split; try done.
        * exists (Pushed (Created cfails token) pfails).
          rewrite (bind_Ret _ _ _ _ _ _ Hpush).
          repeat split; try done.
          unfold events. cbn. by rewrite app_nil_r.
    - (* a secret was found: reuse it *)
      rewrite (bind_Ret _ _ _ _ _ _ (mret_run _ w1)). cbn beta iota.
      set (pname := "updating server token for " +:+ _).
      pose proof (run_eta (untilSucceeds fuel pname
                    (updateTokenAttempt cl found) tt w1)) as Hpush.
      destruct (push_loop fuel pname cl found w1)
        as [pfails [(Hev2 & Hout2 & Hlen2) | (Hev2 & Hout2)]];
        cbn zeta in Hev2, Hout2; rewrite Hev2, Hout2 in Hpush.
      + exists (Pushing Reused pfails).
        rewrite (bind_OutOfFuel _ _ _ _ _ Hpush). by repeat split.
      + exists (Pushed Reused pfails).
        rewrite (bind_Ret _ _ _ _ _ _ Hpush).
        repeat split; try done.
        unfold events. cbn. by rewrite app_nil_r. }
  split; [exact Hshape|].
  intros Hfound. destruct Hshape as (sr & Hok & -> & _).
  assert (forall secret pfails,
            Forall (fun ev => isTokenCreate ev = false)
                   (failedPushes (serverClient c host tok) secret pfails)) as Hpushes.
  { intros secret pfails. rewrite List.Forall_forall.
    by intros ev (e & <- & _)%in_map_iff. }
  destruct sr as [e|cfails|[|cfails token] pfails|[|cfails token] pfails]; cbn in Hok |- *.
  - by repeat constructor.
  - by destruct Hok.
  - constructor; [done|]. apply Hpushes.
  - by destruct Hok.
  - constructor; [done|]. apply Forall_app. split; [apply Hpushes|].
    by repeat constructor.
  - done.
Qed.


(** C6.  In a run of [bootstrapACLs], a bootstrap call whose error text
    contains "connection refused" ends the retry loop: it is the last
    request of the run, and [bootstrapACLs] returns a terminal error (the
    cannot-reach error, or the root-credential-lost error when the text
    also carries the 403 marker).  Transient failures are handled
    otherwise, in every run: an attempt whose error carries neither marker
    returns a non-nil error to the retry driver and sets no unrecoverable
    error, and in the run such a call is followed by another bootstrap
    call, unless it used up the last unit of fuel. *)
Theorem C6_refused_connection_is_terminal fuel c addr name (w : World B) :
  let run := bootstrapACLs fuel c addr name w in
  (forall cl e,
     In (EvBootstrap cl (Err e)) (events run) ->
     strings_Contains e "connection refused" = true ->
     outcome run =
       Ret ("", Some (if strings_Contains e "Unexpected response code: 403"
                      then errRootCredentialLost else errCannotReach)) /\
     (forall t1 t2, events run = t1 ++ EvBootstrap cl (Err e) :: t2 -> t2 = [])) /\
  (forall cl e' t1 t2,
     strings_Contains e' "Unexpected response code: 403" = false ->
     strings_Contains e' "connection refused" = false ->
     events run = t1 ++ EvBootstrap cl (Err e') :: t2 ->
     (exists r t3, t2 = EvBootstrap cl r :: t3) \/
     (t2 = [] /\ outcome run = OutOfFuel /\ length t1 = fuel)) /\
  (forall cl vars (w' : World B) e' b',
     bootstrap_reply cl (backend w') = (Err e', b') ->
     strings_Contains e' "Unexpected response code: 403" = false ->
     strings_Contains e' "connection refused" = false ->
     exists err,
       bootstrapAttempt cl vars w' =
         ({| backend := b'; secrets := secrets w' |},
          [EvBootstrap cl (Err e')], Ret (vars, Some err))).
Proof.
  cbn zeta.
  destruct (bootstrapACLs_run fuel c addr name w)
    as (br & Hok & Hev & Hout & _). cbn zeta in *.
  split; [|split].
  - intros cl e Hin Href.
    assert (terminal e = true) as Hterm.
    { unfold terminal, isRefused. rewrite Href. by destruct (is403 e). }
    rewrite Hev in Hin.
    apply In_bootRun_failed in Hin as [-> [He|[errs ->]]].
    { pose proof (bootRunOk_retried _ _ Hok) as Hall.
      rewrite List.Forall_forall in Hall. apply Hall in He. congruence. }
    rewrite Hev, Hout. cbn [bootRunEvents bootRunOutcome].
    destruct Hok as [Herrs _]. rewrite List.Forall_forall in Herrs.
    split; [done|].
    intros t1 t2 Heq. rewrite app_comm_cons in Heq.
    apply nothing_after in Heq; [done|].
    cbn. rewrite In_failedBootstraps. intros [|(e' & [= <-] & He)]; [done|].
    apply Herrs in He. congruence.
  - intros cl e' t1 t2 H403 Href Heq.
    assert (terminal e' = false) as Hterm.
    { unfold terminal, is403, isRefused. by rewrite H403, Href. }
    rewrite Hev in Heq. rewrite Hout.
    destruct br as [e0|errs|errs e0|errs resp fails|errs resp fails];
      cbn [bootRunEvents bootRunOutcome bootRunOk] in *;
      (destruct t1 as [|x t1]; [done|]); cbn in Heq; injection Heq as _ Heq.
    + by destruct t1.
    + rewrite <- (app_nil_r (failedBootstraps _ errs)) in Heq.
      apply map_app_split in Heq as
        [(l1 & a & l2 & -> & -> & [= -> ->] & ->) | (t1' & -> & Heq)];
        [|by destruct t1'].
      destruct l2 as [|a2 l2]; cbn; [|eauto].
      right. destruct Hok as [_ <-].
      rewrite length_map, length_app. cbn. split; [done|]. split; [done|lia].
    + apply map_app_split in Heq as
        [(l1 & a & l2 & -> & -> & [= -> ->] & ->) | (t1' & -> & Heq)].
      * left. destruct l2 as [|a2 l2]; cbn; eauto.
      * destruct t1' as [|y t1']; cbn in Heq.
        -- injection Heq as <- <- _. destruct Hok as [_ Hok]. congruence.
        -- injection Heq as _ Heq. by destruct t1'.
    + apply map_app_split in Heq as
        [(l1 & a & l2 & -> & -> & [= -> ->] & ->) | (t1' & -> & Heq)].
      * left. destruct l2 as [|a2 l2]; cbn; eauto.
      * assert (In (EvBootstrap cl (Err e'))
                  (EvBootstrap (bootClient c addr) (Ok resp) ::
                   failedWrites (flagK8sNamespace c)
                     (bootstrapSecret c name (SecretID resp)) fails)) as Hin
          by (rewrite Heq; apply in_elt).
        destruct Hin as [|Hin]; [done|].
        apply In_failedWrites in Hin as (? & ? & _). done.
    + apply map_app_split in Heq as
        [(l1 & a & l2 & -> & -> & [= -> ->] & ->) | (t1' & -> & Heq)].
      * left. destruct l2 as [|a2 l2]; cbn; eauto.
      * assert (In (EvBootstrap cl (Err e'))
                  (EvBootstrap (bootClient c addr) (Ok resp) ::
                   failedWrites (flagK8sNamespace c)
                     (bootstrapSecret c name (SecretID resp)) fails ++
                   [EvSecretCreate (flagK8sNamespace c)
                      (bootstrapSecret c name (SecretID resp)) None])) as Hin
          by (rewrite Heq; apply in_elt).
        destruct Hin as [|Hin]; [done|].
        apply in_app_iff in Hin as [Hin|[|[]]]; [|done].
        apply In_failedWrites in Hin as (? & ? & _). done.
  - intros cl vars w' e' b' Hreply H403 Href.
    exists (retryError e').
    rewrite bootstrapAttempt_run, Hreply. cbn.
    unfold classify, terminal, is403, isRefused. by rewrite H403, Href.
Qed.

(** C7 (amended).  A run of [setServerTokens] fetches the token list at
    most once, over the client for the first server, after the set-up
    requests (building that client, upserting the policy) and before the
    loop over the servers.  The list is fetched exactly once in every run
    that gets past the set-up, that is, whenever the client was built and
    [setServerPolicy] returned the policy with no error (in particular
    whenever an upsert of the run succeeded, and in every run that returns
    without error), whether the fetch succeeds or not.  A run that fails
    or is still retrying during set-up does not fetch it.  The requests of
    the loop are those of [serverTokenStep], run for each server with the
    list this one fetch returned; none of them fetches the list. *)
Theorem C7_token_list_fetched_once fuel c addrs tok (w : World B) :
  let run := setServerTokens fuel c addrs tok w in
  let fetches := filter (fun ev => isTokenList ev = true) (events run) in
  (exists pre,
     Forall (fun ev => setupStep ev = true) pre /\
     ((events run = pre /\ outcome run <> Ret None) \/
      (exists a0 rest e,
         addrs = a0 :: rest /\
         events run = pre ++ [EvTokenList (serverClient c a0 tok) (Err e)] /\
         outcome run = Ret (Some e)) \/
      (exists a0 rest rules existing w1,
         addrs = a0 :: rest /\
         agentRules c = Ok rules /\
         let loop :=
           forRange (serverTokenStep fuel c tok (agentPolicyOf rules) existing)
                    addrs w1 in
         events run =
           pre ++ EvTokenList (serverClient c a0 tok) (Ok existing) :: events loop /\
         outcome run = outcome loop /\
         Forall (fun ev => perServerStep ev = true) (events loop)))) /\
  (length fetches <= 1)%nat /\
  (outcome run = Ret None -> length fetches = 1%nat) /\
  (forall a0 rest,
     addrs = a0 :: rest ->
     let cfg0 := serverConfig c a0 tok in
     let cl0 := serverClient c a0 tok in
     let built := newClient_reply cfg0 (APITimeout c) (backend w) in
     let setup :=
       setServerPolicy fuel c cl0 {| backend := built.2; secrets := secrets w |} in
     let listed := tokenList_reply cl0 (backend (final setup)) in
     match built.1 with
     | Some e =>
         fetches = [] /\
         events run = [EvNewClient cfg0 (APITimeout c) (Some e)] /\
         outcome run = Ret (Some e)
     | None =>
         Forall (fun ev => setupStep ev = true) (events setup) /\
         match outcome setup with
         | Ret (policy, None) =>
             length fetches = 1%nat /\
             match listed.1 with
             | Ok existing =>
                 let loop :=
                   forRange (serverTokenStep fuel c tok policy existing) addrs
                     {| backend := listed.2; secrets := secrets (final setup) |} in
                 events run =
                   EvNewClient cfg0 (APITimeout c) None :: events setup ++
                   EvTokenList cl0 (Ok existing) :: events loop /\
                 outcome run = outcome loop /\
                 final run = final loop /\
                 Forall (fun ev => perServerStep ev = true) (events loop)
             | Err e =>
                 events run =
                   EvNewClient cfg0 (APITimeout c) None :: events setup ++
                   [EvTokenList cl0 (Err e)] /\
                 outcome run = Ret (Some e)
             end
         | Ret (_, Some e) =>
             fetches = [] /\
             events run = EvNewClient cfg0 (APITimeout c) None :: events setup /\
             outcome run = Ret (Some e)
         | OutOfFuel =>
             fetches = [] /\
             events run = EvNewClient cfg0 (APITimeout c) None :: events setup /\
             outcome run = OutOfFuel
         | Panics => False
         end
     end) /\
  (forall p cl,
     In (EvPolicyUpsert p cl None) (events run) -> length fetches = 1%nat).
Proof.
  cbn zeta.
  assert (forall l, Forall (fun ev => setupStep ev = true) l ->
                    filter (fun ev => isTokenList ev = true) l = []) as Hquiet.
  { intros l Hl. apply filter_none. eapply Forall_impl; [exact Hl|]. by intros []. }
  split; [|split; [|split; [|split]]].
  - destruct addrs as [|a0 rest].
    { exists []. split; [constructor|]. left. split; [done|discriminate]. }
    destruct (setServerTokens_run fuel c a0 rest tok w) as (pre & Hpre & Hcases).
    cbn zeta in Hcases. exists pre. split; [done|].
    destruct Hcases as [(Hev & Hout) | [(e & Hev & Hout) |
      (rules & existing & w1 & Hrules & Hev & Hout & Hloop)]].
    + by left.
    + right. left. by exists a0, rest, e.
    + right. right. by exists a0, rest, rules, existing, w1.
  - destruct addrs as [|a0 rest]; [cbn; lia|].
    destruct (setServerTokens_run fuel c a0 rest tok w) as (pre & Hpre & Hcases).
    cbn zeta in Hcases.
    destruct Hcases as [(Hev & Hout) | [(e & Hev & Hout) |
      (rules & existing & w1 & Hrules & Hev & Hout & Hloop)]].
    + rewrite Hev, (Hquiet _ Hpre). cbn; lia.
    + rewrite Hev, filter_app, (Hquiet _ Hpre), filter_cons, filter_nil.
      destruct (decide _) as [_|Hn]; [|by destruct Hn]. cbn; lia.
    + rewrite Hev, filter_app, (Hquiet _ Hpre), filter_cons.
      destruct (decide _) as [_|Hn]; [|by destruct Hn].
      rewrite (filter_none isTokenList); [cbn; lia|].
      eapply Forall_impl; [exact Hloop|]. by intros [].
  - destruct addrs as [|a0 rest]; [done|].
    destruct (setServerTokens_run fuel c a0 rest tok w) as (pre & Hpre & Hcases).
    cbn zeta in Hcases.
    destruct Hcases as [(Hev & Hout) | [(e & Hev & Hout) |
      (rules & existing & w1 & Hrules & Hev & Hout & Hloop)]].
    + done.
    + rewrite Hout. discriminate.
    + intros _. rewrite Hev, filter_app, (Hquiet _ Hpre), filter_cons.
      destruct (decide _) as [_|Hn]; [|by destruct Hn].
      rewrite (filter_none isTokenList); [done|].
      eapply Forall_impl; [exact Hloop|]. by intros [].
  - intros a0 rest ->. cbn zeta.
    rewrite setServerTokens_unfold. cbn zeta.
    destruct (newClient_reply (serverConfig c a0 tok) (APITimeout c) (backend w))
      as [[e|] b1]; cbn [fst snd].
    { rewrite events_triple, outcome_triple. split; [|done].
      apply Hquiet. by repeat constructor. }
    set (w1 := {| backend := b1; secrets := secrets w |}).
    destruct (setServerPolicy_provisions fuel c (serverClient c a0 tok) w1)
      as [Hsetup _].
    pose proof (safe_setServerPolicy fuel c (serverClient c a0 tok) w1) as Hsafe.
    split; [exact Hsetup|].
    set (setup := setServerPolicy fuel c (serverClient c a0 tok) w1) in *.
    destruct (outcome setup) as [[policy [e|]]| |]; [| | |done].
    + rewrite events_triple, outcome_triple. split; [|done].
      apply Hquiet. by constructor.
    + destruct (tokenList_reply (serverClient c a0 tok) (backend (final setup)))
        as [[existing|e] b3]; cbn [fst snd]; cbn zeta;
        rewrite ?events_triple, ?outcome_triple, ?final_triple.
      * set (w3 := {| backend := b3; secrets := secrets (final setup) |}).
        destruct (provisions_forRange (fun ev => perServerStep ev = true)
                    (serverTokenStep fuel c tok policy existing) (a0 :: rest)
                    (serverTokenStep_provisions fuel c tok policy existing) w3)
          as [Hloop _].
        split; [|done].
        rewrite filter_cons. destruct (decide _) as [Hn|_]; [done|].
        rewrite filter_app, (Hquiet _ Hsetup), filter_cons.
        destruct (decide _) as [_|Hn]; [|by destruct Hn].
        rewrite (filter_none isTokenList); [done|].
        eapply Forall_impl; [exact Hloop|]. by intros [].
      * split; [|done].
        rewrite filter_cons. destruct (decide _) as [Hn|_]; [done|].
        rewrite filter_app, (Hquiet _ Hsetup), filter_cons, filter_nil.
        by destruct (decide _) as [_|Hn]; [|destruct Hn].
    + rewrite events_triple, outcome_triple. split; [|done].
      apply Hquiet. by constructor.
  - intros p cl Hin.
    destruct addrs as [|a0 rest]; [done|].
    rewrite setServerTokens_unfold in Hin |- *. cbn zeta in Hin |- *.
    destruct (newClient_reply (serverConfig c a0 tok) (APITimeout c) (backend w))
      as [[e|] b1]; cbn [fst snd] in Hin |- *.
    { rewrite events_triple in Hin. by destruct Hin. }
    set (w1 := {| backend := b1; secrets := secrets w |}) in *.
    destruct (setServerPolicy_provisions fuel c (serverClient c a0 tok) w1)
      as [Hsetup _].
    pose proof (setServerPolicy_upserted fuel c (serverClient c a0 tok) w1 p cl)
      as Hups.
    set (setup := setServerPolicy fuel c (serverClient c a0 tok) w1) in *.
    destruct (outcome setup) as [[policy [e|]]| |].
    + rewrite events_triple in Hin. destruct Hin as [|Hin]; [done|].
      by destruct (Hups Hin).
    + destruct (tokenList_reply (serverClient c a0 tok) (backend (final setup)))
        as [[existing|e] b3]; cbn [fst snd]; cbn zeta; rewrite events_triple.
      * set (w3 := {| backend := b3; secrets := secrets (final setup) |}).
        destruct (provisions_forRange (fun ev => perServerStep ev = true)
                    (serverTokenStep fuel c tok policy existing) (a0 :: rest)
                    (serverTokenStep_provisions fuel c tok policy existing) w3)
          as [Hloop _].
        rewrite filter_cons. destruct (decide _) as [Hn|_]; [done|].
        rewrite filter_app, (Hquiet _ Hsetup), filter_cons.
        destruct (decide _) as [_|Hn]; [|by destruct Hn].
        rewrite (filter_none isTokenList); [done|].
        eapply Forall_impl; [exact Hloop|]. by intros [].
      * rewrite filter_cons. destruct (decide _) as [Hn|_]; [done|].
        rewrite filter_app, (Hquiet _ Hsetup), filter_cons, filter_nil.
        by destruct (decide _) as [_|Hn]; [|destruct Hn].
    + rewrite events_triple in Hin. destruct Hin as [|Hin]; [done|].
      by destruct (Hups Hin).
    + rewrite events_triple in Hin. destruct Hin as [|Hin]; [done|].
      by destruct (Hups Hin).
Qed.

(** C8.  In a run of [bootstrapServers] without a stored token, every
    bootstrap call goes through a client for the first address of the list
    (its IP and the HTTP port) whose HTTP client has a timeout of 5 minutes,
    whatever the API timeout of the command is; that client was built at
    the start of the run. *)
Theorem C8_bootstrap_targets_first_server
    fuel c addrs name (w : World B) cl r :
  let run := bootstrapServers fuel c addrs "" name w in
  In (EvBootstrap cl r) (events run) ->
  exists a0 rest,
    addrs = a0 :: rest /\
    Address (client_config cl) = IP a0 +:+ ":" +:+ itoa (HTTPPort c) /\
    HttpClient (client_config cl) = Some {| Timeout := (5 * time_Minute)%Z |} /\
    (5 * time_Minute = 300 * time_Second)%Z /\
    exists t, events run =
                EvNewClient (client_config cl) (APITimeout c) None :: t.
Proof.
  cbn zeta. intros Hin.
  destruct addrs as [|a0 rest]; [done|]. exists a0, rest.
  destruct (bootstrapServers_fresh_run fuel c a0 rest name w)
    as (br & prov & Hok & Hev & Hprov & _ & Hrun). cbn zeta in *.
  rewrite Hev in Hin. apply in_app_iff in Hin as [Hin|Hin].
  2: { rewrite List.Forall_forall in Hprov. by apply Hprov in Hin. }
  assert (cl = bootClient c (firstServerAddrOf c a0)) as ->.
  { destruct r as [resp|e].
    - by apply In_bootRun_ok in Hin as [-> _].
    - by apply In_bootRun_failed in Hin as [-> _]. }
  repeat split; try done.
  rewrite Hev. destruct br; cbn in Hin |- *; eauto.
  by destruct Hin.
Qed.

(** C9.  [bootstrapServers] indexes the first address before anything else,
    whatever the stored token: on an empty list it panics without issuing
    a request, and on a non-empty list it never panics. *)
Theorem C9_first_address_is_indexed fuel c tok name (w : World B) :
  bootstrapServers fuel c [] tok name w = (w, [], Panics) /\
  forall a0 rest,
    outcome (bootstrapServers fuel c (a0 :: rest) tok name w) <> Panics.
Proof.
  split; [done|]. intros a0 rest.
  destruct (String.eqb_spec tok "") as [->|Htok].
  - by destruct (bootstrapServers_fresh_run fuel c a0 rest name w)
      as (br & prov & _ & _ & _ & Hsafe & _).
  - rewrite bootstrapServers_stored by done.
    destruct (flagSetServerTokens c); [|done].
    pose proof (safe_setServerTokens fuel c a0 rest tok w) as Hsafe.
    unfold outcome at 1. cbn [snd].
    by destruct (outcome (setServerTokens fuel c (a0 :: rest) tok w)) as [[?|]| |].
Qed.

(** C10.  The bootstrap token is persisted with a create.  In a run of
    [bootstrapServers] that obtains a token while a secret of the target
    name exists, every write attempt is answered with an error, and for
    every amount of fuel the run is still retrying the write when the fuel
    ends: after the bootstrap call the run consists of [fuel] failed create
    requests, it returns nothing, and the stored secret is the old one. *)
Theorem C10_existing_secret_blocks_the_run
    fuel c addrs name (w : World B) old cl resp :
  let ns := flagK8sNamespace c in
  let run := bootstrapServers fuel c addrs "" name w in
  secrets w !! (ns, name) = Some old ->
  In (EvBootstrap cl (Ok resp)) (events run) ->
  outcome run = OutOfFuel /\
  (exists errs fails,
     length fails = fuel /\
     events run =
       EvNewClient (client_config cl) (client_apiTimeout cl) None ::
       failedBootstraps cl errs ++ EvBootstrap cl (Ok resp) ::
       failedWrites ns (bootstrapSecret c name (SecretID resp)) fails) /\
  secrets (final run) !! (ns, name) = Some old.
Proof.
  cbn zeta. intros Hold Hin.
  destruct addrs as [|a0 rest]; [done|].
  destruct (bootstrapServers_fresh_run fuel c a0 rest name w)
    as (br & prov & Hok & Hev & Hprov & _ & Hrun). cbn zeta in *.
  rewrite Hev in Hin. apply in_app_iff in Hin as [Hin|Hin].
  2: { rewrite List.Forall_forall in Hprov. by apply Hprov in Hin. }
  apply In_bootRun_ok in Hin as [-> (errs & fails & [->| ->])].
  - destruct Hrun as (-> & Hout & Hsec). rewrite app_nil_r in Hev.
    destruct Hok as [_ Hlen].
    split; [done|]. split; [by exists errs, fails|]. by rewrite Hsec.
  - destruct Hrun as (Hfree & _). congruence.
Qed.

End Claims.

(** * The claims on concrete runs *)

(** C1 as stated fails: the bootstrap succeeds with the SecretID "secret",
    the token list cannot be fetched, and [bootstrapServers] returns the
    empty string with that error. *)
Lemma C1_counterexample : ~ C1_as_stated.
Proof.
  intros Hc.
  specialize (Hc Scripted.State Scripted.scripted 3%nat (Scripted.cmd true)
                Scripted.addrs "boot" (Scripted.world Scripted.listFails)
                Scripted.bootClient1 Scripted.defaultToken
                "" (Some Scripted.errListFailed)).
  assert ("" = SecretID Scripted.defaultToken) as Habs; [|discriminate Habs].
  apply Hc.
  - vm_compute. right. left. reflexivity.
  - vm_compute. reflexivity.
Qed.

(** C1 on a run with the server-token step switched on: the bootstrap
    succeeds and the secret is written, the token list cannot be fetched,
    and [bootstrapServers] returns the empty string with the error of
    [setServerTokens]. *)
Lemma C1_witness :
  In (EvBootstrap Scripted.bootClient1 (Ok Scripted.defaultToken))
     (events (bootstrapServers 3 (Scripted.cmd true) Scripted.addrs "" "boot"
                (Scripted.world Scripted.listFails))) /\
  flagSetServerTokens (Scripted.cmd true) = true /\
  outcome (bootstrapServers 3 (Scripted.cmd true) Scripted.addrs "" "boot"
             (Scripted.world Scripted.listFails))
    = Ret ("", Some Scripted.errListFailed).
Proof.
  assert (In (EvBootstrap Scripted.bootClient1 (Ok Scripted.defaultToken))
             (events (bootstrapServers 3 (Scripted.cmd true) Scripted.addrs ""
                        "boot" (Scripted.world Scripted.listFails)))) as Hin.
  { vm_compute. right. left. reflexivity. }
  split; [exact Hin|]. split; [reflexivity|].
  destruct (C1_bootstrap_token_is_persisted 3 (Scripted.cmd true) Scripted.addrs
              "boot" (Scripted.world Scripted.listFails)
              Scripted.bootClient1 Scripted.defaultToken Hin)
    as (_ & _ & a0 & rest0 & errs & fails & rest & Haddrs & _ &
        [(_ & Hout & _) | (prov & _ & _ & _ & _ & _ & _ & Hset)]).
  - vm_compute in Hout. discriminate Hout.
  - injection Haddrs as <- <-.
    cbn [flagSetServerTokens Scripted.cmd] in Hset.
    destruct Hset as (_ & _ & Hout). rewrite Hout.
    vm_compute. reflexivity.
Defined.

(** C2 on a run: no leader at first, then the bootstrap is forbidden. *)
Lemma C2_witness :
  In (EvBootstrap Scripted.bootClient1 (Err Scripted.errForbidden))
     (events (bootstrapServers 5 (Scripted.cmd true) Scripted.addrs "" "boot"
                (Scripted.world Scripted.forbidden))) /\
  strings_Contains Scripted.errForbidden "Unexpected response code: 403" = true /\
  outcome (bootstrapServers 5 (Scripted.cmd true) Scripted.addrs "" "boot"
             (Scripted.world Scripted.forbidden))
    = Ret ("", Some errRootCredentialLost).
Proof.
  assert (In (EvBootstrap Scripted.bootClient1 (Err Scripted.errForbidden))
             (events (bootstrapServers 5 (Scripted.cmd true) Scripted.addrs ""
                        "boot" (Scripted.world Scripted.forbidden)))) as Hin.
  { vm_compute. right. right. left. reflexivity. }
  assert (strings_Contains Scripted.errForbidden "Unexpected response code: 403"
          = true) as H403 by (vm_compute; reflexivity).
  split; [exact Hin|]. split; [exact H403|].
  exact (proj1 (C2_forbidden_bootstrap_is_fatal 5 (Scripted.cmd true)
                  Scripted.addrs "boot" (Scripted.world Scripted.forbidden)
                  Scripted.bootClient1 Scripted.errForbidden Hin H403)).
Defined.

(** C3 as stated fails: with the stored token "stored" and a token list
    that cannot be fetched, [bootstrapServers] returns the empty string. *)
Lemma C3_counterexample : ~ C3_as_stated.
Proof.
  intros Hc.
  specialize (Hc Scripted.State Scripted.scripted 3%nat (Scripted.cmd true)
                Scripted.addrs "stored" "boot"
                (Scripted.world Scripted.listFails)
                "" (Some Scripted.errListFailed)).
  assert ("" = "stored") as Habs; [|discriminate Habs].
  apply Hc.
  - discriminate.
  - vm_compute. reflexivity.
Qed.

(** C3 on a run: the stored token is returned when the server-token step
    is switched off. *)
Lemma C3_witness :
  "stored" <> "" /\
  bootstrapServers 3 (Scripted.cmd false) Scripted.addrs "stored" "boot"
    (Scripted.world Scripted.quiet)
  = (Scripted.world Scripted.quiet, [], Ret ("stored", None)).
Proof.
  assert ("stored" <> "") as Htok by discriminate.
  split; [exact Htok|].
  destruct (C3_stored_token_skips_bootstrap 3 (Scripted.cmd false)
              Scripted.addrs "stored" "boot" (Scripted.world Scripted.quiet) Htok)
    as (_ & _ & _ & Hoff & _).
  apply Hoff; [reflexivity|discriminate].
Defined.

(** C4 as stated fails: the list holds a token for the server with the
    agent policy and an empty SecretID, and a token is created. *)
Lemma C4_counterexample : ~ C4_as_stated.
Proof.
  intros Hc.
  specialize (Hc Scripted.State Scripted.scripted 3%nat (Scripted.cmd true)
                "root" (agentPolicyOf "rules") [Scripted.blankToken]
                Scripted.host1 (Scripted.world Scripted.quiet)
                Scripted.blankToken).
  rewrite List.Forall_forall in Hc.
  assert (isTokenCreate
            (EvTokenCreate (serverClient (Scripted.cmd true) Scripted.host1 "root")
               (tokenRequest "Server Token for 10.0.0.1" (agentPolicyOf "rules"))
               (Ok Scripted.defaultToken)) = false) as Habs;
    [|discriminate Habs].
  apply Hc.
  - by left.
  - vm_compute. reflexivity.
  - vm_compute. right. left. reflexivity.
Qed.



(** C6 on a run: no leader at first, so the bootstrap call is made again,
    and then the server refuses the connection. *)
Lemma C6_witness :
  In (EvBootstrap Scripted.bootClient1 (Err Scripted.errRefused))
     (events (bootstrapACLs 5 (Scripted.cmd true) "10.0.0.1:8500" "boot"
                (Scripted.world Cases.noLeaderThenRefused))) /\
  strings_Contains Scripted.errRefused "connection refused" = true /\
  outcome (bootstrapACLs 5 (Scripted.cmd true) "10.0.0.1:8500" "boot"
             (Scripted.world Cases.noLeaderThenRefused))
    = Ret ("", Some errCannotReach) /\
  ((exists r t3,
      [EvBootstrap Scripted.bootClient1 (Err Scripted.errRefused)]
      = EvBootstrap Scripted.bootClient1 r :: t3) \/
   ([EvBootstrap Scripted.bootClient1 (Err Scripted.errRefused)] = [] /\
    outcome (bootstrapACLs 5 (Scripted.cmd true) "10.0.0.1:8500" "boot"
               (Scripted.world Cases.noLeaderThenRefused)) = OutOfFuel /\
    length [EvNewClient (bootstrapConfig (Scripted.cmd true) "10.0.0.1:8500")
              (APITimeout (Scripted.cmd true)) None] = 5%nat)).
Proof.
  assert (In (EvBootstrap Scripted.bootClient1 (Err Scripted.errRefused))
             (events (bootstrapACLs 5 (Scripted.cmd true) "10.0.0.1:8500" "boot"
                        (Scripted.world Cases.noLeaderThenRefused)))) as Hin.
  { vm_compute. right. right. left. reflexivity. }
  assert (strings_Contains Scripted.errRefused "connection refused" = true)
    as Href by (vm_compute; reflexivity).
  destruct (C6_refused_connection_is_terminal 5 (Scripted.cmd true)
              "10.0.0.1:8500" "boot" (Scripted.world Cases.noLeaderThenRefused))
    as (Hstop & Hretry & _).
  split; [exact Hin|]. split; [exact Href|].
  split; [exact (proj1 (Hstop _ _ Hin Href))|].
  apply (Hretry Scripted.bootClient1 Scripted.errNoLeader
           [EvNewClient (bootstrapConfig (Scripted.cmd true) "10.0.0.1:8500")
              (APITimeout (Scripted.cmd true)) None]
           [EvBootstrap Scripted.bootClient1 (Err Scripted.errRefused)]).
  - vm_compute. reflexivity.
  - vm_compute. reflexivity.
  - vm_compute. reflexivity.
Defined.

(** C7 as stated fails: the rule template does not render, and
    [setServerTokens] returns before it fetches the token list. *)
Lemma C7_counterexample : ~ C7_as_stated.
Proof.
  intros Hc.
  specialize (Hc Scripted.State Scripted.scripted 3%nat Scripted.cmdNoRules
                Scripted.addrs "root" (Scripted.world Scripted.quiet)).
  vm_compute in Hc. discriminate Hc.
Qed.

(** C7 on a run that gets past the set-up and fails: the policy upsert
    succeeds, the token list cannot be fetched, and the list was asked for
    exactly once. *)
Lemma C7_witness :
  In (EvPolicyUpsert (agentPolicyOf "node_prefix {policy = write}")
        (serverClient (Scripted.cmd true) Scripted.host1 "secret") None)
     (events (setServerTokens 3 (Scripted.cmd true) Scripted.addrs "secret"
                (Scripted.world Scripted.listFails))) /\
  outcome (setServerTokens 3 (Scripted.cmd true) Scripted.addrs "secret"
             (Scripted.world Scripted.listFails))
    = Ret (Some Scripted.errListFailed) /\
  length (filter (fun ev => isTokenList ev = true)
            (events (setServerTokens 3 (Scripted.cmd true) Scripted.addrs "secret"
                       (Scripted.world Scripted.listFails)))) = 1%nat.
Proof.
  assert (In (EvPolicyUpsert (agentPolicyOf "node_prefix {policy = write}")
                (serverClient (Scripted.cmd true) Scripted.host1 "secret") None)
             (events (setServerTokens 3 (Scripted.cmd true) Scripted.addrs
                        "secret" (Scripted.world Scripted.listFails)))) as Hin.
  { vm_compute. right. left. reflexivity. }
  split; [exact Hin|]. split; [vm_compute; reflexivity|].
  exact (proj2 (proj2 (proj2 (proj2
           (C7_token_list_fetched_once 3 (Scripted.cmd true) Scripted.addrs
              "secret" (Scripted.world Scripted.listFails))))) _ _ Hin).
Defined.

(** C8 on a run. *)
Lemma C8_witness :
  In (EvBootstrap Scripted.bootClient1 (Ok Scripted.defaultToken))
     (events (bootstrapServers 3 (Scripted.cmd true) Scripted.addrs "" "boot"
                (Scripted.world Scripted.quiet))) /\
  Address (client_config Scripted.bootClient1) = "10.0.0.1:8500" /\
  HttpClient (client_config Scripted.bootClient1)
    = Some {| Timeout := 300000000000%Z |}.
Proof.
  assert (In (EvBootstrap Scripted.bootClient1 (Ok Scripted.defaultToken))
             (events (bootstrapServers 3 (Scripted.cmd true) Scripted.addrs ""
                        "boot" (Scripted.world Scripted.quiet)))) as Hin.
  { vm_compute. right. left. reflexivity. }
  split; [exact Hin|].
  destruct (C8_bootstrap_targets_first_server 3 (Scripted.cmd true)
              Scripted.addrs "boot" (Scripted.world Scripted.quiet)
              Scripted.bootClient1 (Ok Scripted.defaultToken) Hin)
    as (a0 & rest & Haddrs & Haddr & Hhttp & _).
  injection Haddrs as <- _.
  split; [exact Haddr|exact Hhttp].
Defined.

(** C10 on a run: the secret "boot" exists, and the run is still writing
    when its fuel ends. *)
Lemma C10_witness :
  secrets Scripted.taken !! ("consul", "boot") = Some Scripted.oldSecret /\
  In (EvBootstrap Scripted.bootClient1 (Ok Scripted.defaultToken))
     (events (bootstrapServers 4 (Scripted.cmd true) Scripted.addrs "" "boot"
                Scripted.taken)) /\
  outcome (bootstrapServers 4 (Scripted.cmd true) Scripted.addrs "" "boot"
             Scripted.taken) = OutOfFuel.
Proof.
  assert (secrets Scripted.taken !! ("consul", "boot") = Some Scripted.oldSecret)
    as Hold by (vm_compute; reflexivity).
  assert (In (EvBootstrap Scripted.bootClient1 (Ok Scripted.defaultToken))
             (events (bootstrapServers 4 (Scripted.cmd true) Scripted.addrs ""
                        "boot" Scripted.taken))) as Hin.
  { vm_compute. right. left. reflexivity. }
  split; [exact Hold|]. split; [exact Hin|].
  exact (proj1 (C10_existing_secret_blocks_the_run 4 (Scripted.cmd true)
                  Scripted.addrs "boot" Scripted.taken Scripted.oldSecret
                  Scripted.bootClient1 Scripted.defaultToken Hold Hin)).
Defined.

(** * Further properties of servers.go *)

(** ** [strings.Contains] and [isNoLeaderErr] *)

Section Substrings.

Lemma prefix_append (p s : string) :
  String.prefix p s = true <-> exists b, s = p +:+ b.
Proof.
  revert p. induction s as [|c s IH]; intros [|a p]; cbn.
  - split; [by exists ""|done].
  - split; [done|]. by intros [b ?].
  - split; [by exists (String c s)|done].
  - destruct (Ascii.ascii_dec a c) as [->|Hne].
    + rewrite IH. split; intros [b Hb]; exists b.
      * by rewrite Hb.
      * change (String c s = String c (p +:+ b)) in Hb. by injection Hb.
    + split; [done|]. intros [b Hb].
      change (String c s = String a (p +:+ b)) in Hb. injection Hb as <- _. done.
Qed.

(** [strings_Contains s sub] holds exactly when [sub] occurs in [s]. *)
Lemma strings_Contains_occurs (s sub : string) :
  strings_Contains s sub = true <-> exists a b, s = a +:+ sub +:+ b.
Proof.
  induction s as [|c s IH]; cbn [strings_Contains].
  - rewrite orb_false_r, prefix_append. split.
    + intros [b Hb]. by exists "", b.
    + intros (a & b & Hs). destruct a as [|? ?]; [by exists b|done].
  - rewrite orb_true_iff, prefix_append, IH. split.
    + intros [[b Hb] | (a & b & ->)]; [by exists "", b|].
      by exists (String c a), b.
    + intros (a & b & Hs). destruct a as [|c' a].
      * left. by exists b.
      * right. change (String c s = String c' (a +:+ sub +:+ b)) in Hs.
        injection Hs as -> ->. by exists a, b.
Qed.

(** X1.  [isNoLeaderErr] answers [true] exactly for a non-nil error whose
    text holds both "Unexpected response code: 500" and "The ACL system is
    currently in legacy mode." somewhere; it answers [false] for [nil]. *)
Theorem X1_isNoLeaderErr_both_markers (err : error) :
  isNoLeaderErr err = true <->
  exists msg,
    err = Some msg /\
    (exists a b, msg = a +:+ "Unexpected response code: 500" +:+ b) /\
    (exists a b, msg = a +:+ "The ACL system is currently in legacy mode." +:+ b).
Proof.
  destruct err as [msg|]; cbn.
  - rewrite andb_true_iff, !strings_Contains_occurs. split.
    + intros [H500 Hlegacy]. by exists msg.
    + by intros (? & [= <-] & H500 & Hlegacy).
  - split; [done|]. by intros (? & ? & _).
Qed.

End Substrings.

(** ** The agent policy and the clients *)

Section Policy.
Context {B : Type} `{Backend B}.

(** X2.  When the agent rules render, [setServerPolicy] upserts the policy
    named "agent-token" with those rules over the client it was given, with
    the same request after every failure, and returns that policy with no
    error once an upsert succeeds; it returns no error of its own. *)
Theorem X2_policy_upsert_is_retried fuel c cl (w : World B) rules :
  let policy :=
    {| policy_Name := "agent-token";
       policy_Description := "Agent Token Policy";
       policy_Rules := rules |} in
  let run := setServerPolicy fuel c cl w in
  agentRules c = Ok rules ->
  exists fails,
    (events run = failedUpserts policy cl fails /\ outcome run = OutOfFuel /\
     length fails = fuel) \/
    (events run = failedUpserts policy cl fails ++ [EvPolicyUpsert policy cl None] /\
     outcome run = Ret (policy, None)).
Proof.
  cbn zeta. intros Hrules. unfold setServerPolicy. rewrite Hrules.
  set (policy := {| policy_Name := "agent-token" |}).
  set (opName := "creating agent policy - PUT /v1/acl/policy").
  pose proof (run_eta (untilSucceeds fuel opName
                (fun vars : unit =>
                   err ← createOrUpdateACLPolicy policy cl; mret (vars, err))
                tt w)) as Hloop.
  destruct (upsert_loop fuel opName policy cl w)
    as [fails [(Hev & Hout & Hlen) | (Hev & Hout)]];
    cbn zeta in Hev, Hout; rewrite Hev, Hout in Hloop; exists fails.
  - left. by rewrite (bind_OutOfFuel _ _ _ _ _ Hloop).
  - right. rewrite (bind_Ret _ _ _ _ _ _ Hloop).
    rewrite events_triple, outcome_triple. cbn. by rewrite app_nil_r.
Qed.

(** X3.  When the agent rules do not render, the error is not retried:
    [setServerPolicy] returns it with the zero policy and no request, and
    [setServerTokens] returns it right after building its client, for every
    amount of fuel. *)
Theorem X3_rules_error_is_not_retried fuel c a0 rest tok (w : World B) e b1 :
  agentRules c = Err e ->
  newClient_reply (serverConfig c a0 tok) (APITimeout c) (backend w) = (None, b1) ->
  (forall cl (w' : World B),
     setServerPolicy fuel c cl w' = (w', [], Ret (zeroACLPolicy, Some e))) /\
  setServerTokens fuel c (a0 :: rest) tok w =
    ({| backend := b1; secrets := secrets w |},
     [EvNewClient (serverConfig c a0 tok) (APITimeout c) None],
     Ret (Some e)).
Proof.
  intros Hrules Hnew.
  assert (forall cl (w' : World B),
            setServerPolicy fuel c cl w' = (w', [], Ret (zeroACLPolicy, Some e)))
    as Hpolicy.
  { intros cl w'. unfold setServerPolicy. by rewrite Hrules. }
  split; [exact Hpolicy|].
  unfold setServerTokens.
  rewrite (bind_Ret _ _ _ _ _ _ (consul_NewClient_run _ _ w)), Hnew.
  cbn [fst snd].
  by rewrite (bind_Ret _ _ _ _ _ _ (Hpolicy _ _)).
Qed.

(** X4.  When the client for the first server cannot be built,
    [bootstrapServers] (without a stored token) returns the error of the
    construction, prefixed by "creating Consul client for address" and the
    address, after that one attempt: no bootstrap call, no write, no retry. *)
Theorem X4_client_failure_is_wrapped fuel c a0 rest name (w : World B) e b1 :
  let addr := IP a0 +:+ ":" +:+ itoa (HTTPPort c) in
  newClient_reply (bootstrapConfig c addr) (APITimeout c) (backend w) = (Some e, b1) ->
  bootstrapServers fuel c (a0 :: rest) "" name w =
    ({| backend := b1; secrets := secrets w |},
     [EvNewClient (bootstrapConfig c addr) (APITimeout c) (Some e)],
     Ret ("", Some ("creating Consul client for address " +:+ addr +:+ ": " +:+ e))).
Proof.
  cbn zeta. intros Hnew.
  assert (bootstrapACLs fuel c (firstServerAddrOf c a0) name w =
            ({| backend := b1; secrets := secrets w |},
             [EvNewClient (bootstrapConfig c (firstServerAddrOf c a0))
                (APITimeout c) (Some e)],
             Ret ("", Some ("creating Consul client for address "
                            +:+ firstServerAddrOf c a0 +:+ ": " +:+ e)))) as Hboot.
  { unfold bootstrapACLs.
    rewrite (bind_Ret _ _ _ _ _ _ (consul_NewClient_run _ _ w)).
    unfold firstServerAddrOf. by rewrite Hnew. }
  rewrite bootstrapServers_fresh. cbn zeta. by rewrite Hboot.
Qed.

End Policy.

(** ** The loop over the servers *)

Section ServerLoop.
Context {B : Type} `{Backend B}.

(** The shapes of one iteration, with the secret the inner loop found. *)
Lemma serverTokenStep_run fuel c tok policy existing host (w : World B) :
  let found := findExistingToken existing policy (tokenDescriptionFor host) in
  let run := serverTokenStep fuel c tok policy existing host w in
  exists sr,
    stepOk fuel found sr /\
    events run = stepEvents c tok policy host found sr /\
    outcome run = stepOutcome sr.
Proof.
  cbn zeta. set (desc := tokenDescriptionFor host).
  set (found := findExistingToken existing policy desc).
  unfold serverTokenStep.
  rewrite (bind_Ret _ _ _ _ _ _ (consul_NewClient_run _ _ w)).
  destruct (newClient_reply (serverConfig c host tok) (APITimeout c) (backend w))
    as [[e|] b1]; cbn [fst snd].
  { by exists (StepClientFailed e). }
  fold (serverClient c host tok). fold desc. fold found.
  set (w1 := {| backend := b1; secrets := secrets w |}).
  set (cl := serverClient c host tok).
  destruct (String.eqb_spec found "") as [Hfound|Hfound].
  - set (cname := "creating server token for " +:+ _).
    pose proof (run_eta (untilSucceeds fuel cname
                  (createTokenAttempt cl desc policy) found w1)) as Hloop.
    destruct (create_loop fuel cname cl desc policy found w1)
      as [cfails [(Hev & Hout & Hlen) | (token & Hev & Hout)]];
      cbn zeta in Hev, Hout; rewrite Hev, Hout in Hloop.
    + exists (Creating cfails). by rewrite (bind_OutOfFuel _ _ _ _ _ Hloop).
    + set (w2 := final (untilSucceeds fuel cname
                           (createTokenAttempt cl desc policy) found w1)) in *.
      rewrite (bind_Ret _ _ _ _ _ _ Hloop). cbn beta iota.
      set (pname := "updating server token for " +:+ _).
      pose proof (run_eta (untilSucceeds fuel pname
                    (updateTokenAttempt cl (SecretID token)) tt w2)) as Hpush.
      destruct (push_loop fuel pname cl (SecretID token) w2)
        as [pfails [(Hev2 & Hout2 & Hlen2) | (Hev2 & Hout2)]];
        cbn zeta in Hev2, Hout2; rewrite Hev2, Hout2 in Hpush.
      * exists (Pushing (Created cfails token) pfails).
        rewrite (bind_OutOfFuel _ _ _ _ _ Hpush). by repeat split.
      * exists (Pushed (Created cfails token) pfails).
        rewrite (bind_Ret _ _ _ _ _ _ Hpush).
        repeat split; try done.
        unfold events. cbn. by rewrite app_nil_r.
  - rewrite (bind_Ret _ _ _ _ _ _ (mret_run _ w1)). cbn beta iota.
    set (pname := "updating server token for " +:+ _).
    pose proof (run_eta (untilSucceeds fuel pname
                  (updateTokenAttempt cl found) tt w1)) as Hpush.
    destruct (push_loop fuel pname cl found w1)
      as [pfails [(Hev2 & Hout2 & Hlen2) | (Hev2 & Hout2)]];
      cbn zeta in Hev2, Hout2; rewrite Hev2, Hout2 in Hpush.
    + exists (Pushing Reused pfails).
      rewrite (bind_OutOfFuel _ _ _ _ _ Hpush). by repeat split.
    + exists (Pushed Reused pfails).
      rewrite (bind_Ret _ _ _ _ _ _ Hpush).
      repeat split; try done.
      unfold events. cbn. by rewrite app_nil_r.
Qed.

(** The runs of a [for ... range] loop: the iterations before the last one
    returned [nil]; the loop ends with the list, or with the first
    iteration that does not return [nil]. *)
Lemma forRange_cons {A : Type} (body : A -> M B error) x l (w : World B) :
  forRange body (x :: l) w =
    match outcome (body x w) with
    | Ret None =>
        (final (forRange body l (final (body x w))),
         events (body x w) ++ events (forRange body l (final (body x w))),
         outcome (forRange body l (final (body x w))))
    | Ret (Some e) => (final (body x w), events (body x w), Ret (Some e))
    | OutOfFuel => (final (body x w), events (body x w), OutOfFuel)
    | Panics => (final (body x w), events (body x w), Panics)
    end.
Proof.
  cbn [forRange].
  destruct (body x w) as [[w1 t1] [[e|]| |]] eqn:Hrun.
  - rewrite (bind_Ret _ _ _ _ _ _ Hrun). cbn. by rewrite app_nil_r.
  - by rewrite (bind_Ret _ _ _ _ _ _ Hrun).
  - by rewrite (bind_OutOfFuel _ _ _ _ _ Hrun).
  - by rewrite (bind_Panics _ _ _ _ _ Hrun).
Qed.

Lemma provisions_forRange_In {A : Type} P (body : A -> M B error) l :
  (forall x, In x l -> provisions P (body x)) -> provisions P (forRange body l).
Proof.
  induction l as [|x l IH]; intros Hbody; cbn [forRange].
  - apply provisions_ret.
  - apply provisions_bind; [apply Hbody; by left|].
    intros [e|]; [apply provisions_ret|]. apply IH.
    intros y Hy. apply Hbody. by right.
Qed.

Lemma newClientConfigs_none (l : list Event) :
  Forall (fun ev => isNewClient ev = false) l -> newClientConfigs l = [].
Proof.
  induction 1 as [|ev l Hev _ IH]; [done|].
  unfold newClientConfigs in *. cbn. by destruct ev.
Qed.

Lemma newClientConfigs_app (l1 l2 : list Event) :
  newClientConfigs (l1 ++ l2) = newClientConfigs l1 ++ newClientConfigs l2.
Proof. apply omap_app. Qed.

(** One iteration builds one client, that of its server. *)
Lemma serverTokenStep_configs fuel c tok policy existing host (w : World B) :
  newClientConfigs (events (serverTokenStep fuel c tok policy existing host w))
    = [serverConfig c host tok].
Proof.
  destruct (serverTokenStep_run fuel c tok policy existing host w)
    as (sr & _ & -> & _).
  assert (forall (f : string -> Event) l,
            (forall e, isNewClient (f e) = false) ->
            newClientConfigs (map f l) = []) as Hmap.
  { intros f l Hf. apply newClientConfigs_none.
    rewrite List.Forall_forall. by intros ev (e & <- & _)%in_map_iff. }
  assert (forall src,
            newClientConfigs
              (createEvents (serverClient c host tok)
                 (tokenRequest (tokenDescriptionFor host) policy) src) = [])
    as Hcreate.
  { intros [|cfails token]; [done|]. cbn [createEvents].
    rewrite newClientConfigs_app. unfold failedCreates. by rewrite Hmap. }
  destruct sr as [e|cfails|src pfails|src pfails];
    cbn [stepEvents]; change (?x :: ?l) with ([x] ++ l);
    rewrite ?newClientConfigs_app, ?Hcreate;
    unfold failedCreates, failedPushes; rewrite ?Hmap; done.
Qed.

(** A failed client build is in the requests of an iteration only when it
    is the whole of it. *)
Lemma failed_build_in_step c tok policy host found sr cfg to e :
  In (EvNewClient cfg to (Some e)) (stepEvents c tok policy host found sr) ->
  sr = StepClientFailed e.
Proof.
  assert (forall src,
            ~ In (EvNewClient cfg to (Some e))
                 (createEvents (serverClient c host tok)
                    (tokenRequest (tokenDescriptionFor host) policy) src))
    as Hcreate.
  { intros [|cfails token]; cbn [createEvents]; [by intros []|].
    unfold failedCreates. rewrite in_app_iff, in_map_iff.
    intros [(? & ? & _)|[|[]]]; done. }
  destruct sr as [e0|cfails|src pfails|src pfails]; cbn [stepEvents];
    unfold failedCreates, failedPushes;
    (intros [Hhd|Hin];
       [first [discriminate Hhd | by injection Hhd as _ _ ->]|]); exfalso.
  - done.
  - apply in_map_iff in Hin as (? & ? & _). done.
  - apply in_app_iff in Hin as [Hin|Hin]; [by apply Hcreate in Hin|].
    apply in_map_iff in Hin as (? & ? & _). done.
  - apply in_app_iff in Hin as [Hin|Hin]; [by apply Hcreate in Hin|].
    apply in_app_iff in Hin as [Hin|[|[]]]; [|done].
    apply in_map_iff in Hin as (? & ? & _). done.
Qed.

(** An event that is not in the first part of a run sits in the second. *)
Lemma split_after (l1 l2 t1 t2 : list Event) y :
  l1 ++ l2 = t1 ++ y :: t2 -> ~ In y l1 ->
  exists t1', t1 = l1 ++ t1' /\ l2 = t1' ++ y :: t2.
Proof.
  revert t1. induction l1 as [|x l1 IH]; intros t1 Heq Hnot.
  - by exists t1.
  - destruct t1 as [|x' t1]; cbn in Heq; injection Heq as -> Heq.
    + exfalso. apply Hnot. by left.
    + destruct (IH t1 Heq) as (t1' & -> & ->).
      { intros Hin. apply Hnot. by right. }
      by exists t1'.
Qed.

(** X5.  The servers are handled in the order of the address list, one
    client each, and the loop stops at the first iteration that does not
    succeed: the clients built by the loop are those of the first [n]
    addresses, in order, and of all addresses when the loop returns
    [nil]; a client build that fails is the last request of the loop, and
    the loop returns its error; and when the loop returns an error, its
    last request is the failed client build for the [n]-th address. *)
Theorem X5_servers_in_list_order fuel c tok policy existing addrs (w : World B) :
  let loop := forRange (serverTokenStep fuel c tok policy existing) addrs w in
  (exists n,
     (n <= length addrs)%nat /\
     newClientConfigs (events loop)
       = map (fun host => serverConfig c host tok) (take n addrs) /\
     (outcome loop = Ret None -> (length addrs <= n)%nat) /\
     (forall e,
        outcome loop = Ret (Some e) ->
        exists t1 host,
          last (take n addrs) = Some host /\
          events loop =
            t1 ++ [EvNewClient (serverConfig c host tok) (APITimeout c) (Some e)])) /\
  (forall t1 cfg to e t2,
     events loop = t1 ++ EvNewClient cfg to (Some e) :: t2 ->
     t2 = [] /\ outcome loop = Ret (Some e)).
Proof.
  cbn zeta. split.
  - revert w. induction addrs as [|host addrs IH]; intros w.
    { exists 0%nat. split; [done|]. split; [done|]. split; [cbn; lia|done]. }
    rewrite forRange_cons.
    pose proof (serverTokenStep_configs fuel c tok policy existing host w) as Hcfg.
    destruct (serverTokenStep_run fuel c tok policy existing host w)
      as (sr & _ & Hev & Hout). cbn zeta in Hev, Hout.
    destruct (outcome (serverTokenStep fuel c tok policy existing host w))
      as [[e|]| |] eqn:Hstep.
    + exists 1%nat. rewrite events_triple, outcome_triple, Hcfg.
      split; [cbn; lia|]. split; [done|]. split; [done|].
      intros e' [= <-]. exists [], host. split; [done|].
      rewrite Hev. by destruct sr; cbn in Hout; try done; injection Hout as ->.
    + destruct (IH (final (serverTokenStep fuel c tok policy existing host w)))
        as (n & Hle & Hn & Hlen & Hlast).
      exists (S n). rewrite events_triple, outcome_triple.
      rewrite newClientConfigs_app, Hcfg, Hn.
      split; [cbn; lia|]. split; [done|]. split.
      { intros Hout'. specialize (Hlen Hout'). cbn. lia. }
      intros e Hout'. destruct (Hlast e Hout') as (t1 & host' & Hhost & ->).
      exists (events (serverTokenStep fuel c tok policy existing host w) ++ t1),
        host'.
      split; [|by rewrite <- app_assoc].
      cbn [take]. by rewrite last_cons, Hhost.
    + exists 1%nat. rewrite events_triple, outcome_triple, Hcfg.
      split; [cbn; lia|]. by split.
    + exists 1%nat. rewrite events_triple, outcome_triple, Hcfg.
      split; [cbn; lia|]. by split.
  - revert w. induction addrs as [|host addrs IH]; intros w t1 cfg to e t2 Heq.
    { by destruct t1. }
    rewrite forRange_cons in Heq |- *.
    destruct (serverTokenStep_run fuel c tok policy existing host w)
      as (sr & _ & Hev & Hout). cbn zeta in Hev, Hout.
    destruct (outcome (serverTokenStep fuel c tok policy existing host w))
      as [[e0|]| |] eqn:Hstep; rewrite events_triple in Heq;
      rewrite outcome_triple.
    + destruct sr; cbn in Hout; try done. injection Hout as ->.
      rewrite Hev in Heq. cbn [stepEvents] in Heq.
      destruct t1 as [|x t1]; [by injection Heq as _ _ -> <-|].
      injection Heq as _ Heq. by destruct t1.
    + apply split_after in Heq as (t1' & -> & Heq); [by eapply IH|].
      rewrite Hev. intros Hin%failed_build_in_step. by subst sr.
    + exfalso.
      assert (In (EvNewClient cfg to (Some e))
                (events (serverTokenStep fuel c tok policy existing host w)))
        as Hin by (rewrite Heq; apply in_elt).
      rewrite Hev in Hin. apply failed_build_in_step in Hin. by subst sr.
    + exfalso.
      assert (In (EvNewClient cfg to (Some e))
                (events (serverTokenStep fuel c tok policy existing host w)))
        as Hin by (rewrite Heq; apply in_elt).
      rewrite Hev in Hin. apply failed_build_in_step in Hin. by subst sr.
Qed.

End ServerLoop.

(** ** What [setServerTokens] asks of Consul *)

Section Tokens.
Context {B : Type} `{Backend B}.

Lemma provisions_NewClient_then {A : Type} (P : Event -> Prop) cfg apiTimeout
    (k : Result Client -> M B A) :
  (forall r, P (EvNewClient cfg apiTimeout r)) ->
  provisions P (k (Ok {| client_config := cfg; client_apiTimeout := apiTimeout |})) ->
  (forall e, provisions P (k (Err e))) ->
  provisions P (consul_NewClient cfg apiTimeout ≫= k).
Proof.
  intros HP Hok Herr w.
  rewrite (bind_Ret _ _ _ _ _ _ (consul_NewClient_run cfg apiTimeout w)).
  rewrite final_triple, events_triple.
  set (w1 := {| backend := (newClient_reply cfg apiTimeout (backend w)).2;
                secrets := secrets w |}).
  destruct ((newClient_reply cfg apiTimeout (backend w)).1) as [e|].
  - destruct (Herr e w1) as [Hev Hsec]. split; [|exact Hsec].
    constructor; [apply HP|exact Hev].
  - destruct (Hok w1) as [Hev Hsec]. split; [|exact Hsec].
    constructor; [apply HP|exact Hev].
Qed.

(** X6.  Every request of [setServerTokens] is made with the root token it
    was given and with the HTTP client of the command's own configuration
    (not the 5-minute client of the bootstrap): the clients it builds, and
    the policy upsert, the token list, the token creations and the pushes
    through them.  It makes no bootstrap call and writes no secret. *)
Theorem X6_provisioning_uses_root_token fuel c addrs tok (w : World B) :
  Forall (usesRootToken c tok) (events (setServerTokens fuel c addrs tok w)).
Proof.
  assert (forall host, rootConfig c tok (serverConfig c host tok)) as Hcfg
    by done.
  assert (provisions (usesRootToken c tok) (setServerTokens fuel c addrs tok))
    as Hall; [|apply Hall].
  unfold setServerTokens. destruct addrs as [|a0 rest];
    [apply provisions_panic|].
  apply provisions_NewClient_then; [intros r; apply Hcfg| |intros e; apply provisions_ret].
  apply provisions_bind.
  { unfold setServerPolicy. destruct (agentRules c) as [rules|e];
      [|apply provisions_ret].
    apply provisions_bind; [|intros [[] [e|]]; apply provisions_ret].
    apply provisions_untilSucceeds. intros v.
    apply provisions_bind; [|intros ?; apply provisions_ret].
    apply provisions_request. intros r. apply Hcfg. }
  intros [policy [e|]]; [apply provisions_ret|].
  apply provisions_bind; [apply provisions_request; intros r; apply Hcfg|].
  intros [existing|e]; [|apply provisions_ret].
  apply provisions_forRange. intros host. unfold serverTokenStep.
  apply provisions_NewClient_then; [intros r; apply Hcfg| |intros e; apply provisions_ret].
  apply provisions_bind.
  - destruct (String.eqb _ ""); [|apply provisions_ret].
    apply provisions_untilSucceeds. intros v. unfold createTokenAttempt.
    apply provisions_bind; [|intros [tk|e]; apply provisions_ret].
    apply provisions_request. intros r. apply Hcfg.
  - intros [secret [e|]]; [apply provisions_ret|].
    apply provisions_bind; [|intros [[] ?]; apply provisions_ret].
    apply provisions_untilSucceeds. intros v. unfold updateTokenAttempt.
    apply provisions_bind; [|intros ?; apply provisions_ret].
    apply provisions_request. intros r. apply Hcfg.
Qed.

(** An iteration that finds a secret creates no token. *)
Lemma serverTokenStep_reuses fuel c tok policy existing host :
  findExistingToken existing policy (tokenDescriptionFor host) <> "" ->
  provisions (fun ev => isTokenCreate ev = false)
    (serverTokenStep fuel c tok policy existing host).
Proof.
  intros Hfound. unfold serverTokenStep.
  apply provisions_bind; [by apply provisions_NewClient|].
  intros [cl|e]; [|apply provisions_ret].
  destruct (String.eqb_spec
              (findExistingToken existing policy (tokenDescriptionFor host)) "")
    as [Heq|_]; [done|].
  apply provisions_bind; [apply provisions_ret|].
  intros [secret [e|]]; [apply provisions_ret|].
  apply provisions_bind; [|intros [[] ?]; apply provisions_ret].
  apply provisions_untilSucceeds. intros v. unfold updateTokenAttempt.
  apply provisions_bind; [by apply provisions_request|].
  intros ?; apply provisions_ret.
Qed.

(** X7.  A second provisioning run creates nothing: when the token list
    that [setServerTokens] fetched holds, for every server address, a
    token that the inner loop finds with a non-empty SecretID, the run
    issues no token-create request at all. *)
Theorem X7_no_create_when_all_listed
    fuel c addrs tok (w : World B) rules cl existing :
  let run := setServerTokens fuel c addrs tok w in
  agentRules c = Ok rules ->
  In (EvTokenList cl (Ok existing)) (events run) ->
  (forall host, In host addrs ->
     findExistingToken existing (agentPolicyOf rules) (tokenDescriptionFor host)
       <> "") ->
  Forall (fun ev => isTokenCreate ev = false) (events run).
Proof.
  cbn zeta. intros Hrules Hin Hfound.
  destruct addrs as [|a0 rest]; [done|].
  destruct (setServerTokens_run fuel c a0 rest tok w) as (pre & Hpre & Hcases).
  cbn zeta in Hcases.
  assert (Forall (fun ev => isTokenCreate ev = false) pre) as Hpre'.
  { eapply Forall_impl; [exact Hpre|]. by intros []. }
  destruct Hcases as [(Hev & _) | [(e & Hev & _) |
    (rules' & existing' & w1 & Hrules' & Hev & _ & Hloop)]];
    rewrite Hev in Hin |- *.
  - done.
  - apply Forall_app. split; [done|]. by repeat constructor.
  - assert (rules' = rules) as -> by congruence.
    assert (existing' = existing) as ->.
    { apply in_app_iff in Hin as [Hin|[Hin|Hin]].
      - rewrite List.Forall_forall in Hpre. by apply Hpre in Hin.
      - by injection Hin.
      - rewrite List.Forall_forall in Hloop. by apply Hloop in Hin. }
    apply Forall_app. split; [done|]. constructor; [done|].
    apply (provisions_forRange_In (fun ev => isTokenCreate ev = false)).
    intros host Hhost. apply serverTokenStep_reuses. by apply Hfound.
Qed.

(** A loop that returns [nil] ran every iteration to [nil], and its
    requests include those of each iteration. *)
Lemma forRange_all_done {A : Type} (body : A -> M B error) l (w : World B) :
  outcome (forRange body l w) = Ret None ->
  forall x, In x l ->
    exists w',
      outcome (body x w') = Ret None /\
      forall ev, In ev (events (body x w')) -> In ev (events (forRange body l w)).
Proof.
  revert w. induction l as [|y l IH]; intros w Hout x Hx; [done|].
  rewrite forRange_cons in Hout |- *.
  destruct (outcome (body y w)) as [[e|]| |] eqn:Hy; try done.
  rewrite outcome_triple in Hout. rewrite events_triple.
  destruct Hx as [->|Hx].
  - exists w. split; [done|]. intros ev Hev. apply in_app_iff. by left.
  - destruct (IH _ Hout x Hx) as (w' & Hdone & Hsub).
    exists w'. split; [done|]. intros ev Hev. apply in_app_iff. right. by apply Hsub.
Qed.

(** X8.  When [setServerTokens] returns [nil], every server of the list
    was handed a token: for each address the run holds a push
    (UpdateAgentACLToken) through the client of that very server that was
    answered without error. *)
Theorem X8_success_pushes_every_server fuel c addrs tok (w : World B) host :
  let run := setServerTokens fuel c addrs tok w in
  outcome run = Ret None ->
  In host addrs ->
  exists secret,
    In (EvUpdateAgentACLToken (serverClient c host tok) secret None) (events run).
Proof.
  cbn zeta. intros Hout Hhost.
  destruct addrs as [|a0 rest]; [done|].
  destruct (setServerTokens_run fuel c a0 rest tok w) as (pre & Hpre & Hcases).
  cbn zeta in Hcases.
  destruct Hcases as [(_ & Hne) | [(e & _ & Herr) |
    (rules & existing & w1 & _ & Hev & Hloop & _)]]; [done|congruence|].
  rewrite Hloop in Hout.
  destruct (forRange_all_done _ _ _ Hout host Hhost) as (w' & Hdone & Hsub).
  destruct (serverTokenStep_run fuel c tok (agentPolicyOf rules) existing host w')
    as (sr & _ & Hstep & Hres). cbn zeta in Hstep, Hres.
  rewrite Hres in Hdone. destruct sr as [e|cfails|src pfails|src pfails]; try done.
  exists (secretOf (findExistingToken existing (agentPolicyOf rules)
                      (tokenDescriptionFor host)) src).
  rewrite Hev. apply in_app_iff. right. right. apply Hsub.
  rewrite Hstep. cbn [stepEvents]. right.
  apply in_app_iff. right. apply in_app_iff. right. by left.
Qed.

End Tokens.

(** ** The bootstrap token, once obtained *)

Section Once.
Context {B : Type} `{Backend B}.

(** An event that cannot occur before or after a given position pins the
    position down. *)
Lemma split_unique (Q : Event -> Prop) (l1 l2 t1 t2 : list Event) x y :
  l1 ++ x :: l2 = t1 ++ y :: t2 ->
  Q y -> Forall (fun ev => ~ Q ev) l1 -> Forall (fun ev => ~ Q ev) l2 ->
  t1 = l1 /\ t2 = l2.
Proof.
  revert t1. induction l1 as [|a l1 IH]; intros t1 Heq Hy Hl1 Hl2.
  - destruct t1 as [|z t1]; cbn in Heq.
    + by injection Heq as _ ->.
    + injection Heq as _ ->. exfalso.
      rewrite List.Forall_forall in Hl2. apply (Hl2 y); [|done].
      apply in_elt.
  - inversion Hl1 as [|? ? Ha Hl1']; subst.
    destruct t1 as [|z t1]; cbn in Heq.
    + injection Heq as -> _. done.
    + injection Heq as -> Heq. destruct (IH _ Heq Hy Hl1' Hl2) as [-> ->]. done.
Qed.

(** The store after a run without a stored token that returns a token. *)
Lemma fresh_run_stores fuel c a0 rest name (w : World B) tok :
  outcome (bootstrapServers fuel c (a0 :: rest) "" name w) = Ret (tok, None) ->
  secrets (final (bootstrapServers fuel c (a0 :: rest) "" name w)) =
    <[(flagK8sNamespace c, name) := bootstrapSecret c name tok]> (secrets w).
Proof.
  intros Hout.
  destruct (bootstrapServers_fresh_run fuel c a0 rest name w)
    as (br & prov & _ & _ & _ & _ & Hrun). cbn zeta in Hrun.
  destruct br as [e|errs|errs e|errs resp fails|errs resp fails].
  1-4: destruct Hrun as (_ & Hout' & _); rewrite Hout' in Hout; done.
  destruct Hrun as (_ & Hsec & Hrun). rewrite Hsec.
  destruct (flagSetServerTokens c).
  - destruct Hrun as (w1 & _ & Hout'). rewrite Hout' in Hout.
    destruct (outcome (setServerTokens _ _ _ _ w1)) as [[e|]| |]; try done.
    cbn in Hout. by injection Hout as ->.
  - destruct Hrun as [_ Hout']. rewrite Hout' in Hout. by injection Hout as ->.
Qed.

Lemma storedToken_insert c name tok store (b : B) :
  storedToken c name
    {| backend := b;
       secrets := <[(flagK8sNamespace c, name) := bootstrapSecret c name tok]> store |}
  = Some tok.
Proof.
  unfold storedToken. cbn [secrets]. rewrite lookup_insert_eq. cbn.
  rewrite lookup_singleton_eq. cbn.
  by rewrite String.string_of_list_byte_of_string.
Qed.

(** X9.  [bootstrapServers] bootstraps at most once: a bootstrap call that
    succeeded is the only successful one of the run, and no bootstrap call
    at all is made after it. *)
Theorem X9_bootstrap_succeeds_once
    fuel c addrs tok name (w : World B) t1 cl resp t2 :
  events (bootstrapServers fuel c addrs tok name w)
    = t1 ++ EvBootstrap cl (Ok resp) :: t2 ->
  (forall cl' resp', ~ In (EvBootstrap cl' (Ok resp')) t1) /\
  Forall (fun ev => isBootstrap ev = false) t2.
Proof.
  intros Hsplit.
  assert (In (EvBootstrap cl (Ok resp))
            (events (bootstrapServers fuel c addrs tok name w))) as Hin.
  { rewrite Hsplit. apply in_elt. }
  destruct addrs as [|a0 rest]; [done|].
  destruct (String.eqb_spec tok "") as [->|Htok].
  2: { exfalso. rewrite bootstrapServers_stored in Hin by done.
       destruct (setServerTokens_provisions fuel c (a0 :: rest) tok w) as [Hall _].
       rewrite List.Forall_forall in Hall.
       destruct (flagSetServerTokens c); [|done].
       rewrite events_triple in Hin. by apply Hall in Hin. }
  destruct (bootstrapServers_fresh_run fuel c a0 rest name w)
    as (br & prov & Hok & Hev & Hprov & _ & _). cbn zeta in Hev.
  rewrite Hev in Hin, Hsplit. clear Hev.
  assert (Forall (fun ev => isBootstrap ev = false) prov) as Hprov'.
  { eapply Forall_impl; [exact Hprov|]. by intros []. }
  apply in_app_iff in Hin as [Hin|Hin].
  2: { rewrite List.Forall_forall in Hprov. by apply Hprov in Hin. }
  set (Q := fun ev => exists cl' resp', ev = EvBootstrap cl' (Ok resp')).
  assert (forall l, Forall (fun ev => isBootstrap ev = false) l ->
                    Forall (fun ev => ~ Q ev) l) as Hweak.
  { intros l Hl. eapply Forall_impl; [exact Hl|].
    intros ev Hev (cl' & resp' & ->). done. }
  assert (forall errs,
            Forall (fun ev => ~ Q ev)
              (EvNewClient (bootstrapConfig c (firstServerAddrOf c a0))
                 (APITimeout c) None ::
               failedBootstraps (bootClient c (firstServerAddrOf c a0)) errs))
    as Hbefore.
  { intros errs. constructor; [by intros (? & ? & ?)|].
    rewrite List.Forall_forall.
    intros ev (e & -> & _)%In_failedBootstraps (? & ? & ?). done. }
  assert (forall sec fails,
            Forall (fun ev => isBootstrap ev = false)
                   (failedWrites (flagK8sNamespace c) sec fails)) as Hwrites.
  { intros sec fails. rewrite List.Forall_forall.
    by intros ev (e & -> & _)%In_failedWrites. }
  apply In_bootRun_ok in Hin as [-> Hbr].
  set (cl0 := bootClient c (firstServerAddrOf c a0)) in *.
  set (new := EvNewClient (bootstrapConfig c (firstServerAddrOf c a0))
                (APITimeout c) None) in *.
  set (sec := bootstrapSecret c name (SecretID resp)).
  assert (exists after,
            Forall (fun ev => isBootstrap ev = false) after /\
            (new :: failedBootstraps cl0 (retried br)) ++
              EvBootstrap cl0 (Ok resp) :: after
            = t1 ++ EvBootstrap cl0 (Ok resp) :: t2) as (after & Hafter & Heq).
  { destruct Hbr as (errs & fails & [->| ->]);
      cbn [bootRunEvents retried] in Hsplit |- *; fold cl0 new sec in Hsplit.
    - exists (failedWrites (flagK8sNamespace c) sec fails ++ prov).
      split; [apply Forall_app; by split|].
      rewrite <- Hsplit. cbn [app]. by rewrite <- !app_assoc.
    - exists (failedWrites (flagK8sNamespace c) sec fails ++
              EvSecretCreate (flagK8sNamespace c) sec None :: prov).
      split.
      { apply Forall_app. split; [done|]. by constructor. }
      rewrite <- Hsplit. cbn [app]. rewrite <- !app_assoc. cbn [app].
      by rewrite <- !app_assoc. }
  apply (split_unique Q) in Heq as [-> ->].
  - split; [|done].
    intros cl' resp' Hin'. specialize (Hbefore (retried br)).
    rewrite List.Forall_forall in Hbefore. apply (Hbefore _ Hin'). by eexists _, _.
  - by eexists _, _.
  - apply Hbefore.
  - by apply Hweak.
Qed.

(** X10.  The token [bootstrapServers] returns after bootstrapping can be
    read back: the store then holds, under the namespace and the secret
    name, a secret whose bytes under the ACL token key decode to the
    returned token; every other secret of the store is as it was. *)
Theorem X10_returned_token_is_read_back fuel c addrs name (w : World B) tok :
  let run := bootstrapServers fuel c addrs "" name w in
  outcome run = Ret (tok, None) ->
  storedToken c name (final run) = Some tok /\
  (forall key, key <> (flagK8sNamespace c, name) ->
     secrets (final run) !! key = secrets w !! key).
Proof.
  cbn zeta. intros Hout. destruct addrs as [|a0 rest]; [done|].
  pose proof (fresh_run_stores fuel c a0 rest name w tok Hout) as Hsec.
  split.
  - destruct (final (bootstrapServers fuel c (a0 :: rest) "" name w))
      as [b store]. cbn [secrets] in Hsec. subst store.
    by apply storedToken_insert.
  - intros key Hkey. rewrite Hsec. by apply lookup_insert_ne.
Qed.

(** X11.  A second run picks up where the first ended: when a run without
    a stored token returned a non-empty token, a run of [bootstrapServers]
    in the world the first left, given the token read back from the store,
    makes no bootstrap call, writes no secret, and leaves the token in the
    store. *)
Theorem X11_second_run_skips_bootstrap
    fuel fuel' c addrs name (w : World B) tok tok' :
  let run1 := bootstrapServers fuel c addrs "" name w in
  outcome run1 = Ret (tok, None) ->
  tok <> "" ->
  storedToken c name (final run1) = Some tok' ->
  let run2 := bootstrapServers fuel' c addrs tok' name (final run1) in
  tok' = tok /\
  Forall (fun ev => bootstrapStep ev = false) (events run2) /\
  storedToken c name (final run2) = Some tok.
Proof.
  cbn zeta. intros Hout Htok Hread. destruct addrs as [|a0 rest]; [done|].
  pose proof (fresh_run_stores fuel c a0 rest name w tok Hout) as Hsec.
  set (w1 := final (bootstrapServers fuel c (a0 :: rest) "" name w)) in *.
  assert (forall w2 : World B, secrets w2 = secrets w1 ->
                               storedToken c name w2 = Some tok) as Hstored.
  { intros [b store] Hw2. cbn [secrets] in Hw2. rewrite Hw2, Hsec.
    by apply storedToken_insert. }
  assert (tok' = tok) as ->.
  { rewrite (Hstored w1 eq_refl) in Hread. by injection Hread. }
  split; [done|].
  rewrite bootstrapServers_stored by done.
  destruct (setServerTokens_provisions fuel' c (a0 :: rest) tok w1)
    as [Hall Hkeep].
  destruct (flagSetServerTokens c).
  - rewrite events_triple, final_triple. split; [exact Hall|]. by apply Hstored.
  - rewrite events_triple, final_triple. split; [constructor|]. by apply Hstored.
Qed.

End Once.

(** ** The token that is reused *)

Section Reuse.

(** X12.  The inner loop of [setServerTokens] looks at matching tokens
    only: a non-empty result is the SecretID of a listed token that has
    exactly one policy, named like the agent policy, and the description
    looked for; and the result does not change when the tokens that do not
    match are taken out of the list. *)
Theorem X12_only_matching_tokens_are_reused
    (existing : list ACLTokenListEntry) (agentPolicy : ACLPolicy) (desc : string) :
  (findExistingToken existing agentPolicy desc <> "" ->
   exists t p,
     In t existing /\
     entry_Policies t = [p] /\
     link_Name p = policy_Name agentPolicy /\
     entry_Description t = desc /\
     entry_SecretID t = findExistingToken existing agentPolicy desc) /\
  findExistingToken (List.filter (matchesToken agentPolicy desc) existing)
                    agentPolicy desc
    = findExistingToken existing agentPolicy desc.
Proof.
  split.
  - induction existing as [|t rest IH]; cbn [findExistingToken]; [done|].
    destruct (entry_Policies t) as [|p [|q ps]] eqn:Hpol; cbn [andb].
    + intros Hne. destruct (IH Hne) as (t' & p' & Hin & Hrest).
      exists t', p'. split; [by right|done].
    + destruct (String.eqb_spec (link_Name p) (policy_Name agentPolicy))
        as [Hname|_]; cbn [andb].
      * destruct (String.eqb_spec (entry_Description t) desc) as [Hdesc|_].
        -- intros _. exists t, p. split; [by left|done].
        -- intros Hne. destruct (IH Hne) as (t' & p' & Hin & Hrest).
           exists t', p'. split; [by right|done].
      * intros Hne. destruct (IH Hne) as (t' & p' & Hin & Hrest).
        exists t', p'. split; [by right|done].
    + intros Hne. destruct (IH Hne) as (t' & p' & Hin & Hrest).
      exists t', p'. split; [by right|done].
  - induction existing as [|t rest IH]; [done|].
    cbn [List.filter findExistingToken]. fold (matchesToken agentPolicy desc t).
    destruct (matchesToken agentPolicy desc t) eqn:Hm; [|exact IH].
    cbn [findExistingToken]. fold (matchesToken agentPolicy desc t).
    by rewrite Hm.
Qed.

(** X13.  The description of a server token tells the servers apart by
    their IP: two addresses get the same description exactly when their
    IPs are the same text. *)
Theorem X13_description_identifies_ip (h1 h2 : IPAddr) :
  tokenDescriptionFor h1 = tokenDescriptionFor h2 <-> IP h1 = IP h2.
Proof.
  unfold tokenDescriptionFor. split; [|by intros ->].
  intros Heq. vm_compute in Heq. by injection Heq.
Qed.

End Reuse.

(** ** The errors that are returned *)

Section Errors.
Context {B : Type} `{Backend B}.

(** [setServerPolicy] returns an error only when the rules do not
    render. *)
Lemma setServerPolicy_error fuel c cl (w : World B) policy e :
  outcome (setServerPolicy fuel c cl w) = Ret (policy, Some e) ->
  agentRules c = Err e.
Proof.
  unfold setServerPolicy. destruct (agentRules c) as [rules|e0].
  - set (opName := "creating agent policy - PUT /v1/acl/policy").
    pose proof (run_eta (untilSucceeds fuel opName
                  (fun vars : unit =>
                     err ← createOrUpdateACLPolicy (agentPolicyOf rules) cl;
                     mret (vars, err))
                  tt w)) as Hloop.
    destruct (upsert_loop fuel opName (agentPolicyOf rules) cl w)
      as [fails [(Hev & Hout & Hlen) | (Hev & Hout)]];
      cbn zeta in Hev, Hout; rewrite Hev, Hout in Hloop;
      unfold agentPolicyOf in Hloop.
    + by rewrite (bind_OutOfFuel _ _ _ _ _ Hloop).
    + by rewrite (bind_Ret _ _ _ _ _ _ Hloop).
  - by intros [= _ ->].
Qed.

(** A loop that returns an error got it from one of its iterations. *)
Lemma forRange_failed {A : Type} (body : A -> M B error) l (w : World B) e :
  outcome (forRange body l w) = Ret (Some e) ->
  exists x w',
    In x l /\ outcome (body x w') = Ret (Some e) /\
    forall ev, In ev (events (body x w')) -> In ev (events (forRange body l w)).
Proof.
  revert w. induction l as [|y l IH]; intros w Hout; [done|].
  rewrite forRange_cons in Hout |- *.
  destruct (outcome (body y w)) as [[e0|]| |] eqn:Hy; try done.
  - rewrite outcome_triple in Hout. injection Hout as ->.
    exists y, w. rewrite events_triple. split; [by left|done].
  - rewrite outcome_triple in Hout. rewrite events_triple.
    destruct (IH _ Hout) as (x & w' & Hx & Hres & Hsub).
    exists x, w'. split; [by right|]. split; [done|].
    intros ev Hev. apply in_app_iff. right. by apply Hsub.
Qed.

(** X14.  What [bootstrapACLs] returns.  With a [nil] error it returns the
    SecretID of a bootstrap call that succeeded, after the create of the
    secret holding it succeeded.  With an error it returns the empty
    string, and the error is one of three: the root-credential-lost error,
    the cannot-reach error, or the wrapped error of the client
    construction; an error of a retried request is never returned. *)
Theorem X14_bootstrapACLs_results fuel c addr name (w : World B) tok err :
  let run := bootstrapACLs fuel c addr name w in
  outcome run = Ret (tok, err) ->
  match err with
  | None =>
      exists resp,
        tok = SecretID resp /\
        In (EvBootstrap (bootClient c addr) (Ok resp)) (events run) /\
        In (EvSecretCreate (flagK8sNamespace c) (bootstrapSecret c name tok) None)
           (events run)
  | Some e =>
      tok = "" /\
      (e = errRootCredentialLost \/ e = errCannotReach \/
       exists e0,
         e = "creating Consul client for address " +:+ addr +:+ ": " +:+ e0)
  end.
Proof.
  cbn zeta. intros Hout.
  destruct (bootstrapACLs_run fuel c addr name w) as (br & _ & Hev & Hout' & _).
  cbn zeta in Hev, Hout'. rewrite Hout' in Hout. rewrite Hev.
  destruct br as [e0|errs|errs e0|errs resp fails|errs resp fails];
    cbn [bootRunOutcome bootRunEvents] in Hout |- *; try done.
  - injection Hout as <- <-. split; [done|]. right. right. by exists e0.
  - injection Hout as <- <-. split; [done|].
    unfold unrecoverable. destruct (is403 e0); [by left|right; by left].
  - injection Hout as <- <-. exists resp. split; [done|]. split.
    + right. apply in_app_iff. right. by left.
    + right. apply in_app_iff. right. right.
      apply in_app_iff. right. by left.
Qed.

(** X15.  The errors [setServerTokens] returns.  An error it returns is
    the error of building a client for one of the servers, or the error of
    rendering the agent rules, or the error of the token list request;
    the failures of the retried requests (policy upsert, token creation,
    push) are never returned. *)
Theorem X15_setServerTokens_errors fuel c addrs tok (w : World B) e :
  let run := setServerTokens fuel c addrs tok w in
  outcome run = Ret (Some e) ->
  (exists host,
     In host addrs /\
     In (EvNewClient (serverConfig c host tok) (APITimeout c) (Some e))
        (events run)) \/
  agentRules c = Err e \/
  (exists cl, In (EvTokenList cl (Err e)) (events run)).
Proof.
  cbn zeta. destruct addrs as [|a0 rest]; [done|].
  unfold setServerTokens.
  rewrite (bind_Ret _ _ _ _ _ _ (consul_NewClient_run _ _ w)).
  destruct (newClient_reply (serverConfig c a0 tok) (APITimeout c) (backend w))
    as [[e0|] b1]; cbn [fst snd].
  { intros [= ->]. left. exists a0. split; by left. }
  fold (serverClient c a0 tok).
  set (w1 := {| backend := b1; secrets := secrets w |}).
  pose proof (setServerPolicy_error fuel c (serverClient c a0 tok) w1) as Hpolicy.
  destruct (setServerPolicy fuel c (serverClient c a0 tok) w1)
    as [[w2 t2] [[policy [e1|]]| |]] eqn:Hrun.
  - rewrite (bind_Ret _ _ _ _ _ _ Hrun). intros [= ->].
    right. left. by apply (Hpolicy policy).
  - rewrite (bind_Ret _ _ _ _ _ _ Hrun). cbn beta iota.
    unfold ACL_TokenList.
    rewrite (bind_Ret _ _ _ _ _ _ (request_run _ _ w2)).
    destruct (tokenList_reply (serverClient c a0 tok) (backend w2))
      as [[existing|e2] b3]; cbn [fst snd];
      rewrite !events_triple, !outcome_triple.
    + intros Hout. destruct (forRange_failed _ _ _ _ Hout)
        as (host & w' & Hhost & Hres & Hsub).
      destruct (serverTokenStep_run fuel c tok policy existing host w')
        as (sr & _ & Hstep & Hres'). cbn zeta in Hstep, Hres'.
      rewrite Hres' in Hres.
      destruct sr as [e3|cfails|src pfails|src pfails]; try done.
      injection Hres as ->. left. exists host. split; [done|].
      apply in_app_iff. right. apply in_app_iff. right.
      apply in_app_iff. right. apply Hsub.
      rewrite Hstep. by left.
    + intros [= ->]. right. right. exists (serverClient c a0 tok).
      apply in_app_iff. right. apply in_app_iff. right. by left.
  - by rewrite (bind_OutOfFuel _ _ _ _ _ Hrun).
  - by rewrite (bind_Panics _ _ _ _ _ Hrun).
Qed.

End Errors.

(** * The further properties on concrete runs *)

(** X2 on a run: the upsert fails twice, then goes through. *)
Lemma X2_witness :
  agentRules (Scripted.cmd true) = Ok "node_prefix {policy = write}" /\
  exists fails,
    (events (setServerPolicy 5 (Scripted.cmd true) Scripted.bootClient1
               (Scripted.world Cases.policyFlaky))
       = failedUpserts (agentPolicyOf "node_prefix {policy = write}")
           Scripted.bootClient1 fails /\
     outcome (setServerPolicy 5 (Scripted.cmd true) Scripted.bootClient1
                (Scripted.world Cases.policyFlaky)) = OutOfFuel /\
     length fails = 5%nat) \/
    (events (setServerPolicy 5 (Scripted.cmd true) Scripted.bootClient1
               (Scripted.world Cases.policyFlaky))
       = failedUpserts (agentPolicyOf "node_prefix {policy = write}")
           Scripted.bootClient1 fails ++
         [EvPolicyUpsert (agentPolicyOf "node_prefix {policy = write}")
            Scripted.bootClient1 None] /\
     outcome (setServerPolicy 5 (Scripted.cmd true) Scripted.bootClient1
                (Scripted.world Cases.policyFlaky))
       = Ret (agentPolicyOf "node_prefix {policy = write}", None)).
Proof.
  assert (agentRules (Scripted.cmd true) = Ok "node_prefix {policy = write}")
    as Hrules by reflexivity.
  split; [exact Hrules|].
  exact (X2_policy_upsert_is_retried 5 (Scripted.cmd true) Scripted.bootClient1
           (Scripted.world Cases.policyFlaky) "node_prefix {policy = write}"
           Hrules).
Defined.

(** X3 on a run: the rule template does not render. *)
Lemma X3_witness :
  setServerTokens 3 Scripted.cmdNoRules Scripted.addrs "root"
    (Scripted.world Scripted.quiet) =
    (Scripted.world Scripted.quiet,
     [EvNewClient (serverConfig Scripted.cmdNoRules Scripted.host1 "root")
        (APITimeout Scripted.cmdNoRules) None],
     Ret (Some "template: agent rules: unexpected EOF")).
Proof.
  refine (proj2 (X3_rules_error_is_not_retried 3 Scripted.cmdNoRules
                   Scripted.host1 [Cases.host2] "root"
                   (Scripted.world Scripted.quiet)
                   "template: agent rules: unexpected EOF" Scripted.quiet _ _)).
  - reflexivity.
  - reflexivity.
Defined.

(** X4 on a run: the client for the first server cannot be built. *)
Lemma X4_witness :
  bootstrapServers 3 (Scripted.cmd true) Scripted.addrs "" "boot"
    (Scripted.world Cases.noClient) =
    (Scripted.world Scripted.quiet,
     [EvNewClient (bootstrapConfig (Scripted.cmd true) "10.0.0.1:8500")
        (APITimeout (Scripted.cmd true)) (Some "invalid CA file")],
     Ret ("", Some "creating Consul client for address 10.0.0.1:8500: invalid CA file")).
Proof.
  refine (X4_client_failure_is_wrapped 3 (Scripted.cmd true) Scripted.host1
            [Cases.host2] "boot" (Scripted.world Cases.noClient)
            "invalid CA file" Scripted.quiet _).
  reflexivity.
Defined.

(** X7 on a run: both servers have a listed token. *)
Lemma X7_witness :
  Forall (fun ev => isTokenCreate ev = false)
    (events (setServerTokens 3 (Scripted.cmd true) Scripted.addrs "root"
               (Scripted.world Cases.allListed))).
Proof.
  refine (X7_no_create_when_all_listed 3 (Scripted.cmd true) Scripted.addrs
            "root" (Scripted.world Cases.allListed)
            "node_prefix {policy = write}"
            (serverClient (Scripted.cmd true) Scripted.host1 "root")
            [Cases.token1; Cases.token2] _ _ _).
  - reflexivity.
  - vm_compute. right. right. left. reflexivity.
  - intros host [<-|[<-|[]]]; vm_compute; discriminate.
Defined.

(** X8 on a run: everything succeeds, and the first server is pushed a
    token. *)
Lemma X8_witness :
  exists secret,
    In (EvUpdateAgentACLToken
          (serverClient (Scripted.cmd true) Scripted.host1 "root") secret None)
       (events (setServerTokens 3 (Scripted.cmd true) Scripted.addrs "root"
                  (Scripted.world Scripted.quiet))).
Proof.
  refine (X8_success_pushes_every_server 3 (Scripted.cmd true) Scripted.addrs
            "root" (Scripted.world Scripted.quiet) Scripted.host1 _ _).
  - vm_compute. reflexivity.
  - left. reflexivity.
Defined.

(** X9 on a run: no leader at first, then the bootstrap succeeds. *)
Lemma X9_witness :
  Forall (fun ev => isBootstrap ev = false)
    [EvSecretCreate "consul"
       (bootstrapSecret (Scripted.cmd false) "boot" "secret") None].
Proof.
  refine (proj2 (X9_bootstrap_succeeds_once 3 (Scripted.cmd false)
                   Scripted.addrs "" "boot" (Scripted.world Scripted.noLeader)
                   [EvNewClient (bootstrapConfig (Scripted.cmd false) "10.0.0.1:8500")
                      (APITimeout (Scripted.cmd false)) None;
                    EvBootstrap Scripted.bootClient1 (Err Scripted.errNoLeader)]
                   Scripted.bootClient1 Scripted.defaultToken
                   [EvSecretCreate "consul"
                      (bootstrapSecret (Scripted.cmd false) "boot" "secret") None]
                   _)).
  vm_compute. reflexivity.
Defined.

(** X10 on a run: the token "secret" is returned and read back. *)
Lemma X10_witness :
  storedToken (Scripted.cmd false) "boot"
    (final (bootstrapServers 3 (Scripted.cmd false) Scripted.addrs "" "boot"
              (Scripted.world Scripted.noLeader))) = Some "secret".
Proof.
  refine (proj1 (X10_returned_token_is_read_back 3 (Scripted.cmd false)
                   Scripted.addrs "boot" (Scripted.world Scripted.noLeader)
                   "secret" _)).
  vm_compute. reflexivity.
Defined.

(** X11 on two runs: the second is given the token the first stored. *)
Lemma X11_witness :
  Forall (fun ev => bootstrapStep ev = false)
    (events (bootstrapServers 3 (Scripted.cmd true) Scripted.addrs "secret" "boot"
               (final (bootstrapServers 3 (Scripted.cmd true) Scripted.addrs ""
                         "boot" (Scripted.world Scripted.quiet))))).
Proof.
  refine (proj1 (proj2 (X11_second_run_skips_bootstrap 3 3 (Scripted.cmd true)
                          Scripted.addrs "boot" (Scripted.world Scripted.quiet)
                          "secret" "secret" _ _ _))).
  - vm_compute. reflexivity.
  - discriminate.
  - vm_compute. reflexivity.
Defined.

(** X14 on a run: the first server refuses the connection. *)
Lemma X14_witness :
  "" = "" /\
  (errCannotReach = errRootCredentialLost \/ errCannotReach = errCannotReach \/
   exists e0,
     errCannotReach =
       "creating Consul client for address " +:+ "10.0.0.1:8500" +:+ ": " +:+ e0).
Proof.
  refine (X14_bootstrapACLs_results 5 (Scripted.cmd true) "10.0.0.1:8500" "boot"
            (Scripted.world Scripted.refused) "" (Some errCannotReach) _).
  vm_compute. reflexivity.
Defined.

(** X15 on a run: the token list cannot be fetched. *)
Lemma X15_witness :
  (exists host,
     In host Scripted.addrs /\
     In (EvNewClient (serverConfig (Scripted.cmd true) host "root")
           (APITimeout (Scripted.cmd true)) (Some Scripted.errListFailed))
        (events (setServerTokens 3 (Scripted.cmd true) Scripted.addrs "root"
                   (Scripted.world Scripted.listFails)))) \/
  agentRules (Scripted.cmd true) = Err Scripted.errListFailed \/
  (exists cl,
     In (EvTokenList cl (Err Scripted.errListFailed))
        (events (setServerTokens 3 (Scripted.cmd true) Scripted.addrs "root"
                   (Scripted.world Scripted.listFails)))).
Proof.
  refine (X15_setServerTokens_errors 3 (Scripted.cmd true) Scripted.addrs "root"
            (Scripted.world Scripted.listFails) Scripted.errListFailed _).
  vm_compute. reflexivity.
Defined.

(** X5 on a run: the token of the first server is created and pushed, the
    client of the second server cannot be built, and the loop returns that
    error. *)
Lemma X5_witness :
  outcome (forRange (serverTokenStep 3 (Scripted.cmd true) "secret"
                       (agentPolicyOf "node_prefix {policy = write}") [])
             Scripted.addrs (Scripted.world Cases.secondServerDown))
    = Ret (Some "invalid address").
Proof.
  refine (proj2 (proj2 (X5_servers_in_list_order 3 (Scripted.cmd true) "secret"
                          (agentPolicyOf "node_prefix {policy = write}") []
                          Scripted.addrs (Scripted.world Cases.secondServerDown))
                   (stepEvents (Scripted.cmd true) "secret"
                      (agentPolicyOf "node_prefix {policy = write}")
                      Scripted.host1 ""
                      (Pushed (Created [] Scripted.defaultToken) []))
                   (serverConfig (Scripted.cmd true) Cases.host2 "secret")
                   (APITimeout (Scripted.cmd true)) "invalid address" [] _)).
  vm_compute. reflexivity.
Defined.
